(** * Carbontrackpro: the GHG Protocol calculator

    A shallow embedding of [emission_factors.py], [ghg_protocol.py] and of the
    aggregation block of [app.py] (the "Calculate Carbon Footprint" button).

    Modelling choices.
    - Numbers.  The Python code computes with [int] and [float].  The code
      is embedded twice.  In the first embedding every quantity is an exact
      rational ([Q]); a float literal such as [0.00195] is the rational it
      denotes, and equalities between quantities are stated with [==]
      ([Qeq]).  It serves the properties that state which formula, which
      factor or which branch the code takes.  Rounding, overflow and NaN
      are outside of it: the properties on the sign of the results, on the
      aggregation and on the ranking of categories are settled in the
      second embedding, in binary64 ([PrimFloat]), further down.
    - Dictionaries are [gmap string _].  A subscript [d[k]] may raise
      [KeyError], [d.get(k, v)] never does.
    - Exceptions are explicit: a call returns [Ok v] or [Raise e].
    - Strings are [string]s of bytes (the UTF-8 encoding of the Python
      string); [str.lower] acts on the ASCII letters.  Python lowers other
      letters too, which changes no lookup: the only one that becomes an
      ASCII letter is U+212A (to k), and no key that the code builds with
      [lower()] contains a k.

    The later modules embed [recommendations.py], [carbon_offsets.py]
    (except the HTML formatting), the "Key Recommendations" block and the
    "Percentage" columns of [report_generator.py], and the offsets button of
    [app.py].
    - A dictionary whose order matters (the emissions by scope and by
      category, the table of projects, the recommendations) is the list of
      its items in insertion order.
    - [sorted(..., reverse=True)] is a stable descending sort, [max] gives
      the first greatest element and raises [ValueError] on an empty
      sequence, a division by a computed number may raise
      [ZeroDivisionError].
    - The built-in [round] on floats is a parameter of the functions that
      call it. *)

From Stdlib Require Import QArith Qabs Lqa Lia String Ascii List.
From Stdlib Require Import Sorted Permutation.
From Stdlib Require Import Floats.
From stdpp Require Import gmap strings list fin_maps.
Import ListNotations.

Local Open Scope string_scope.
Local Open Scope Q_scope.

(** ** Exceptions *)

Inductive exn : Type :=
| KeyError (key : string)
| TypeError.

Inductive result (A : Type) : Type :=
| Ok (a : A)
| Raise (e : exn).

Arguments Ok {A} a.
Arguments Raise {A} e.

Definition bind {A B : Type} (r : result A) (k : A -> result B) : result B :=
  match r with
  | Ok a => k a
  | Raise e => Raise e
  end.

Notation "'let*' x ':=' r 'in' k" := (bind r (fun x => k))
  (at level 10, x name, r at level 100, k at level 200).

(** [d[k]]: the value stored under [k], or [KeyError]. *)
Definition subscript {V : Type} (d : gmap string V) (k : string) : result V :=
  match d !! k with
  | Some v => Ok v
  | None => Raise (KeyError k)
  end.

(** [d[k]] where [d] may be [None], which has no subscript. *)
Definition subscript_opt {V : Type} (d : option (gmap string V)) (k : string)
    : result V :=
  match d with
  | Some m => subscript m k
  | None => Raise TypeError
  end.

(** [d.get(k, v)]: the value stored under [k], or [v]. *)
Definition get {V : Type} (d : gmap string V) (k : string) (v : V) : V :=
  match d !! k with
  | Some x => x
  | None => v
  end.

(** ** String methods *)

Module Str.

(** [c.lower()] for one character. *)
Definition lower_ascii (c : ascii) : ascii :=
  let n := nat_of_ascii c in
  if (Nat.leb 65 n && Nat.leb n 90)%bool then ascii_of_nat (n + 32) else c.

(** [s.lower()] *)
Fixpoint lower (s : string) : string :=
  match s with
  | EmptyString => EmptyString
  | String c s' => String (lower_ascii c) (lower s')
  end.

(** The scan of [s.replace(old, new)] for a non-empty [old]: [skip] counts
    the characters of a match of [old] that are still to be dropped. *)
Fixpoint replace_scan (old new s : string) (skip : nat) : string :=
  match s with
  | EmptyString => EmptyString
  | String c s' =>
      match skip with
      | S k => replace_scan old new s' k
      | O =>
          if String.prefix old s
          then new ++ replace_scan old new s' (String.length old - 1)
          else String c (replace_scan old new s' 0)
      end
  end.

(** With an empty [old], [new] is put before every character and at the
    end. *)
Fixpoint intersperse (new s : string) : string :=
  match s with
  | EmptyString => new
  | String c s' => new ++ String c (intersperse new s')
  end.

(** [s.replace(old, new)] *)
Definition replace (s old new : string) : string :=
  match old with
  | EmptyString => intersperse new s
  | String _ _ => replace_scan old new s 0
  end.

End Str.

(** ** emission_factors.py *)

Module ef.

Definition STATIONARY_COMBUSTION : gmap string Q :=
  list_to_map
    [ ("natural_gas", 0.00195);
      ("diesel", 0.00273);
      ("propane", 0.00153);
      ("fuel_oil", 0.00281) ].

Definition MOBILE_COMBUSTION : gmap string Q :=
  list_to_map
    [ ("gasoline", 0.00234);
      ("diesel", 0.00267);
      ("jet_fuel", 0.00259) ].

Definition REFRIGERANTS : gmap string Q :=
  list_to_map
    [ ("R-134a", 1430);
      ("R-410A", 2088);
      ("R-404A", 3922);
      ("R-22", 1810);
      ("None", 0) ].

Definition ELECTRICITY : gmap string Q :=
  list_to_map
    [ ("northeast_us", 0.000254);
      ("midwest_us", 0.000481);
      ("south_us", 0.000427);
      ("west_us", 0.000221);
      ("western_europe", 0.000276);
      ("eastern_europe", 0.000483);
      ("asia", 0.000562);
      ("renewable", 0.000016);
      ("mixed", 0.000320);
      ("default", 0.000431) ].

Definition BUSINESS_TRAVEL : gmap string Q :=
  list_to_map
    [ ("air_short_haul", 0.000258);
      ("air_medium_haul", 0.000168);
      ("air_long_haul", 0.000153);
      ("car_rental", 0.000348);
      ("hotel_stay", 0.021) ].

Definition COMMUTING : gmap string Q :=
  list_to_map
    [ ("car", 0.000348);
      ("carpool", 0.000162);
      ("public_transit", 0.000096);
      ("walking_biking", 0);
      ("wfh", 0.000032) ].

Definition WASTE : gmap string Q :=
  list_to_map
    [ ("landfill", 0.458);
      ("recycled", 0.021);
      ("composted", 0.023);
      ("incinerated", 0.0136) ].

Definition PURCHASED_GOODS : gmap string Q :=
  list_to_map
    [ ("manufacturing", 563);
      ("technology", 386);
      ("retail", 274);
      ("healthcare", 221);
      ("education", 176);
      ("financial_services", 143);
      ("food_beverage", 498);
      ("default", 412) ].

End ef.

(** ** ghg_protocol.py *)

Module ghg.

Definition calculate_stationary_combustion
    (natural_gas diesel propane fuel_oil : Q) : result Q :=
  let* f_natural_gas := subscript ef.STATIONARY_COMBUSTION "natural_gas" in
  let natural_gas_emissions := natural_gas * f_natural_gas in
  let* f_diesel := subscript ef.STATIONARY_COMBUSTION "diesel" in
  let diesel_emissions := diesel * f_diesel in
  let* f_propane := subscript ef.STATIONARY_COMBUSTION "propane" in
  let propane_emissions := propane * f_propane in
  let* f_fuel_oil := subscript ef.STATIONARY_COMBUSTION "fuel_oil" in
  let fuel_oil_emissions := fuel_oil * f_fuel_oil in
  let total_emissions :=
    natural_gas_emissions + diesel_emissions + propane_emissions
    + fuel_oil_emissions in
  Ok total_emissions.

Definition calculate_mobile_combustion (gasoline diesel jet_fuel : Q)
    : result Q :=
  let* f_gasoline := subscript ef.MOBILE_COMBUSTION "gasoline" in
  let gasoline_emissions := gasoline * f_gasoline in
  let* f_diesel := subscript ef.MOBILE_COMBUSTION "diesel" in
  let diesel_emissions := diesel * f_diesel in
  let* f_jet_fuel := subscript ef.MOBILE_COMBUSTION "jet_fuel" in
  let jet_fuel_emissions := jet_fuel * f_jet_fuel in
  let total_emissions :=
    gasoline_emissions + diesel_emissions + jet_fuel_emissions in
  Ok total_emissions.

Definition calculate_refrigerant_emissions
    (refrigerant_type : string) (amount : Q) : result Q :=
  if (String.eqb refrigerant_type "None" || Qeq_bool amount 0)%bool
  then Ok 0
  else
    let emissions :=
      amount * get ef.REFRIGERANTS refrigerant_type 0 / 1000 in
    Ok emissions.

(** [grid_region.lower().replace(" ", "_")] *)
Definition grid_region_key (grid_region : string) : string :=
  Str.replace (Str.lower grid_region) " " "_".

(** [industry.lower().replace(" & ", "_").replace(" ", "_")] *)
Definition industry_key (industry : string) : string :=
  Str.replace (Str.replace (Str.lower industry) " & " "_") " " "_".

Definition calculate_electricity_emissions
    (electricity : Q) (grid_region electricity_source : string)
    : result Q :=
  let* emissions_factor :=
    if String.eqb electricity_source "Renewable Energy"
    then subscript ef.ELECTRICITY "renewable"
    else if String.eqb electricity_source "Mixed Sources"
    then subscript ef.ELECTRICITY "mixed"
    else
      let key := grid_region_key grid_region in
      let* dflt := subscript ef.ELECTRICITY "default" in
      Ok (get ef.ELECTRICITY key dflt) in
  let emissions := electricity * emissions_factor / 1000 in
  Ok emissions.

Definition calculate_business_travel_emissions
    (air_travel_short air_travel_medium air_travel_long
     car_rental hotel_stays : Q) : result Q :=
  let* f_short := subscript ef.BUSINESS_TRAVEL "air_short_haul" in
  let air_short_emissions := air_travel_short * f_short in
  let* f_medium := subscript ef.BUSINESS_TRAVEL "air_medium_haul" in
  let air_medium_emissions := air_travel_medium * f_medium in
  let* f_long := subscript ef.BUSINESS_TRAVEL "air_long_haul" in
  let air_long_emissions := air_travel_long * f_long in
  let* f_car := subscript ef.BUSINESS_TRAVEL "car_rental" in
  let car_rental_emissions := car_rental * f_car in
  let* f_hotel := subscript ef.BUSINESS_TRAVEL "hotel_stay" in
  let hotel_emissions := hotel_stays * f_hotel in
  let total_emissions :=
    air_short_emissions + air_medium_emissions + air_long_emissions
    + car_rental_emissions + hotel_emissions in
  Ok total_emissions.

(** The dictionary literal of the single-mode branch. *)
Definition mode_mapping : gmap string string :=
  list_to_map
    [ ("Car (Single Occupancy)", "car");
      ("Carpool", "carpool");
      ("Public Transit", "public_transit");
      ("Walking/Biking", "walking_biking");
      ("Work from Home", "wfh") ]%string.

(** Truth value of an optional dictionary: [None] and [{}] are false. *)
Definition truthy {V : Type} (d : option (gmap string V)) : bool :=
  match d with
  | None => false
  | Some m => negb (Nat.eqb (size m) 0)
  end.

Definition total_annual_miles
    (avg_commute_distance num_employees commute_days_per_year : Q) : Q :=
  avg_commute_distance * 2 * num_employees * commute_days_per_year.

Definition calculate_employee_commuting_emissions
    (avg_commute_distance num_employees commute_days_per_year : Q)
    (commute_mode : string) (mode_breakdown : option (gmap string Q))
    : result Q :=
  let miles :=
    total_annual_miles avg_commute_distance num_employees
      commute_days_per_year in
  if (String.eqb commute_mode "Mixed" && truthy mode_breakdown)%bool
  then
    let* b_car := subscript_opt mode_breakdown "car" in
    let* f_car := subscript ef.COMMUTING "car" in
    let car_emissions := miles * b_car * f_car in
    let* b_carpool := subscript_opt mode_breakdown "carpool" in
    let* f_carpool := subscript ef.COMMUTING "carpool" in
    let carpool_emissions := miles * b_carpool * f_carpool in
    let* b_transit := subscript_opt mode_breakdown "public_transit" in
    let* f_transit := subscript ef.COMMUTING "public_transit" in
    let transit_emissions := miles * b_transit * f_transit in
    let* b_walking := subscript_opt mode_breakdown "walking_biking" in
    let* f_walking := subscript ef.COMMUTING "walking_biking" in
    let walking_biking_emissions := miles * b_walking * f_walking in
    let* b_wfh := subscript_opt mode_breakdown "wfh" in
    let* f_wfh := subscript ef.COMMUTING "wfh" in
    let wfh_emissions := miles * b_wfh * f_wfh in
    let total_emissions :=
      car_emissions + carpool_emissions + transit_emissions
      + walking_biking_emissions + wfh_emissions in
    Ok total_emissions
  else
    let* emission_factor :=
      subscript ef.COMMUTING (get mode_mapping commute_mode "car") in
    let total_emissions := miles * emission_factor in
    Ok total_emissions.

Definition calculate_waste_emissions
    (landfill_waste recycled_waste composted_waste incinerated_waste : Q)
    : result Q :=
  let* f_landfill := subscript ef.WASTE "landfill" in
  let landfill_emissions := landfill_waste * f_landfill in
  let* f_recycled := subscript ef.WASTE "recycled" in
  let recycled_emissions := recycled_waste * f_recycled in
  let* f_composted := subscript ef.WASTE "composted" in
  let composted_emissions := composted_waste * f_composted in
  let* f_incinerated := subscript ef.WASTE "incinerated" in
  let incinerated_emissions := incinerated_waste * f_incinerated in
  let total_emissions :=
    landfill_emissions + recycled_emissions + composted_emissions
    + incinerated_emissions in
  Ok total_emissions.

Definition calculate_purchased_goods_emissions
    (purchased_goods : Q) (industry : string) : result Q :=
  let key := industry_key industry in
  let* dflt := subscript ef.PURCHASED_GOODS "default" in
  let industry_factor := get ef.PURCHASED_GOODS key dflt in
  let emissions := purchased_goods / 1000000 * industry_factor in
  Ok emissions.

End ghg.

(** ** app.py: the form and the "Calculate Carbon Footprint" button *)

Module app.

(** The values of the input widgets.  [number_input] widgets with a float
    [min_value] give floats, those with an int [min_value] and the sliders
    give ints. *)
Record FormInput : Type := {
  industry : string;
  num_employees : Z;
  natural_gas : Q;
  diesel : Q;
  propane : Q;
  fuel_oil : Q;
  gasoline : Q;
  diesel_vehicles : Q;
  jet_fuel : Q;
  refrigerant_type : string;
  refrigerant_amount : Q;
  electricity_source : string;
  electricity : Q;
  grid_region : string;
  air_travel_short : Q;
  air_travel_medium : Q;
  air_travel_long : Q;
  car_rental : Q;
  hotel_stays : Z;
  avg_commute_distance : Q;
  commute_days_per_year : Z;
  commute_mode : string;
  car_percent : Z;
  carpool_percent : Z;
  public_transit_percent : Z;
  walking_biking_percent : Z;
  wfh_percent : Z;
  landfill_waste : Q;
  recycled_waste : Q;
  composted_waste : Q;
  incinerated_waste : Q;
  purchased_goods : Z
}.

(** What the button stores in the session state.  A Python dict keeps its
    insertion order, so the two breakdowns are lists of items. *)
Record EmissionsResult : Type := {
  total_emissions : Q;
  emissions_by_scope : list (string * Q);
  emissions_by_category : list (string * Q)
}.

(** [d.values()] *)
Definition values (d : list (string * Q)) : list Q := List.map snd d.

(** [sum(xs)]: starts from 0 and adds from the left. *)
Definition sum (xs : list Q) : Q := List.fold_left Qplus xs 0.

(** [p/100 if commute_mode == "Mixed" else (1 if commute_mode == m else 0)] *)
Definition share (commute_mode : string) (percent : Z) (m : string) : Q :=
  if String.eqb commute_mode "Mixed" then inject_Z percent / 100
  else if String.eqb commute_mode m then 1 else 0.

Definition mode_breakdown_of (i : FormInput) : gmap string Q :=
  list_to_map
    [ ("car", share (commute_mode i) (car_percent i) "Car (Single Occupancy)");
      ("carpool", share (commute_mode i) (carpool_percent i) "Carpool");
      ("public_transit",
        share (commute_mode i) (public_transit_percent i) "Public Transit");
      ("walking_biking",
        share (commute_mode i) (walking_biking_percent i) "Walking/Biking");
      ("wfh", share (commute_mode i) (wfh_percent i) "Work from Home") ].

Definition calculate_button (i : FormInput) : result EmissionsResult :=
  let* scope1_stationary :=
    ghg.calculate_stationary_combustion
      (natural_gas i) (diesel i) (propane i) (fuel_oil i) in
  let* scope1_mobile :=
    ghg.calculate_mobile_combustion
      (gasoline i) (diesel_vehicles i) (jet_fuel i) in
  let* scope1_refrigerants :=
    ghg.calculate_refrigerant_emissions
      (refrigerant_type i) (refrigerant_amount i) in
  let* scope2_electricity :=
    ghg.calculate_electricity_emissions
      (electricity i) (grid_region i) (electricity_source i) in
  let* scope3_business_travel :=
    ghg.calculate_business_travel_emissions
      (air_travel_short i) (air_travel_medium i) (air_travel_long i)
      (car_rental i) (inject_Z (hotel_stays i)) in
  let* scope3_employee_commuting :=
    ghg.calculate_employee_commuting_emissions
      (avg_commute_distance i) (inject_Z (num_employees i))
      (inject_Z (commute_days_per_year i)) (commute_mode i)
      (Some (mode_breakdown_of i)) in
  let* scope3_waste :=
    ghg.calculate_waste_emissions
      (landfill_waste i) (recycled_waste i) (composted_waste i)
      (incinerated_waste i) in
  let* scope3_purchased_goods :=
    ghg.calculate_purchased_goods_emissions
      (inject_Z (purchased_goods i)) (industry i) in
  let scope1_total :=
    scope1_stationary + scope1_mobile + scope1_refrigerants in
  let scope2_total := scope2_electricity in
  let scope3_total :=
    scope3_business_travel + scope3_employee_commuting + scope3_waste
    + scope3_purchased_goods in
  let total := scope1_total + scope2_total + scope3_total in
  Ok {| total_emissions := total;
        emissions_by_scope :=
          [ ("Scope 1", scope1_total);
            ("Scope 2", scope2_total);
            ("Scope 3", scope3_total) ];
        emissions_by_category :=
          [ ("Stationary Combustion", scope1_stationary);
            ("Mobile Combustion", scope1_mobile);
            ("Refrigerants", scope1_refrigerants);
            ("Purchased Electricity", scope2_electricity);
            ("Business Travel", scope3_business_travel);
            ("Employee Commuting", scope3_employee_commuting);
            ("Waste Generation", scope3_waste);
            ("Purchased Goods & Services", scope3_purchased_goods) ] |}.

(** Every numeric input is non-negative, as the widgets enforce
    ([min_value=0.0], [min_value=0], [min_value=1], sliders from 0). *)
Record nonneg_inputs (i : FormInput) : Prop := {
  nn_num_employees : (0 <= num_employees i)%Z;
  nn_natural_gas : 0 <= natural_gas i;
  nn_diesel : 0 <= diesel i;
  nn_propane : 0 <= propane i;
  nn_fuel_oil : 0 <= fuel_oil i;
  nn_gasoline : 0 <= gasoline i;
  nn_diesel_vehicles : 0 <= diesel_vehicles i;
  nn_jet_fuel : 0 <= jet_fuel i;
  nn_refrigerant_amount : 0 <= refrigerant_amount i;
  nn_electricity : 0 <= electricity i;
  nn_air_travel_short : 0 <= air_travel_short i;
  nn_air_travel_medium : 0 <= air_travel_medium i;
  nn_air_travel_long : 0 <= air_travel_long i;
  nn_car_rental : 0 <= car_rental i;
  nn_hotel_stays : (0 <= hotel_stays i)%Z;
  nn_avg_commute_distance : 0 <= avg_commute_distance i;
  nn_commute_days_per_year : (0 <= commute_days_per_year i)%Z;
  nn_car_percent : (0 <= car_percent i)%Z;
  nn_carpool_percent : (0 <= carpool_percent i)%Z;
  nn_public_transit_percent : (0 <= public_transit_percent i)%Z;
  nn_walking_biking_percent : (0 <= walking_biking_percent i)%Z;
  nn_wfh_percent : (0 <= wfh_percent i)%Z;
  nn_landfill_waste : 0 <= landfill_waste i;
  nn_recycled_waste : 0 <= recycled_waste i;
  nn_composted_waste : 0 <= composted_waste i;
  nn_incinerated_waste : 0 <= incinerated_waste i;
  nn_purchased_goods : (0 <= purchased_goods i)%Z
}.

End app.

(** ** Python built-ins used by the other modules *)

Module Py.

(** [ValueError] is what [max] raises on an empty sequence, and
    [ZeroDivisionError] what [/] raises on a zero divisor. *)
Inductive error : Type :=
| ValueError
| ZeroDivisionError
| Exn (e : exn).

Inductive outcome (A : Type) : Type :=
| Returns (a : A)
| Raises (e : error).

Arguments Returns {A} a.
Arguments Raises {A} e.

Definition and_then {A B : Type} (o : outcome A) (k : A -> outcome B)
    : outcome B :=
  match o with
  | Returns a => k a
  | Raises e => Raises e
  end.

(** [a < b] on numbers. *)
Definition Qlt_bool (a b : Q) : bool := negb (Qle_bool b a).

(** [a / b] where [b] is not a literal. *)
Definition truediv (a b : Q) : outcome Q :=
  if Qeq_bool b 0 then Raises ZeroDivisionError else Returns (a / b).

(** [x in l] for a list of strings. *)
Definition mem (x : string) (l : list string) : bool :=
  List.existsb (String.eqb x) l.

(** [d[k]] for a dictionary that is kept as the list of its items, in
    insertion order. *)
Fixpoint lookup {V : Type} (d : list (string * V)) (k : string) : option V :=
  match d with
  | [] => None
  | (k', v) :: d' => if String.eqb k' k then Some v else lookup d' k
  end.

(** [d[k] = v]: the value of an existing key is replaced where it is, a new
    key goes to the end. *)
Fixpoint dict_set {V : Type} (d : list (string * V)) (k : string) (v : V)
    : list (string * V) :=
  match d with
  | [] => [(k, v)]
  | (k', v') :: d' =>
      if String.eqb k' k then (k', v) :: d' else (k', v') :: dict_set d' k v
  end.

Section Ordering.

Context {A K : Type} (ltb : K -> K -> bool) (key : A -> K).

(** [x] goes before the first element whose key is not greater than its
    own: after the greater ones, before the equal ones. *)
Fixpoint insert_desc (x : A) (l : list A) : list A :=
  match l with
  | [] => [x]
  | y :: l' => if ltb (key x) (key y) then y :: insert_desc x l' else x :: l
  end.

(** [sorted(l, key=key, reverse=True)]: descending, and stable (elements
    with equal keys keep the order they have in [l]). *)
Definition sorted_desc (l : list A) : list A :=
  List.fold_right insert_desc [] l.

(** [max(l, key=key)]: the first element with the greatest key. *)
Definition max_by (l : list A) : outcome A :=
  match l with
  | [] => Raises ValueError
  | x :: l' =>
      Returns
        (List.fold_left
           (fun best y => if ltb (key best) (key y) then y else best) l' x)
  end.

End Ordering.

End Py.

(** ** recommendations.py *)

Module rec.

Definition get_category_recommendations
    (category industry : string) (is_priority : bool) : list string :=
  let recommendations :=
    if String.eqb category "Stationary Combustion" then
        ([ "Conduct an energy audit to identify heating system inefficiencies";
          "Implement a preventive maintenance program for combustion equipment";
          "Upgrade to high-efficiency boilers and furnaces";
          "Improve building insulation and seal air leaks";
          "Install programmable thermostats and optimize temperature settings" ]
        ++ (if String.eqb industry "Manufacturing"
            then [ "Recover and reuse waste heat from industrial processes";
                   "Explore fuel switching to lower-carbon alternatives" ]
            else []))%list
    else if String.eqb category "Mobile Combustion" then
        ([ "Develop a green fleet management strategy";
          "Replace older vehicles with fuel-efficient or electric models";
          "Implement driver training for fuel-efficient driving techniques";
          "Optimize delivery routes and logistics planning";
          "Consider alternative-fuel vehicles where appropriate" ]
        ++ (if (String.eqb industry "Retail" || String.eqb industry "Food & Beverage")%bool
            then [ "Optimize delivery schedules to reduce empty miles" ]
            else []))%list
    else if String.eqb category "Refrigerants" then
        [ "Implement a refrigerant management and leak detection program";
          "Transition to refrigerants with lower global warming potential";
          "Ensure proper maintenance of cooling equipment";
          "Train technicians on best practices for refrigerant handling";
          "Consider natural refrigerants for new equipment purchases" ]
    else if String.eqb category "Purchased Electricity" then
        ([ "Conduct a lighting audit and upgrade to LED technology";
          "Install occupancy sensors and daylight harvesting systems";
          "Purchase renewable energy or renewable energy credits";
          "Optimize HVAC scheduling and operations";
          "Investigate on-site renewable energy generation" ]
        ++ (if String.eqb industry "Technology"
            then [ "Implement server virtualization and data center efficiency measures" ]
            else []))%list
    else if String.eqb category "Business Travel" then
        [ "Develop a sustainable travel policy";
          "Increase use of video conferencing to reduce non-essential travel";
          "When travel is necessary, prioritize direct flights over connections";
          "Consider carbon offsets for unavoidable air travel";
          "Choose hotels with green certifications" ]
    else if String.eqb category "Employee Commuting" then
        [ "Implement a flexible work policy including remote work options";
          "Offer incentives for carpooling and public transit use";
          "Install EV charging stations at your facility";
          "Create a bike-friendly workplace with secure storage and showers";
          "Consider a compressed work week (e.g., 4 day/10 hour schedule)" ]
    else if String.eqb category "Waste Generation" then
        ([ "Conduct a waste audit to identify reduction opportunities";
          "Implement a comprehensive recycling program";
          "Start composting organic waste";
          "Set targets for zero waste to landfill";
          "Engage employees in waste reduction initiatives" ]
        ++ (if String.eqb industry "Food & Beverage"
            then [ "Donate excess food to local food banks";
                   "Implement food waste tracking and prevention measures" ]
            else []))%list
    else if String.eqb category "Purchased Goods & Services" then
        ([ "Develop sustainable procurement guidelines";
          "Engage suppliers on their emissions reduction efforts";
          "Select products with environmental certifications";
          "Reduce packaging or switch to sustainable packaging";
          "Conduct lifecycle assessments for key products" ]
        ++ (if String.eqb industry "Manufacturing"
            then [ "Redesign products for reduced material use and longer lifespan" ]
            else []))%list
    else [] in
  if is_priority then
      if String.eqb category "Stationary Combustion" then
        "PRIORITY: Consider a comprehensive energy efficiency retrofit" :: recommendations
      else if String.eqb category "Mobile Combustion" then
        "PRIORITY: Develop a fleet electrification strategy and timeline" :: recommendations
      else if String.eqb category "Purchased Electricity" then
        "PRIORITY: Consider a power purchase agreement (PPA) for renewable energy" :: recommendations
      else if String.eqb category "Business Travel" then
        "PRIORITY: Set a business travel carbon budget with reduction targets" :: recommendations
      else if String.eqb category "Employee Commuting" then
        "PRIORITY: Implement a comprehensive sustainable commuting program" :: recommendations
      else if String.eqb category "Waste Generation" then
        "PRIORITY: Establish a formal zero waste program with measurable targets" :: recommendations
      else if String.eqb category "Purchased Goods & Services" then
        "PRIORITY: Engage top suppliers on science-based emissions reduction targets" :: recommendations
      else recommendations
  else recommendations.

(** The local [top_categories] of [generate_recommendations]. *)
Definition top_categories (emissions_by_category : list (string * Q))
    : list string :=
  let sorted_categories :=
    Py.sorted_desc Py.Qlt_bool snd emissions_by_category in
  List.firstn 3
    (List.map fst
       (List.filter (fun item => Py.Qlt_bool 0 (snd item)) sorted_categories)).

(** The dictionaries are lists of items in insertion order; the loop
    [for category in d: ... d[category] ...] visits the items. *)
Definition generate_recommendations
    (emissions_by_category : list (string * Q)) (industry : string)
    : list (string * list string) :=
  let top_categories := top_categories emissions_by_category in
  List.fold_left
    (fun recommendations item =>
       let category := fst item in
       if Py.Qlt_bool 0 (snd item) then
         let category_recommendations :=
           get_category_recommendations category industry
             (Py.mem category top_categories) in
         match category_recommendations with
         | [] => recommendations
         | _ :: _ =>
             Py.dict_set recommendations category category_recommendations
         end
       else recommendations)
    emissions_by_category [].

End rec.

(** ** carbon_offsets.py *)

Module co.

(** An entry of [CARBON_OFFSET_PROJECTS]: a dictionary with these eight
    keys. *)
Record Project : Type := {
  name : string;
  description : string;
  price_range : Z * Z;
  verification_standards : list string;
  project_locations : list string;
  co_benefits : list string;
  best_for_industries : list string;
  best_for_emissions : list string
}.

Definition CARBON_OFFSET_PROJECTS : list (string * Project) :=
  [
  ("wind_energy",
   {| name := "Wind Energy Projects";
      description :=
        "Large-scale wind farms that generate clean electricity and displace fossil fuel generation.";
      price_range := (8, 20);
      verification_standards :=
        ["Gold Standard"; "VCS"];
      project_locations :=
        ["USA"; "India"; "China"; "Brazil"; "South Africa"];
      co_benefits :=
        ["Job creation"; "Energy independence"; "Air quality improvement"];
      best_for_industries :=
        ["Manufacturing"; "Technology"; "Financial Services"];
      best_for_emissions :=
        ["Scope 2"; "Purchased Electricity"] |});
  ("solar_energy",
   {| name := "Solar Energy Projects";
      description :=
        "Solar farms and distributed solar installations that generate clean electricity.";
      price_range := (10, 25);
      verification_standards :=
        ["Gold Standard"; "VCS"];
      project_locations :=
        ["USA"; "India"; "Mexico"; "Egypt"; "Australia"];
      co_benefits :=
        ["Job creation"; "Energy access"; "Technology transfer"];
      best_for_industries :=
        ["Technology"; "Retail"; "Healthcare"];
      best_for_emissions :=
        ["Scope 2"; "Purchased Electricity"] |});
  ("reforestation",
   {| name := "Reforestation Projects";
      description :=
        "Planting trees in previously forested areas to sequester carbon and restore ecosystems.";
      price_range := (12, 30);
      verification_standards :=
        ["Gold Standard"; "VCS"; "Plan Vivo"];
      project_locations :=
        ["Brazil"; "Indonesia"; "Kenya"; "USA"; "Costa Rica"];
      co_benefits :=
        ["Biodiversity"; "Watershed protection"; "Community benefits"];
      best_for_industries :=
        ["Food & Beverage"; "Retail"; "Financial Services"];
      best_for_emissions :=
        ["Scope 1"; "Scope 3"; "Mobile Combustion"; "Business Travel"] |});
  ("avoided_deforestation",
   {| name := "Avoided Deforestation (REDD+)";
      description :=
        "Protecting standing forests that would otherwise be cleared, preserving carbon stocks.";
      price_range := (5, 18);
      verification_standards :=
        ["VCS"; "CCB"; "REDD+"];
      project_locations :=
        ["Brazil"; "Indonesia"; "Peru"; "Congo Basin"; "Colombia"];
      co_benefits :=
        [ "Biodiversity conservation";
          "Indigenous rights";
          "Community development" ];
      best_for_industries :=
        ["Retail"; "Food & Beverage"; "Financial Services"];
      best_for_emissions :=
        ["Scope 3"; "Purchased Goods & Services"] |});
  ("landfill_methane",
   {| name := "Landfill Methane Capture";
      description :=
        "Capturing methane emissions from landfills for flaring or energy production.";
      price_range := (5, 15);
      verification_standards :=
        ["VCS"; "CAR"; "ACR"];
      project_locations :=
        ["USA"; "Brazil"; "China"; "South Africa"; "Mexico"];
      co_benefits :=
        ["Local air quality"; "Energy generation"; "Health benefits"];
      best_for_industries :=
        ["Retail"; "Food & Beverage"; "Manufacturing"];
      best_for_emissions :=
        ["Scope 3"; "Waste Generation"] |});
  ("cookstoves",
   {| name := "Clean Cookstoves";
      description :=
        "Distributing efficient cookstoves that reduce fuel consumption and indoor air pollution.";
      price_range := (8, 22);
      verification_standards :=
        ["Gold Standard"; "CDM"];
      project_locations :=
        ["Kenya"; "India"; "Guatemala"; "Uganda"; "Nepal"];
      co_benefits :=
        [ "Health benefits";
          "Women's empowerment";
          "Reduced fuel costs";
          "Reduced deforestation" ];
      best_for_industries :=
        ["Retail"; "Healthcare"; "Food & Beverage"];
      best_for_emissions :=
        ["Scope 3"; "Purchased Goods & Services"] |});
  ("industrial_efficiency",
   {| name := "Industrial Energy Efficiency";
      description :=
        "Implementing energy efficiency measures in industrial facilities to reduce emissions.";
      price_range := (10, 28);
      verification_standards :=
        ["VCS"; "CDM"];
      project_locations :=
        ["China"; "India"; "USA"; "Mexico"; "Vietnam"];
      co_benefits :=
        ["Technology transfer"; "Cost savings"; "Local pollution reduction"];
      best_for_industries :=
        ["Manufacturing"; "Technology"; "Other"];
      best_for_emissions :=
        ["Scope 1"; "Stationary Combustion"] |});
  ("transportation",
   {| name := "Low-Carbon Transportation";
      description :=
        "Projects that reduce emissions from transportation through fuel switching or efficiency.";
      price_range := (15, 35);
      verification_standards :=
        ["VCS"; "Gold Standard"];
      project_locations :=
        ["USA"; "Europe"; "Brazil"; "India"; "China"];
      co_benefits :=
        [ "Air quality improvement";
          "Reduced congestion";
          "Technology advancement" ];
      best_for_industries :=
        ["Technology"; "Retail"; "Healthcare"];
      best_for_emissions :=
        [ "Scope 1";
          "Scope 3";
          "Mobile Combustion";
          "Business Travel";
          "Employee Commuting" ] |});
  ("blue_carbon",
   {| name := "Blue Carbon (Coastal Ecosystems)";
      description :=
        "Protecting and restoring mangroves, seagrass, and salt marshes which sequester large amounts of carbon.";
      price_range := (15, 40);
      verification_standards :=
        ["VCS"; "Plan Vivo"];
      project_locations :=
        ["Indonesia"; "Philippines"; "Mexico"; "Kenya"; "Madagascar"];
      co_benefits :=
        [ "Biodiversity";
          "Coastal protection";
          "Fisheries support";
          "Community livelihoods" ];
      best_for_industries :=
        ["Food & Beverage"; "Retail"; "Financial Services"];
      best_for_emissions :=
        ["Scope 3"; "Purchased Goods & Services"] |});
  ("direct_air_capture",
   {| name := "Direct Air Capture (DAC)";
      description :=
        "Technology that removes CO2 directly from the atmosphere for permanent storage.";
      price_range := (200, 600);
      verification_standards :=
        ["Puro.earth"; "Carbon Engineering"];
      project_locations :=
        ["USA"; "Canada"; "Switzerland"; "Iceland"];
      co_benefits :=
        ["Technology development"; "Permanent removal"; "Scalable solution"];
      best_for_industries :=
        ["Technology"; "Financial Services"; "Other"];
      best_for_emissions :=
        ["All scopes"; "Hard-to-abate emissions"] |})
  ]%Z.

Definition VERIFICATION_STANDARDS : list (string * string) :=
  [
  ("Gold Standard",
   "The Gold Standard for the Global Goals (GS4GG) is a standard for climate and development interventions that enables quantification of climate impacts and verification of SDG outcomes.");
  ("VCS",
   "Verified Carbon Standard (Verra) is the world's most widely used voluntary GHG program.");
  ("CDM",
   "Clean Development Mechanism is defined in the Kyoto Protocol for emission-reduction projects in developing countries.");
  ("CAR",
   "Climate Action Reserve is a national offsets program focused on GHG reduction in North America.");
  ("Plan Vivo",
   "Plan Vivo is a standard for community land use projects with a focus on smallholders and community groups.");
  ("ACR",
   "American Carbon Registry (ACR) is the first private voluntary GHG registry in the United States.");
  ("CCB",
   "Climate, Community & Biodiversity Standards evaluate land management projects from the beginning to development.");
  ("Puro.earth",
   "Puro.earth focuses on carbon removal methods with long-term storage and industrial carbon sequestration.")
  ].

(** The value under ["score"]: a number, or the string ["N/A"]. *)
Inductive Score : Type :=
| ScoreOf (score : Z)
| NA.

(** A project of the portfolio: the copy of the project's dictionary, with
    the five keys that [update] adds. *)
Record PortfolioProject : Type := {
  project : Project;
  id : string;
  score : Score;
  allocation_percentage : Q;
  tonnes_to_offset : Q;
  cost_range : Q * Q
}.

(** The dictionary that the two recommendation functions return; ["note"]
    is a key of the general recommendations only.  The value under
    ["verification_standards"] is [verification_standards_info] here, since
    the projects have a key of that name too. *)
Record Recommendations : Type := {
  total_emissions : Q;
  emissions_to_offset : Q;
  portfolio_approach : list PortfolioProject;
  verification_standards_info : list (string * string);
  note : option string
}.

(** [sum(l)] for integers. *)
Definition sum_Z (l : list Z) : Z := List.fold_left Z.add l 0%Z.

(** Truth value of [budget_per_tonne]: [None] and 0 are false. *)
Definition has_budget (budget_per_tonne : option Q) : bool :=
  match budget_per_tonne with
  | None => false
  | Some b => negb (Qeq_bool b 0)
  end.

(** [CARBON_OFFSET_PROJECTS[project_id]] *)
Definition project_of (project_id : string) : Py.outcome Project :=
  match Py.lookup CARBON_OFFSET_PROJECTS project_id with
  | Some p => Py.Returns p
  | None => Py.Raises (Py.Exn (KeyError project_id))
  end.

(** [budget_per_tonne and project["price_range"][0] > budget_per_tonne] *)
Definition over_budget (budget_per_tonne : option Q) (p : Project) : bool :=
  match budget_per_tonne with
  | None => false
  | Some b =>
      (negb (Qeq_bool b 0) && Py.Qlt_bool b (inject_Z (fst (price_range p))))%bool
  end.

(** One round of the scoring loop: the score that the project ends with. *)
Definition project_score
    (industry largest_scope location : string) (top_3_categories : list string)
    (budget_per_tonne : option Q) (p : Project) : Z :=
  if over_budget budget_per_tonne p then 0%Z
  else
    let score := 0%Z in
    let score :=
      if Py.mem industry (best_for_industries p) then (score + 5)%Z
      else score in
    let score :=
      if (Py.mem largest_scope (best_for_emissions p)
          || Py.mem "All scopes" (best_for_emissions p))%bool
      then (score + 4)%Z else score in
    let score :=
      List.fold_left
        (fun score category =>
           if Py.mem category (best_for_emissions p) then (score + 3)%Z
           else score)
        top_3_categories score in
    let score :=
      if (Py.mem location (project_locations p)
          || Py.mem "Global" (project_locations p))%bool
      then (score + 2)%Z else score in
    score.

(** The local [top_3_categories] of [get_offset_recommendations]. *)
Definition top_3_categories (emissions_by_category : list (string * Q))
    : list string :=
  let sorted_categories :=
    Py.sorted_desc Py.Qlt_bool snd emissions_by_category in
  List.map fst
    (List.filter (fun cat => Py.Qlt_bool 0 (snd cat))
       (List.firstn 3 sorted_categories)).

(** The local [recommended_projects]: the projects with a positive score,
    by descending score. *)
Definition recommended_projects
    (industry largest_scope location : string) (top_3_categories : list string)
    (budget_per_tonne : option Q) : list (string * Z) :=
  let project_scores :=
    List.map
      (fun item =>
         (fst item,
          project_score industry largest_scope location top_3_categories
            budget_per_tonne (snd item)))
      CARBON_OFFSET_PROJECTS in
  Py.sorted_desc Z.ltb snd
    (List.filter (fun item => (0 <? snd item)%Z) project_scores).

(** [for x in l: ...append(f(x))], where [f] may raise. *)
Fixpoint for_each {A B : Type} (f : A -> Py.outcome B) (l : list A)
    : Py.outcome (list B) :=
  match l with
  | [] => Py.Returns []
  | x :: l' =>
      Py.and_then (f x) (fun y =>
      Py.and_then (for_each f l') (fun ys => Py.Returns (y :: ys)))
  end.

(** [[p for p in l if keep(p)]], where [keep] may raise. *)
Fixpoint keep_if {A : Type} (keep : A -> Py.outcome bool) (l : list A)
    : Py.outcome (list A) :=
  match l with
  | [] => Py.Returns []
  | x :: l' =>
      Py.and_then (keep x) (fun b =>
      Py.and_then (keep_if keep l') (fun xs =>
      Py.Returns (if b then x :: xs else xs)))
  end.

Section Rounding.

(** The built-in [round(x, ndigits)] on floats. *)
Variable round : Q -> Z -> Q.

(** The body of the two portfolio loops, from the allocation on. *)
Definition portfolio_project
    (project_id : string) (p : Project) (score : Score)
    (allocation_percentage emissions_to_offset : Q) : PortfolioProject :=
  let tonnes_to_offset := (allocation_percentage / 100) * emissions_to_offset in
  let min_cost := tonnes_to_offset * inject_Z (fst (price_range p)) in
  let max_cost := tonnes_to_offset * inject_Z (snd (price_range p)) in
  {| project := p;
     id := project_id;
     score := score;
     allocation_percentage := round allocation_percentage 1;
     tonnes_to_offset := round tonnes_to_offset 2;
     cost_range := (round min_cost 2, round max_cost 2) |}.

Definition get_general_recommendations
    (emissions_to_offset : Q) (budget_per_tonne : option Q)
    : Py.outcome Recommendations :=
  let diverse_projects :=
    ["wind_energy"; "reforestation"; "landfill_methane"; "cookstoves"] in
  Py.and_then
    (match budget_per_tonne with
     | Some b =>
         if negb (Qeq_bool b 0) then
           keep_if
             (fun p =>
                Py.and_then (project_of p) (fun pr =>
                Py.Returns (Qle_bool (inject_Z (fst (price_range pr))) b)))
             diverse_projects
         else Py.Returns diverse_projects
     | None => Py.Returns diverse_projects
     end)
    (fun diverse_projects =>
  let diverse_projects :=
    match diverse_projects with
    | [] => ["wind_energy"]
    | _ :: _ => diverse_projects
    end in
  Py.and_then
    (for_each
       (fun project_id =>
          Py.and_then (project_of project_id) (fun p =>
          Py.and_then
            (Py.truediv 100 (inject_Z (Z.of_nat (length diverse_projects))))
            (fun allocation_percentage =>
          Py.Returns
            (portfolio_project project_id p NA allocation_percentage
               emissions_to_offset))))
       diverse_projects)
    (fun portfolio_recommendations =>
  Py.Returns
    {| total_emissions := emissions_to_offset;
       emissions_to_offset := emissions_to_offset;
       portfolio_approach := portfolio_recommendations;
       verification_standards_info := VERIFICATION_STANDARDS;
       note :=
         Some
           "These are general recommendations since no specific matching projects were found." |})).

Definition get_offset_recommendations
    (emissions_by_scope emissions_by_category : list (string * Q))
    (industry : string) (budget_per_tonne : option Q) (location : string)
    (offset_percentage : Q) : Py.outcome Recommendations :=
  let total_emissions := app.sum (app.values emissions_by_scope) in
  let emissions_to_offset := total_emissions * (offset_percentage / 100) in
  Py.and_then (Py.max_by Py.Qlt_bool snd emissions_by_scope) (fun largest =>
  let largest_scope := fst largest in
  let top_3_categories := top_3_categories emissions_by_category in
  let recommended_projects :=
    recommended_projects industry largest_scope location top_3_categories
      budget_per_tonne in
  match recommended_projects with
  | [] => get_general_recommendations emissions_to_offset budget_per_tonne
  | _ :: _ =>
      Py.and_then
        (for_each
           (fun item =>
              let project_id := fst item in
              let score := snd item in
              Py.and_then (project_of project_id) (fun p =>
              let total_score :=
                sum_Z (List.map snd (List.firstn 4 recommended_projects)) in
              Py.and_then
                (if (0 <? total_score)%Z then
                   Py.and_then
                     (Py.truediv (inject_Z score) (inject_Z total_score))
                     (fun ratio => Py.Returns (ratio * 100))
                 else Py.Returns 25)
                (fun allocation_percentage =>
              Py.Returns
                (portfolio_project project_id p (ScoreOf score)
                   allocation_percentage emissions_to_offset))))
           (List.firstn 4 recommended_projects))
        (fun portfolio_recommendations =>
      Py.Returns
        {| total_emissions := total_emissions;
           emissions_to_offset := emissions_to_offset;
           portfolio_approach := portfolio_recommendations;
           verification_standards_info := VERIFICATION_STANDARDS;
           note := None |})
  end).

Definition calculate_offset_cost
    (emissions price_per_tonne offset_percentage : Q) : Q :=
  let emissions_to_offset := emissions * (offset_percentage / 100) in
  round (emissions_to_offset * price_per_tonne) 2.

End Rounding.

End co.

(** ** report_generator.py: the "Key Recommendations" block of the PDF *)

Module report.

Inductive Style : Type :=
| table_title_style
| normal_style.

(** The flowables that the block appends to [elements]; the height of a
    spacer is kept as a multiple of [inch]. *)
Inductive element : Type :=
| Paragraph (text : string) (style : Style)
| Spacer (width height_in_inches : Q).

(** Lines 131 to 140 of [generate_pdf_report]; [sorted_categories] is the
    local of line 107. *)
Definition key_recommendations
    (emissions_by_category : list (string * Q))
    (recommendations : list (string * list string)) : list element :=
  let sorted_categories :=
    Py.sorted_desc Py.Qlt_bool snd emissions_by_category in
  let top_categories := List.map fst (List.firstn 3 sorted_categories) in
  List.flat_map
    (fun category =>
       match Py.lookup recommendations category with
       | Some rec_list =>
           (Paragraph (category ++ ":") table_title_style
            :: List.map (fun rec => Paragraph ("• " ++ rec) normal_style)
                 (List.firstn 3 rec_list)
            ++ [Spacer 1 0.1])%list
       | None => []
       end)
    top_categories.

(** [(value / total_emissions) * 100 if total_emissions > 0 else 0], the
    expression of the "Percentage" columns. *)
Definition percentage (value total_emissions : Q) : Py.outcome Q :=
  if Py.Qlt_bool 0 total_emissions then
    Py.and_then (Py.truediv value total_emissions) (fun ratio =>
    Py.Returns (ratio * 100))
  else Py.Returns 0.

(** The three columns of a sheet of [generate_excel_report], as the
    dictionary literal gives them to the data frame. *)
Record Sheet : Type := {
  names : list string;
  emissions : list Q;
  percentages : list Q
}.

(** [scope_data] and [category_data] of [generate_excel_report] are the
    same literal on the two dictionaries. *)
Definition sheet_data (total_emissions : Q) (d : list (string * Q))
    : Py.outcome Sheet :=
  Py.and_then
    (co.for_each (fun value => percentage value total_emissions)
       (app.values d))
    (fun column =>
  Py.Returns
    {| names := List.map fst d;
       emissions := app.values d;
       percentages := column |}).

End report.

(** ** app.py: what the buttons store and show *)

Module tabs.

(** The end of the "Calculate Carbon Footprint" button: the result goes to
    the session state, with the recommendations made from it. *)
Definition calculate_and_recommend (i : app.FormInput)
    : result (app.EmissionsResult * list (string * list string)) :=
  let* r := app.calculate_button i in
  Ok (r, rec.generate_recommendations (app.emissions_by_category r)
           (app.industry i)).

(** The "Generate Offset Recommendations" button.  [industry] is the
    variable that the form has set; the script assigns ["Other"] to it
    before the call, and the test ['industry' in locals()] that follows
    holds.  The dictionary of recommendations has no key
    ['avg_price_per_tonne'], so the price is the default of [get], 15. *)
Definition offset_button
    (round : Q -> Z -> Q) (industry : string) (session : app.EmissionsResult)
    (offset_percentage : Z) (budget_per_tonne : option Q) (location : string)
    : Py.outcome (co.Recommendations * Q) :=
  let emissions_to_offset :=
    app.total_emissions session * (inject_Z offset_percentage / 100) in
  let industry := "Other" in
  let industry := industry in
  Py.and_then
    (co.get_offset_recommendations round
       (app.emissions_by_scope session) (app.emissions_by_category session)
       industry budget_per_tonne location (inject_Z offset_percentage))
    (fun offset_recommendations =>
  let total_cost := co.calculate_offset_cost round emissions_to_offset 15 100 in
  Py.Returns (offset_recommendations, total_cost)).

End tabs.

(** * The calculator in binary64

    The same functions of [emission_factors.py], [ghg_protocol.py] and
    [app.py] once more, with the arithmetic of the Python [float]: IEEE 754
    binary64, where a product can overflow to infinity, infinity times 0 is
    NaN, and no comparison holds of NaN.  A decimal literal is the binary64
    number nearest to it; an [int] that meets a [float] is converted first.
    Errors and dictionaries are as above. *)

(** [float(n)] for an int of the form.  The widgets keep ints within
    2^53 - 1 in absolute value, where the conversion is exact. *)
Definition float_of_int (n : Z) : float :=
  if (n <? 0)%Z then (- PrimFloat.of_uint63 (Uint63.of_Z (- n)))%float
  else PrimFloat.of_uint63 (Uint63.of_Z n).

(** ** emission_factors.py *)

(** A decimal literal stands for the nearest binary64 number, as in
    Python. *)
Set Warnings "-inexact-float".

Local Open Scope float_scope.

Module ef64.

Definition STATIONARY_COMBUSTION : gmap string float :=
  list_to_map
    [ ("natural_gas", 0.00195);
      ("diesel", 0.00273);
      ("propane", 0.00153);
      ("fuel_oil", 0.00281) ].

Definition MOBILE_COMBUSTION : gmap string float :=
  list_to_map
    [ ("gasoline", 0.00234);
      ("diesel", 0.00267);
      ("jet_fuel", 0.00259) ].

Definition REFRIGERANTS : gmap string float :=
  list_to_map
    [ ("R-134a", 1430);
      ("R-410A", 2088);
      ("R-404A", 3922);
      ("R-22", 1810);
      ("None", 0) ].

Definition ELECTRICITY : gmap string float :=
  list_to_map
    [ ("northeast_us", 0.000254);
      ("midwest_us", 0.000481);
      ("south_us", 0.000427);
      ("west_us", 0.000221);
      ("western_europe", 0.000276);
      ("eastern_europe", 0.000483);
      ("asia", 0.000562);
      ("renewable", 0.000016);
      ("mixed", 0.000320);
      ("default", 0.000431) ].

Definition BUSINESS_TRAVEL : gmap string float :=
  list_to_map
    [ ("air_short_haul", 0.000258);
      ("air_medium_haul", 0.000168);
      ("air_long_haul", 0.000153);
      ("car_rental", 0.000348);
      ("hotel_stay", 0.021) ].

Definition COMMUTING : gmap string float :=
  list_to_map
    [ ("car", 0.000348);
      ("carpool", 0.000162);
      ("public_transit", 0.000096);
      ("walking_biking", 0);
      ("wfh", 0.000032) ].

Definition WASTE : gmap string float :=
  list_to_map
    [ ("landfill", 0.458);
      ("recycled", 0.021);
      ("composted", 0.023);
      ("incinerated", 0.0136) ].

Definition PURCHASED_GOODS : gmap string float :=
  list_to_map
    [ ("manufacturing", 563);
      ("technology", 386);
      ("retail", 274);
      ("healthcare", 221);
      ("education", 176);
      ("financial_services", 143);
      ("food_beverage", 498);
      ("default", 412) ].

End ef64.

(** ** ghg_protocol.py *)

Module ghg64.

Definition calculate_stationary_combustion
    (natural_gas diesel propane fuel_oil : float) : result float :=
  let* f_natural_gas := subscript ef64.STATIONARY_COMBUSTION "natural_gas" in
  let natural_gas_emissions := natural_gas * f_natural_gas in
  let* f_diesel := subscript ef64.STATIONARY_COMBUSTION "diesel" in
  let diesel_emissions := diesel * f_diesel in
  let* f_propane := subscript ef64.STATIONARY_COMBUSTION "propane" in
  let propane_emissions := propane * f_propane in
  let* f_fuel_oil := subscript ef64.STATIONARY_COMBUSTION "fuel_oil" in
  let fuel_oil_emissions := fuel_oil * f_fuel_oil in
  let total_emissions :=
    natural_gas_emissions + diesel_emissions + propane_emissions
    + fuel_oil_emissions in
  Ok total_emissions.

Definition calculate_mobile_combustion (gasoline diesel jet_fuel : float)
    : result float :=
  let* f_gasoline := subscript ef64.MOBILE_COMBUSTION "gasoline" in
  let gasoline_emissions := gasoline * f_gasoline in
  let* f_diesel := subscript ef64.MOBILE_COMBUSTION "diesel" in
  let diesel_emissions := diesel * f_diesel in
  let* f_jet_fuel := subscript ef64.MOBILE_COMBUSTION "jet_fuel" in
  let jet_fuel_emissions := jet_fuel * f_jet_fuel in
  let total_emissions :=
    gasoline_emissions + diesel_emissions + jet_fuel_emissions in
  Ok total_emissions.

Definition calculate_refrigerant_emissions
    (refrigerant_type : string) (amount : float) : result float :=
  if (String.eqb refrigerant_type "None" || (amount =? 0))%bool
  then Ok 0
  else
    let emissions :=
      amount * get ef64.REFRIGERANTS refrigerant_type 0 / 1000 in
    Ok emissions.

Definition calculate_electricity_emissions
    (electricity : float) (grid_region electricity_source : string)
    : result float :=
  let* emissions_factor :=
    if String.eqb electricity_source "Renewable Energy"
    then subscript ef64.ELECTRICITY "renewable"
    else if String.eqb electricity_source "Mixed Sources"
    then subscript ef64.ELECTRICITY "mixed"
    else
      let key := ghg.grid_region_key grid_region in
      let* dflt := subscript ef64.ELECTRICITY "default" in
      Ok (get ef64.ELECTRICITY key dflt) in
  let emissions := electricity * emissions_factor / 1000 in
  Ok emissions.

Definition calculate_business_travel_emissions
    (air_travel_short air_travel_medium air_travel_long
     car_rental hotel_stays : float) : result float :=
  let* f_short := subscript ef64.BUSINESS_TRAVEL "air_short_haul" in
  let air_short_emissions := air_travel_short * f_short in
  let* f_medium := subscript ef64.BUSINESS_TRAVEL "air_medium_haul" in
  let air_medium_emissions := air_travel_medium * f_medium in
  let* f_long := subscript ef64.BUSINESS_TRAVEL "air_long_haul" in
  let air_long_emissions := air_travel_long * f_long in
  let* f_car := subscript ef64.BUSINESS_TRAVEL "car_rental" in
  let car_rental_emissions := car_rental * f_car in
  let* f_hotel := subscript ef64.BUSINESS_TRAVEL "hotel_stay" in
  let hotel_emissions := hotel_stays * f_hotel in
  let total_emissions :=
    air_short_emissions + air_medium_emissions + air_long_emissions
    + car_rental_emissions + hotel_emissions in
  Ok total_emissions.

Definition total_annual_miles
    (avg_commute_distance num_employees commute_days_per_year : float) : float :=
  avg_commute_distance * 2 * num_employees * commute_days_per_year.

Definition calculate_employee_commuting_emissions
    (avg_commute_distance num_employees commute_days_per_year : float)
    (commute_mode : string) (mode_breakdown : option (gmap string float))
    : result float :=
  let miles :=
    total_annual_miles avg_commute_distance num_employees
      commute_days_per_year in
  if (String.eqb commute_mode "Mixed" && ghg.truthy mode_breakdown)%bool
  then
    let* b_car := subscript_opt mode_breakdown "car" in
    let* f_car := subscript ef64.COMMUTING "car" in
    let car_emissions := miles * b_car * f_car in
    let* b_carpool := subscript_opt mode_breakdown "carpool" in
    let* f_carpool := subscript ef64.COMMUTING "carpool" in
    let carpool_emissions := miles * b_carpool * f_carpool in
    let* b_transit := subscript_opt mode_breakdown "public_transit" in
    let* f_transit := subscript ef64.COMMUTING "public_transit" in
    let transit_emissions := miles * b_transit * f_transit in
    let* b_walking := subscript_opt mode_breakdown "walking_biking" in
    let* f_walking := subscript ef64.COMMUTING "walking_biking" in
    let walking_biking_emissions := miles * b_walking * f_walking in
    let* b_wfh := subscript_opt mode_breakdown "wfh" in
    let* f_wfh := subscript ef64.COMMUTING "wfh" in
    let wfh_emissions := miles * b_wfh * f_wfh in
    let total_emissions :=
      car_emissions + carpool_emissions + transit_emissions
      + walking_biking_emissions + wfh_emissions in
    Ok total_emissions
  else
    let* emission_factor :=
      subscript ef64.COMMUTING (get ghg.mode_mapping commute_mode "car") in
    let total_emissions := miles * emission_factor in
    Ok total_emissions.

Definition calculate_waste_emissions
    (landfill_waste recycled_waste composted_waste incinerated_waste : float)
    : result float :=
  let* f_landfill := subscript ef64.WASTE "landfill" in
  let landfill_emissions := landfill_waste * f_landfill in
  let* f_recycled := subscript ef64.WASTE "recycled" in
  let recycled_emissions := recycled_waste * f_recycled in
  let* f_composted := subscript ef64.WASTE "composted" in
  let composted_emissions := composted_waste * f_composted in
  let* f_incinerated := subscript ef64.WASTE "incinerated" in
  let incinerated_emissions := incinerated_waste * f_incinerated in
  let total_emissions :=
    landfill_emissions + recycled_emissions + composted_emissions
    + incinerated_emissions in
  Ok total_emissions.

Definition calculate_purchased_goods_emissions
    (purchased_goods : float) (industry : string) : result float :=
  let key := ghg.industry_key industry in
  let* dflt := subscript ef64.PURCHASED_GOODS "default" in
  let industry_factor := get ef64.PURCHASED_GOODS key dflt in
  let emissions := purchased_goods / 1000000 * industry_factor in
  Ok emissions.

End ghg64.

(** ** app.py: the form and the "Calculate Carbon Footprint" button *)

Module app64.

(** The values of the input widgets.  [number_input] widgets with a float
    [min_value] give floats, those with an int [min_value] and the sliders
    give ints. *)
Record FormInput : Type := {
  industry : string;
  num_employees : Z;
  natural_gas : float;
  diesel : float;
  propane : float;
  fuel_oil : float;
  gasoline : float;
  diesel_vehicles : float;
  jet_fuel : float;
  refrigerant_type : string;
  refrigerant_amount : float;
  electricity_source : string;
  electricity : float;
  grid_region : string;
  air_travel_short : float;
  air_travel_medium : float;
  air_travel_long : float;
  car_rental : float;
  hotel_stays : Z;
  avg_commute_distance : float;
  commute_days_per_year : Z;
  commute_mode : string;
  car_percent : Z;
  carpool_percent : Z;
  public_transit_percent : Z;
  walking_biking_percent : Z;
  wfh_percent : Z;
  landfill_waste : float;
  recycled_waste : float;
  composted_waste : float;
  incinerated_waste : float;
  purchased_goods : Z
}.

(** What the button stores in the session state.  A Python dict keeps its
    insertion order, so the two breakdowns are lists of items. *)
Record EmissionsResult : Type := {
  total_emissions : float;
  emissions_by_scope : list (string * float);
  emissions_by_category : list (string * float)
}.

(** [p/100 if commute_mode == "Mixed" else (1 if commute_mode == m else 0)] *)
Definition share (commute_mode : string) (percent : Z) (m : string) : float :=
  if String.eqb commute_mode "Mixed" then float_of_int percent / 100
  else if String.eqb commute_mode m then 1 else 0.

Definition mode_breakdown_of (i : FormInput) : gmap string float :=
  list_to_map
    [ ("car", share (commute_mode i) (car_percent i) "Car (Single Occupancy)");
      ("carpool", share (commute_mode i) (carpool_percent i) "Carpool");
      ("public_transit",
        share (commute_mode i) (public_transit_percent i) "Public Transit");
      ("walking_biking",
        share (commute_mode i) (walking_biking_percent i) "Walking/Biking");
      ("wfh", share (commute_mode i) (wfh_percent i) "Work from Home") ].

Definition calculate_button (i : FormInput) : result EmissionsResult :=
  let* scope1_stationary :=
    ghg64.calculate_stationary_combustion
      (natural_gas i) (diesel i) (propane i) (fuel_oil i) in
  let* scope1_mobile :=
    ghg64.calculate_mobile_combustion
      (gasoline i) (diesel_vehicles i) (jet_fuel i) in
  let* scope1_refrigerants :=
    ghg64.calculate_refrigerant_emissions
      (refrigerant_type i) (refrigerant_amount i) in
  let* scope2_electricity :=
    ghg64.calculate_electricity_emissions
      (electricity i) (grid_region i) (electricity_source i) in
  let* scope3_business_travel :=
    ghg64.calculate_business_travel_emissions
      (air_travel_short i) (air_travel_medium i) (air_travel_long i)
      (car_rental i) (float_of_int (hotel_stays i)) in
  let* scope3_employee_commuting :=
    ghg64.calculate_employee_commuting_emissions
      (avg_commute_distance i) (float_of_int (num_employees i))
      (float_of_int (commute_days_per_year i)) (commute_mode i)
      (Some (mode_breakdown_of i)) in
  let* scope3_waste :=
    ghg64.calculate_waste_emissions
      (landfill_waste i) (recycled_waste i) (composted_waste i)
      (incinerated_waste i) in
  let* scope3_purchased_goods :=
    ghg64.calculate_purchased_goods_emissions
      (float_of_int (purchased_goods i)) (industry i) in
  let scope1_total :=
    scope1_stationary + scope1_mobile + scope1_refrigerants in
  let scope2_total := scope2_electricity in
  let scope3_total :=
    scope3_business_travel + scope3_employee_commuting + scope3_waste
    + scope3_purchased_goods in
  let total := scope1_total + scope2_total + scope3_total in
  Ok {| total_emissions := total;
        emissions_by_scope :=
          [ ("Scope 1", scope1_total);
            ("Scope 2", scope2_total);
            ("Scope 3", scope3_total) ];
        emissions_by_category :=
          [ ("Stationary Combustion", scope1_stationary);
            ("Mobile Combustion", scope1_mobile);
            ("Refrigerants", scope1_refrigerants);
            ("Purchased Electricity", scope2_electricity);
            ("Business Travel", scope3_business_travel);
            ("Employee Commuting", scope3_employee_commuting);
            ("Waste Generation", scope3_waste);
            ("Purchased Goods & Services", scope3_purchased_goods) ] |}.

End app64.

(** ** The built-in [sorted] on float keys *)

Module Py64.

(** One of the keys is NaN. *)
Definition has_nan {A : Type} (key : A -> float) (l : list A) : bool :=
  List.existsb (fun x => PrimFloat.is_nan (key x)) l.

(** [sorted(l, key=key, reverse=True)] for float keys.  Without a NaN among
    the keys, [<] orders them and the result is the stable descending sort.
    With a NaN, which [<] relates to nothing, the result depends on the
    comparisons that the algorithm of [sorted] happens to make: the model
    gives no list then ([None] is not an exception). *)
Definition sorted_desc {A : Type} (key : A -> float) (l : list A)
    : option (list A) :=
  if has_nan key l then None
  else Some (Py.sorted_desc PrimFloat.ltb key l).

End Py64.

(** ** recommendations.py, carbon_offsets.py and report_generator.py: the
    top categories of a dictionary of floats *)

Module rec64.

(** The local [top_categories] of [generate_recommendations]. *)
Definition top_categories (emissions_by_category : list (string * float))
    : option (list string) :=
  match Py64.sorted_desc snd emissions_by_category with
  | Some sorted_categories =>
      Some
        (List.firstn 3
           (List.map fst
              (List.filter (fun item => 0 <? snd item) sorted_categories)))
  | None => None
  end.

Definition generate_recommendations
    (emissions_by_category : list (string * float)) (industry : string)
    : option (list (string * list string)) :=
  match top_categories emissions_by_category with
  | Some top_categories =>
      Some
        (List.fold_left
           (fun recommendations item =>
              let category := fst item in
              if 0 <? snd item then
                let category_recommendations :=
                  rec.get_category_recommendations category industry
                    (Py.mem category top_categories) in
                match category_recommendations with
                | [] => recommendations
                | _ :: _ =>
                    Py.dict_set recommendations category
                      category_recommendations
                end
              else recommendations)
           emissions_by_category [])
  | None => None
  end.

End rec64.

Module co64.

(** The local [top_3_categories] of [get_offset_recommendations]. *)
Definition top_3_categories (emissions_by_category : list (string * float))
    : option (list string) :=
  match Py64.sorted_desc snd emissions_by_category with
  | Some sorted_categories =>
      Some
        (List.map fst
           (List.filter (fun cat => 0 <? snd cat)
              (List.firstn 3 sorted_categories)))
  | None => None
  end.

End co64.

Module report64.

(** Lines 131 to 140 of [generate_pdf_report]; [sorted_categories] is the
    local of line 107. *)
Definition key_recommendations
    (emissions_by_category : list (string * float))
    (recommendations : list (string * list string))
    : option (list report.element) :=
  match Py64.sorted_desc snd emissions_by_category with
  | Some sorted_categories =>
      let top_categories := List.map fst (List.firstn 3 sorted_categories) in
      Some
        (List.flat_map
           (fun category =>
              match Py.lookup recommendations category with
              | Some rec_list =>
                  (report.Paragraph (category ++ ":")%string
                     report.table_title_style
                   :: List.map
                        (fun rec =>
                           report.Paragraph ("• " ++ rec)%string
                             report.normal_style)
                        (List.firstn 3 rec_list)
                   ++ [report.Spacer 1 0.1])%list
              | None => []
              end)
           top_categories)
  | None => None
  end.

End report64.

Local Close Scope float_scope.

(** * Vocabulary of the properties *)

(** The keys that the mixed branch reads in the breakdown. *)
Definition modes : list string :=
  ["car"; "carpool"; "public_transit"; "walking_biking"; "wfh"]%string.

(** A breakdown gives each of the five modes a share that satisfies [P]. *)
Definition has_shares (P : Q -> Prop) (breakdown : gmap string Q) : Prop :=
  Forall (fun key => exists v, breakdown !! key = Some v /\ P v) modes.

(** A breakdown argument as the function accepts it: absent, empty, or with
    a share for each of the five modes. *)
Definition breakdown_ok (P : Q -> Prop)
    (mode_breakdown : option (gmap string Q)) : Prop :=
  match mode_breakdown with
  | None => True
  | Some m => m = ∅ \/ has_shares P m
  end.

(** The same, with non-negative shares. *)
Definition breakdown_nonneg : option (gmap string Q) -> Prop :=
  breakdown_ok (Qle 0).

(** A call of one of the eight calculators, with its arguments. *)
Inductive call : Type :=
| StationaryCombustion (natural_gas diesel propane fuel_oil : Q)
| MobileCombustion (gasoline diesel jet_fuel : Q)
| RefrigerantEmissions (refrigerant_type : string) (amount : Q)
| ElectricityEmissions (electricity : Q)
    (grid_region electricity_source : string)
| BusinessTravelEmissions
    (air_travel_short air_travel_medium air_travel_long car_rental
     hotel_stays : Q)
| EmployeeCommutingEmissions
    (avg_commute_distance num_employees commute_days_per_year : Q)
    (commute_mode : string) (mode_breakdown : option (gmap string Q))
| WasteEmissions
    (landfill_waste recycled_waste composted_waste incinerated_waste : Q)
| PurchasedGoodsEmissions (purchased_goods : Q) (industry : string).

(** What the call returns or raises. *)
Definition run (c : call) : result Q :=
  match c with
  | StationaryCombustion ng d p fo =>
      ghg.calculate_stationary_combustion ng d p fo
  | MobileCombustion g d j => ghg.calculate_mobile_combustion g d j
  | RefrigerantEmissions t a => ghg.calculate_refrigerant_emissions t a
  | ElectricityEmissions e r s => ghg.calculate_electricity_emissions e r s
  | BusinessTravelEmissions s m l c h =>
      ghg.calculate_business_travel_emissions s m l c h
  | EmployeeCommutingEmissions d n days mode b =>
      ghg.calculate_employee_commuting_emissions d n days mode b
  | WasteEmissions l r c i => ghg.calculate_waste_emissions l r c i
  | PurchasedGoodsEmissions p i => ghg.calculate_purchased_goods_emissions p i
  end.

(** The numeric arguments of a call are non-negative, and so are the shares
    of a mode breakdown. *)
Definition nonneg_args (c : call) : Prop :=
  match c with
  | StationaryCombustion ng d p fo => 0 <= ng /\ 0 <= d /\ 0 <= p /\ 0 <= fo
  | MobileCombustion g d j => 0 <= g /\ 0 <= d /\ 0 <= j
  | RefrigerantEmissions _ a => 0 <= a
  | ElectricityEmissions e _ _ => 0 <= e
  | BusinessTravelEmissions s m l c h =>
      0 <= s /\ 0 <= m /\ 0 <= l /\ 0 <= c /\ 0 <= h
  | EmployeeCommutingEmissions d n days _ b =>
      0 <= d /\ 0 <= n /\ 0 <= days /\ breakdown_nonneg b
  | WasteEmissions l r c i => 0 <= l /\ 0 <= r /\ 0 <= c /\ 0 <= i
  | PurchasedGoodsEmissions p _ => 0 <= p
  end.

(** The eight category values of a form: what the eight calculators return
    on its fields. *)
Definition categories_of (i : app.FormInput)
    (c1 c2 c3 c4 c5 c6 c7 c8 : Q) : Prop :=
  ghg.calculate_stationary_combustion
    (app.natural_gas i) (app.diesel i) (app.propane i) (app.fuel_oil i)
  = Ok c1
  /\ ghg.calculate_mobile_combustion
       (app.gasoline i) (app.diesel_vehicles i) (app.jet_fuel i)
     = Ok c2
  /\ ghg.calculate_refrigerant_emissions
       (app.refrigerant_type i) (app.refrigerant_amount i)
     = Ok c3
  /\ ghg.calculate_electricity_emissions
       (app.electricity i) (app.grid_region i) (app.electricity_source i)
     = Ok c4
  /\ ghg.calculate_business_travel_emissions
       (app.air_travel_short i) (app.air_travel_medium i)
       (app.air_travel_long i) (app.car_rental i)
       (inject_Z (app.hotel_stays i))
     = Ok c5
  /\ ghg.calculate_employee_commuting_emissions
       (app.avg_commute_distance i) (inject_Z (app.num_employees i))
       (inject_Z (app.commute_days_per_year i)) (app.commute_mode i)
       (Some (app.mode_breakdown_of i))
     = Ok c6
  /\ ghg.calculate_waste_emissions
       (app.landfill_waste i) (app.recycled_waste i) (app.composted_waste i)
       (app.incinerated_waste i)
     = Ok c7
  /\ ghg.calculate_purchased_goods_emissions
       (inject_Z (app.purchased_goods i)) (app.industry i)
     = Ok c8.

(** The result that the aggregation rules give for eight category values:
    Scope 1 = stationary + mobile + refrigerants, Scope 2 = electricity,
    Scope 3 = business travel + commuting + waste + purchased goods, and
    total = Scope 1 + Scope 2 + Scope 3. *)
Definition aggregate (c1 c2 c3 c4 c5 c6 c7 c8 : Q) : app.EmissionsResult :=
  {| app.total_emissions := (c1 + c2 + c3) + c4 + (c5 + c6 + c7 + c8);
     app.emissions_by_scope :=
       [ ("Scope 1", c1 + c2 + c3);
         ("Scope 2", c4);
         ("Scope 3", c5 + c6 + c7 + c8) ];
     app.emissions_by_category :=
       [ ("Stationary Combustion", c1);
         ("Mobile Combustion", c2);
         ("Refrigerants", c3);
         ("Purchased Electricity", c4);
         ("Business Travel", c5);
         ("Employee Commuting", c6);
         ("Waste Generation", c7);
         ("Purchased Goods & Services", c8) ] |}.

(** The name of each single mode in the form, with its factor in
    [emission_factors.py]. *)
Definition single_mode_factors : list (string * Q) :=
  [ ("Car (Single Occupancy)", 0.000348);
    ("Carpool", 0.000162);
    ("Public Transit", 0.000096);
    ("Walking/Biking", 0);
    ("Work from Home", 0.000032) ]%string.

(** Following the spec's words: the mileage share of a mode is the total
    annual mileage times the fraction of that mode in the breakdown. *)
Definition mileage_share (miles fraction : Q) : Q := miles * fraction.

(** Following the spec's words: each mode's mileage share times that mode's
    factor, each on its own, and their sum. *)
Definition sum_of_mode_shares (miles c cp pt wb wfh : Q) : Q :=
  mileage_share miles c * 0.000348
  + mileage_share miles cp * 0.000162
  + mileage_share miles pt * 0.000096
  + mileage_share miles wb * 0
  + mileage_share miles wfh * 0.000032.

(** A filled-in form: a technology company of 100 employees with a mixed
    commute. *)
Definition sample_input : app.FormInput :=
  {| app.industry := "Technology";
     app.num_employees := 100;
     app.natural_gas := 1000;
     app.diesel := 200;
     app.propane := 0;
     app.fuel_oil := 0;
     app.gasoline := 500;
     app.diesel_vehicles := 0;
     app.jet_fuel := 0;
     app.refrigerant_type := "R-134a";
     app.refrigerant_amount := 2.5;
     app.electricity_source := "Grid Electricity";
     app.electricity := 50000;
     app.grid_region := "Northeast US";
     app.air_travel_short := 10000;
     app.air_travel_medium := 0;
     app.air_travel_long := 20000;
     app.car_rental := 300;
     app.hotel_stays := 40;
     app.avg_commute_distance := 10;
     app.commute_days_per_year := 230;
     app.commute_mode := "Mixed";
     app.car_percent := 30;
     app.carpool_percent := 20;
     app.public_transit_percent := 30;
     app.walking_biking_percent := 10;
     app.wfh_percent := 10;
     app.landfill_waste := 12;
     app.recycled_waste := 5;
     app.composted_waste := 1;
     app.incinerated_waste := 0;
     app.purchased_goods := 2000000 |}.

(** * Properties *)

(** ** The string methods and the keys on the form's options *)

Example lower_Northeast_US : Str.lower "Northeast US" = "northeast us".
Proof. reflexivity. Qed.

Example replace_non_overlapping : Str.replace "aaa" "aa" "b" = "ba".
Proof. reflexivity. Qed.

Example replace_every_space : Str.replace "a  b c" " " "_" = "a__b_c".
Proof. reflexivity. Qed.

Example replace_empty_old : Str.replace "abc" "" "-" = "-a-b-c-".
Proof. reflexivity. Qed.

Example industry_key_Food_Beverage :
  ghg.industry_key "Food & Beverage" = "food_beverage".
Proof. reflexivity. Qed.

(** The regions that the form offers, "Other" apart, are keys of the table;
    so are the industries. *)
Example form_regions_known :
  Forall (fun region => is_Some (ef.ELECTRICITY !! ghg.grid_region_key region))
    ["Northeast US"; "Midwest US"; "South US"; "West US"; "Western Europe";
     "Eastern Europe"; "Asia"]
  /\ ef.ELECTRICITY !! ghg.grid_region_key "Other" = None.
Proof. split; [repeat constructor; eexists; reflexivity | reflexivity]. Qed.

Example form_industries_known :
  Forall
    (fun industry =>
       is_Some (ef.PURCHASED_GOODS !! ghg.industry_key industry))
    ["Manufacturing"; "Technology"; "Retail"; "Healthcare"; "Education";
     "Financial Services"; "Food & Beverage"]
  /\ ef.PURCHASED_GOODS !! ghg.industry_key "Other" = None.
Proof. split; [repeat constructor; eexists; reflexivity | reflexivity]. Qed.

(** ** Reading the factor tables *)

(** Replaces the subscript of a factor table at a literal key by its value. *)
Ltac read_table d k :=
  let r := eval vm_compute in (subscript d k) in
  change (subscript d k) with r.

Ltac read_tables :=
  repeat match goal with
         | |- context [subscript ?d (String ?c ?k)] =>
             is_const d; read_table d (String c k)
         end.

Lemma get_Some {V : Type} (d : gmap string V) (k : string) (v x : V) :
  d !! k = Some x -> get d k v = x.
Proof. intros H. unfold get. now rewrite H. Qed.

Lemma get_None {V : Type} (d : gmap string V) (k : string) (v : V) :
  d !! k = None -> get d k v = v.
Proof. intros H. unfold get. now rewrite H. Qed.

Lemma get_ind {V : Type} (P : V -> Prop) (d : gmap string V) (k : string)
    (v : V) :
  (forall x, d !! k = Some x -> P x) -> P v -> P (get d k v).
Proof. intros Hd Hv. unfold get. destruct (d !! k); auto. Qed.

Lemma subscript_Some {V : Type} (d : gmap string V) (k : string) (x : V) :
  d !! k = Some x -> subscript d k = Ok x.
Proof. intros H. unfold subscript. now rewrite H. Qed.

(** An item of a dictionary literal is one of the listed items. *)
Ltac literal_items H :=
  apply elem_of_list_to_map_2 in H;
  repeat (apply elem_of_cons in H as [H | H];
          [ injection H as -> -> | ]);
  [ .. | now apply elem_of_nil in H ].

Lemma REFRIGERANTS_nonneg (k : string) (v : Q) :
  ef.REFRIGERANTS !! k = Some v -> 0 <= v.
Proof. intros H. literal_items H; discriminate. Qed.

Lemma ELECTRICITY_nonneg (k : string) (v : Q) :
  ef.ELECTRICITY !! k = Some v -> 0 <= v.
Proof. intros H. literal_items H; discriminate. Qed.

Lemma PURCHASED_GOODS_nonneg (k : string) (v : Q) :
  ef.PURCHASED_GOODS !! k = Some v -> 0 <= v.
Proof. intros H. literal_items H; discriminate. Qed.

Lemma COMMUTING_nonneg (k : string) (v : Q) :
  ef.COMMUTING !! k = Some v -> 0 <= v.
Proof. intros H. literal_items H; discriminate. Qed.

(** Whatever the mode, the single-mode branch subscripts [COMMUTING] with one
    of its keys. *)
Lemma mode_key_in_COMMUTING (commute_mode : string) :
  exists f, ef.COMMUTING !! get ghg.mode_mapping commute_mode "car" = Some f.
Proof.
  apply (get_ind (fun key => exists f, ef.COMMUTING !! key = Some f)).
  - intros key H. literal_items H; eexists; reflexivity.
  - eexists; reflexivity.
Qed.

(** ** What each calculator returns *)

Section ClosedForms.

Import ghg.

Lemma stationary_combustion_eq (natural_gas diesel propane fuel_oil : Q) :
  calculate_stationary_combustion natural_gas diesel propane fuel_oil
  = Ok (natural_gas * 0.00195 + diesel * 0.00273 + propane * 0.00153
        + fuel_oil * 0.00281).
Proof. unfold calculate_stationary_combustion. read_tables. reflexivity. Qed.

Lemma mobile_combustion_eq (gasoline diesel jet_fuel : Q) :
  calculate_mobile_combustion gasoline diesel jet_fuel
  = Ok (gasoline * 0.00234 + diesel * 0.00267 + jet_fuel * 0.00259).
Proof. unfold calculate_mobile_combustion. read_tables. reflexivity. Qed.

Lemma business_travel_eq (short medium long car_rental hotel_stays : Q) :
  calculate_business_travel_emissions short medium long car_rental
    hotel_stays
  = Ok (short * 0.000258 + medium * 0.000168 + long * 0.000153
        + car_rental * 0.000348 + hotel_stays * 0.021).
Proof.
  unfold calculate_business_travel_emissions. read_tables. reflexivity.
Qed.

Lemma waste_eq (landfill recycled composted incinerated : Q) :
  calculate_waste_emissions landfill recycled composted incinerated
  = Ok (landfill * 0.458 + recycled * 0.021 + composted * 0.023
        + incinerated * 0.0136).
Proof. unfold calculate_waste_emissions. read_tables. reflexivity. Qed.

Lemma purchased_goods_eq (purchased_goods : Q) (industry : string) :
  calculate_purchased_goods_emissions purchased_goods industry
  = Ok (purchased_goods / 1000000
        * get ef.PURCHASED_GOODS (industry_key industry) 412).
Proof.
  unfold calculate_purchased_goods_emissions. read_tables. reflexivity.
Qed.

Lemma refrigerant_None (amount : Q) :
  calculate_refrigerant_emissions "None" amount = Ok 0.
Proof. reflexivity. Qed.

Lemma refrigerant_zero (refrigerant_type : string) (amount : Q) :
  amount == 0 -> calculate_refrigerant_emissions refrigerant_type amount = Ok 0.
Proof.
  intros H. unfold calculate_refrigerant_emissions.
  apply Qeq_bool_iff in H. rewrite H, orb_true_r. reflexivity.
Qed.

(** Both exits of the function agree with the formula. *)
Lemma refrigerant_formula (refrigerant_type : string) (amount : Q) :
  exists v,
    calculate_refrigerant_emissions refrigerant_type amount = Ok v
    /\ v == amount * get ef.REFRIGERANTS refrigerant_type 0 / 1000.
Proof.
  unfold calculate_refrigerant_emissions.
  destruct (String.eqb_spec refrigerant_type "None") as [-> | Hty]; simpl.
  - eexists; split; [reflexivity |].
    change (get ef.REFRIGERANTS "None" 0) with 0. field.
  - destruct (Qeq_bool amount 0) eqn:Ha.
    + eexists; split; [reflexivity |].
      apply Qeq_bool_iff in Ha. rewrite Ha. field.
    + eexists; split; reflexivity.
Qed.

Lemma electricity_renewable (electricity : Q) (grid_region : string) :
  calculate_electricity_emissions electricity grid_region "Renewable Energy"
  = Ok (electricity * 0.000016 / 1000).
Proof. reflexivity. Qed.

Lemma electricity_mixed (electricity : Q) (grid_region : string) :
  calculate_electricity_emissions electricity grid_region "Mixed Sources"
  = Ok (electricity * 0.000320 / 1000).
Proof. reflexivity. Qed.

Lemma electricity_grid (electricity : Q) (grid_region source : string) :
  source <> "Renewable Energy" -> source <> "Mixed Sources" ->
  calculate_electricity_emissions electricity grid_region source
  = Ok (electricity
        * get ef.ELECTRICITY (grid_region_key grid_region) 0.000431 / 1000).
Proof.
  intros Hr Hm. unfold calculate_electricity_emissions.
  apply String.eqb_neq in Hr, Hm. rewrite Hr, Hm.
  read_tables. reflexivity.
Qed.

Lemma electricity_returns (electricity : Q) (grid_region source : string) :
  exists f,
    calculate_electricity_emissions electricity grid_region source
    = Ok (electricity * f / 1000)
    /\ 0 <= f.
Proof.
  destruct (String.eqb_spec source "Renewable Energy") as [-> | Hr].
  { eexists; split; [apply electricity_renewable | discriminate]. }
  destruct (String.eqb_spec source "Mixed Sources") as [-> | Hm].
  { eexists; split; [apply electricity_mixed | discriminate]. }
  eexists; split; [now apply electricity_grid |].
  apply (get_ind (fun f => 0 <= f)); [apply ELECTRICITY_nonneg | discriminate].
Qed.

(** The single-mode branch. *)
Lemma commuting_single (d n days : Q) (mode : string)
    (breakdown : option (gmap string Q)) :
  (String.eqb mode "Mixed" && truthy breakdown)%bool = false ->
  exists f,
    ef.COMMUTING !! get mode_mapping mode "car" = Some f
    /\ calculate_employee_commuting_emissions d n days mode breakdown
       = Ok (total_annual_miles d n days * f).
Proof.
  intros Hc. destruct (mode_key_in_COMMUTING mode) as [f Hf].
  exists f. split; [exact Hf |].
  unfold calculate_employee_commuting_emissions. rewrite Hc.
  now rewrite (subscript_Some _ _ _ Hf).
Qed.

(** The mixed branch, for a breakdown that has the five modes. *)
Lemma commuting_mixed (d n days c cp pt wb wfh : Q)
    (breakdown : gmap string Q) :
  breakdown !! "car" = Some c ->
  breakdown !! "carpool" = Some cp ->
  breakdown !! "public_transit" = Some pt ->
  breakdown !! "walking_biking" = Some wb ->
  breakdown !! "wfh" = Some wfh ->
  calculate_employee_commuting_emissions d n days "Mixed" (Some breakdown)
  = Ok (total_annual_miles d n days * c * 0.000348
        + total_annual_miles d n days * cp * 0.000162
        + total_annual_miles d n days * pt * 0.000096
        + total_annual_miles d n days * wb * 0
        + total_annual_miles d n days * wfh * 0.000032).
Proof.
  intros Hc Hcp Hpt Hwb Hwfh.
  unfold calculate_employee_commuting_emissions.
  assert (Ht : truthy (Some breakdown) = true).
  { unfold truthy. destruct (size breakdown) eqn:Hs; [| reflexivity].
    apply map_size_empty_inv in Hs. subst breakdown.
    now rewrite lookup_empty in Hc. }
  rewrite Ht. simpl andb. cbv iota. unfold subscript_opt.
  rewrite (subscript_Some _ _ _ Hc), (subscript_Some _ _ _ Hcp),
    (subscript_Some _ _ _ Hpt), (subscript_Some _ _ _ Hwb),
    (subscript_Some _ _ _ Hwfh).
  read_tables. reflexivity.
Qed.

End ClosedForms.

(** ** Non-negativity *)

Lemma Qplus_nonneg (a b : Q) : 0 <= a -> 0 <= b -> 0 <= a + b.
Proof. intros Ha Hb. lra. Qed.

Lemma Qdiv_nonneg (a b : Q) : 0 <= a -> 0 < b -> 0 <= a / b.
Proof.
  intros Ha Hb. apply Qle_shift_div_l; [exact Hb |]. now rewrite Qmult_0_l.
Qed.

Lemma total_annual_miles_nonneg (d n days : Q) :
  0 <= d -> 0 <= n -> 0 <= days -> 0 <= ghg.total_annual_miles d n days.
Proof.
  intros Hd Hn Hdays. unfold ghg.total_annual_miles.
  repeat apply Qmult_le_0_compat; auto. discriminate.
Qed.

Lemma has_shares_inv (P : Q -> Prop) (breakdown : gmap string Q) :
  has_shares P breakdown ->
  exists c cp pt wb wfh,
    (breakdown !! "car" = Some c /\ P c)
    /\ (breakdown !! "carpool" = Some cp /\ P cp)
    /\ (breakdown !! "public_transit" = Some pt /\ P pt)
    /\ (breakdown !! "walking_biking" = Some wb /\ P wb)
    /\ (breakdown !! "wfh" = Some wfh /\ P wfh).
Proof.
  unfold has_shares, modes. intros H.
  apply Forall_cons_1 in H as [(c & Hc & Hc0) T1].
  apply Forall_cons_1 in T1 as [(cp & Hcp & Hcp0) T2].
  apply Forall_cons_1 in T2 as [(pt & Hpt & Hpt0) T3].
  apply Forall_cons_1 in T3 as [(wb & Hwb & Hwb0) T4].
  apply Forall_cons_1 in T4 as [(wfh & Hwfh & Hwfh0) _].
  exists c, cp, pt, wb, wfh. auto 10.
Qed.

(** With such a breakdown argument the function returns, for every mode. *)
Lemma commuting_returns (P : Q -> Prop) (d n days : Q) (mode : string)
    (mode_breakdown : option (gmap string Q)) :
  breakdown_ok P mode_breakdown ->
  exists v,
    ghg.calculate_employee_commuting_emissions d n days mode mode_breakdown
    = Ok v.
Proof.
  intros Hb.
  destruct (String.eqb mode "Mixed" && ghg.truthy mode_breakdown)%bool eqn:Hc.
  - apply andb_true_iff in Hc as [Hmode Ht].
    apply String.eqb_eq in Hmode. subst mode.
    destruct mode_breakdown as [m |]; [| discriminate Ht].
    destruct Hb as [-> | Hb]; [discriminate Ht |].
    apply has_shares_inv in Hb
      as (c & cp & pt & wb & wfh & [Hc ?] & [Hcp ?] & [Hpt ?] & [Hwb ?]
          & [Hwfh ?]).
    rewrite (commuting_mixed d n days c cp pt wb wfh m) by assumption.
    eexists; reflexivity.
  - destruct (commuting_single d n days mode mode_breakdown Hc) as (f & _ & ->).
    eexists; reflexivity.
Qed.

Lemma commuting_nonneg (d n days : Q) (mode : string)
    (mode_breakdown : option (gmap string Q)) :
  0 <= d -> 0 <= n -> 0 <= days -> breakdown_nonneg mode_breakdown ->
  exists v,
    ghg.calculate_employee_commuting_emissions d n days mode mode_breakdown
    = Ok v
    /\ 0 <= v.
Proof.
  intros Hd Hn Hdays Hb.
  pose proof (total_annual_miles_nonneg d n days Hd Hn Hdays) as Hmiles.
  destruct (String.eqb mode "Mixed" && ghg.truthy mode_breakdown)%bool eqn:Hc.
  - apply andb_true_iff in Hc as [Hmode Ht].
    apply String.eqb_eq in Hmode. subst mode.
    destruct mode_breakdown as [m |]; [| discriminate Ht].
    destruct Hb as [-> | Hb]; [discriminate Ht |].
    apply has_shares_inv in Hb
      as (c & cp & pt & wb & wfh & [Hc ?] & [Hcp ?] & [Hpt ?] & [Hwb ?]
          & [Hwfh ?]).
    rewrite (commuting_mixed d n days c cp pt wb wfh m) by assumption.
    eexists. split; [reflexivity |].
    repeat (apply Qplus_nonneg || apply Qmult_le_0_compat);
      solve [assumption | discriminate].
  - destruct (commuting_single d n days mode mode_breakdown Hc) as (f & Hf & ->).
    eexists. split; [reflexivity |].
    apply Qmult_le_0_compat; [exact Hmiles |].
    now apply COMMUTING_nonneg in Hf.
Qed.

Lemma refrigerant_nonneg (refrigerant_type : string) (amount : Q) :
  0 <= amount ->
  exists v,
    ghg.calculate_refrigerant_emissions refrigerant_type amount = Ok v
    /\ 0 <= v.
Proof.
  intros Ha.
  destruct (refrigerant_formula refrigerant_type amount) as (v & Hv & Heq).
  exists v. split; [exact Hv |]. rewrite Heq.
  apply Qdiv_nonneg; [| reflexivity].
  apply Qmult_le_0_compat; [exact Ha |].
  apply (get_ind (fun g => 0 <= g)); [apply REFRIGERANTS_nonneg | discriminate].
Qed.

Lemma electricity_nonneg (electricity : Q) (grid_region source : string) :
  0 <= electricity ->
  exists v,
    ghg.calculate_electricity_emissions electricity grid_region source = Ok v
    /\ 0 <= v.
Proof.
  intros He.
  destruct (electricity_returns electricity grid_region source)
    as (f & Hv & Hf).
  eexists. split; [exact Hv |].
  apply Qdiv_nonneg; [| reflexivity].
  now apply Qmult_le_0_compat.
Qed.

Lemma purchased_goods_nonneg (purchased_goods : Q) (industry : string) :
  0 <= purchased_goods ->
  exists v,
    ghg.calculate_purchased_goods_emissions purchased_goods industry = Ok v
    /\ 0 <= v.
Proof.
  intros Hp. eexists. split; [apply purchased_goods_eq |].
  apply Qmult_le_0_compat.
  - now apply Qdiv_nonneg.
  - apply (get_ind (fun f => 0 <= f));
      [apply PURCHASED_GOODS_nonneg | discriminate].
Qed.

(** In exact arithmetic: with non-negative arguments (and non-negative
    shares in the mode breakdown, when one is given), each of the eight
    calculators returns, and what it returns is non-negative.  What binary64
    does of this is settled further down. *)
Lemma exact_calculators_nonneg (c : call) :
  nonneg_args c -> exists v, run c = Ok v /\ 0 <= v.
Proof.
  destruct c; simpl; intros H.
  - rewrite stationary_combustion_eq. eexists; split; [reflexivity | lra].
  - rewrite mobile_combustion_eq. eexists; split; [reflexivity | lra].
  - now apply refrigerant_nonneg.
  - now apply electricity_nonneg.
  - rewrite business_travel_eq. eexists; split; [reflexivity | lra].
  - destruct H as (Hd & Hn & Hdays & Hb). now apply commuting_nonneg.
  - rewrite waste_eq. eexists; split; [reflexivity | lra].
  - now apply purchased_goods_nonneg.
Qed.

(** ** The aggregation step *)

Section Aggregation.

Import app.

Variable i : FormInput.

Lemma mode_breakdown_of_shares :
  mode_breakdown_of i !! "car"
  = Some (share (commute_mode i) (car_percent i) "Car (Single Occupancy)")
  /\ mode_breakdown_of i !! "carpool"
     = Some (share (commute_mode i) (carpool_percent i) "Carpool")
  /\ mode_breakdown_of i !! "public_transit"
     = Some (share (commute_mode i) (public_transit_percent i)
               "Public Transit")
  /\ mode_breakdown_of i !! "walking_biking"
     = Some (share (commute_mode i) (walking_biking_percent i)
               "Walking/Biking")
  /\ mode_breakdown_of i !! "wfh"
     = Some (share (commute_mode i) (wfh_percent i) "Work from Home").
Proof. repeat split; reflexivity. Qed.

Lemma inject_Z_nonneg (z : Z) : (0 <= z)%Z -> 0 <= inject_Z z.
Proof. intros H. change 0 with (inject_Z 0). now rewrite <- Zle_Qle. Qed.

Lemma share_nonneg (mode : string) (percent : Z) (m : string) :
  (0 <= percent)%Z -> 0 <= share mode percent m.
Proof.
  intros H. unfold share.
  destruct (String.eqb mode "Mixed").
  - apply Qdiv_nonneg; [now apply inject_Z_nonneg | reflexivity].
  - destruct (String.eqb mode m); discriminate.
Qed.

Lemma mode_breakdown_of_nonneg :
  nonneg_inputs i -> breakdown_nonneg (Some (mode_breakdown_of i)).
Proof.
  intros H. right.
  destruct mode_breakdown_of_shares as (Hc & Hcp & Hpt & Hwb & Hwfh).
  repeat constructor; eexists; (split; [eassumption |]);
    apply share_nonneg; apply H.
Qed.

Lemma calculate_button_aggregates (c1 c2 c3 c4 c5 c6 c7 c8 : Q) :
  categories_of i c1 c2 c3 c4 c5 c6 c7 c8 ->
  calculate_button i = Ok (aggregate c1 c2 c3 c4 c5 c6 c7 c8).
Proof.
  intros (H1 & H2 & H3 & H4 & H5 & H6 & H7 & H8). unfold calculate_button.
  rewrite H1, H2, H3, H4, H5, H6, H7, H8. reflexivity.
Qed.

Lemma aggregate_sums (c1 c2 c3 c4 c5 c6 c7 c8 : Q) :
  let r := aggregate c1 c2 c3 c4 c5 c6 c7 c8 in
  total_emissions r == sum (values (emissions_by_scope r))
  /\ total_emissions r == sum (values (emissions_by_category r)).
Proof. unfold sum; simpl. split; ring. Qed.

End Aggregation.

(** In exact arithmetic: for non-negative inputs the button returns a
    result; in it Scope 1 = stationary + mobile + refrigerants, Scope 2 =
    electricity, Scope 3 = business travel + commuting + waste + purchased
    goods, the total is Scope 1 + Scope 2 + Scope 3; the total equals the
    sum of the three scope values and the sum of the eight category values,
    and every stored value is non-negative.  What binary64 does of this is
    settled further down. *)
Lemma exact_aggregation (i : app.FormInput) :
  app.nonneg_inputs i ->
  exists c1 c2 c3 c4 c5 c6 c7 c8 : Q,
    let r := aggregate c1 c2 c3 c4 c5 c6 c7 c8 in
    categories_of i c1 c2 c3 c4 c5 c6 c7 c8
    /\ app.calculate_button i = Ok r
    /\ app.total_emissions r
       == app.sum (app.values (app.emissions_by_scope r))
    /\ app.total_emissions r
       == app.sum (app.values (app.emissions_by_category r))
    /\ 0 <= app.total_emissions r
    /\ Forall (Qle 0) (app.values (app.emissions_by_scope r))
    /\ Forall (Qle 0) (app.values (app.emissions_by_category r)).
Proof.
  intros H.
  pose proof (mode_breakdown_of_nonneg i H) as Hb.
  destruct (refrigerant_nonneg (app.refrigerant_type i)
              (app.refrigerant_amount i)) as (c3 & H3 & Hc3);
    [apply H |].
  destruct (electricity_nonneg (app.electricity i) (app.grid_region i)
              (app.electricity_source i)) as (c4 & H4 & Hc4);
    [apply H |].
  destruct (commuting_nonneg (app.avg_commute_distance i)
              (inject_Z (app.num_employees i))
              (inject_Z (app.commute_days_per_year i)) (app.commute_mode i)
              (Some (app.mode_breakdown_of i))) as (c6 & H6 & Hc6);
    [ apply H | apply inject_Z_nonneg, H | apply inject_Z_nonneg, H
    | exact Hb | ].
  destruct (purchased_goods_nonneg (inject_Z (app.purchased_goods i))
              (app.industry i)) as (c8 & H8 & Hc8);
    [apply inject_Z_nonneg, H |].
  pose proof (inject_Z_nonneg _ (app.nn_hotel_stays i H)) as Hhotel.
  destruct H.
  eassert (Hcat : categories_of i _ _ c3 c4 _ c6 _ c8).
  { unfold categories_of. repeat apply conj; try eassumption.
    - apply stationary_combustion_eq.
    - apply mobile_combustion_eq.
    - apply business_travel_eq.
    - apply waste_eq. }
  do 8 eexists. cbv zeta.
  split; [exact Hcat |].
  split; [now apply calculate_button_aggregates |].
  split; [apply aggregate_sums |].
  split; [apply aggregate_sums |].
  simpl. repeat split; repeat constructor; lra.
Qed.

Lemma sample_input_nonneg : app.nonneg_inputs sample_input.
Proof. constructor; simpl; (lia || discriminate). Defined.

(** ** Refrigerants *)

(** C4: the function returns amount * GWP(type) / 1000, where the GWP of a
    type that is not in the table is 0; it returns 0 when the type is
    ["None"] (also when it is ["none"], whose GWP is 0) or the amount is 0. *)
Theorem refrigerant_emissions_spec :
  (forall (refrigerant_type : string) (amount : Q),
     exists v,
       ghg.calculate_refrigerant_emissions refrigerant_type amount = Ok v
       /\ v == amount * get ef.REFRIGERANTS refrigerant_type 0 / 1000)
  /\ (forall amount : Q,
        ghg.calculate_refrigerant_emissions "None" amount = Ok 0)
  /\ (forall amount : Q,
        exists v,
          ghg.calculate_refrigerant_emissions "none" amount = Ok v
          /\ v == 0)
  /\ (forall (refrigerant_type : string) (amount : Q),
        amount == 0 ->
        ghg.calculate_refrigerant_emissions refrigerant_type amount = Ok 0)
  /\ (exists v,
        ghg.calculate_refrigerant_emissions "none" 100 = Ok v /\ v == 0)
  /\ ghg.calculate_refrigerant_emissions "R-134a" 0 = Ok 0
  /\ (forall amount : Q,
        exists v,
          ghg.calculate_refrigerant_emissions "R-134a" amount = Ok v
          /\ v == amount * 1430 / 1000).
Proof.
  assert (Hnone : forall amount : Q,
            exists v,
              ghg.calculate_refrigerant_emissions "none" amount = Ok v
              /\ v == 0).
  { intros amount.
    destruct (refrigerant_formula "none" amount) as (v & Hv & Heq).
    exists v. split; [exact Hv |]. rewrite Heq.
    change (get ef.REFRIGERANTS "none" 0) with 0. field. }
  split; [exact refrigerant_formula |].
  split; [exact refrigerant_None |].
  split; [exact Hnone |].
  split; [exact refrigerant_zero |].
  split; [apply Hnone |].
  split; [reflexivity |].
  intros amount. exact (refrigerant_formula "R-134a" amount).
Qed.

Lemma refrigerant_emissions_spec_witness :
  (0 # 7) == 0
  /\ ghg.calculate_refrigerant_emissions "R-410A" (0 # 7) = Ok 0.
Proof.
  split.
  - reflexivity.
  - apply (proj1 (proj2 (proj2 (proj2 refrigerant_emissions_spec)))).
    reflexivity.
Defined.

(** ** Electricity *)

(** C3, as the claim states it, fails: the source ["renewable"] is not one
    that the function tests for, so the factor of the region is used. *)
Lemma electricity_source_renewable_counterexample :
  ghg.calculate_electricity_emissions 1000 "Asia" "renewable"
  = Ok (1000 * 0.000562 / 1000)
  /\ ~ 1000 * 0.000562 / 1000 == 1000 * 0.000016 / 1000.
Proof. split; [reflexivity | discriminate]. Qed.

(** C3 (amended): the source ["Renewable Energy"] uses the factor 0.000016
    and the source ["Mixed Sources"] the factor 0.000320, whatever the
    region; any other source uses the factor stored under the key of the
    region, or the default factor 0.000431 when the table has no such key. *)
Theorem electricity_factor_selection
    (kwh : Q) (grid_region electricity_source : string) :
  ghg.calculate_electricity_emissions kwh grid_region "Renewable Energy"
  = Ok (kwh * 0.000016 / 1000)
  /\ ghg.calculate_electricity_emissions kwh grid_region "Mixed Sources"
     = Ok (kwh * 0.000320 / 1000)
  /\ (electricity_source <> "Renewable Energy" ->
      electricity_source <> "Mixed Sources" ->
      (forall f : Q,
         ef.ELECTRICITY !! ghg.grid_region_key grid_region = Some f ->
         ghg.calculate_electricity_emissions kwh grid_region
           electricity_source
         = Ok (kwh * f / 1000))
      /\ (ef.ELECTRICITY !! ghg.grid_region_key grid_region = None ->
          ghg.calculate_electricity_emissions kwh grid_region
            electricity_source
          = Ok (kwh * 0.000431 / 1000))).
Proof.
  split; [apply electricity_renewable |].
  split; [apply electricity_mixed |].
  intros Hr Hm.
  rewrite (electricity_grid kwh grid_region electricity_source Hr Hm).
  split.
  - intros f Hf. now rewrite (get_Some _ _ _ f Hf).
  - intros Hf. now rewrite (get_None _ _ _ Hf).
Qed.

Lemma electricity_factor_selection_witness :
  "Grid Electricity" <> "Renewable Energy"
  /\ "Grid Electricity" <> "Mixed Sources"
  /\ ef.ELECTRICITY !! ghg.grid_region_key "Western Europe" = Some 0.000276
  /\ ghg.calculate_electricity_emissions 1000 "Western Europe"
       "Grid Electricity"
     = Ok (1000 * 0.000276 / 1000).
Proof.
  assert (Hr : "Grid Electricity" <> "Renewable Energy") by discriminate.
  assert (Hm : "Grid Electricity" <> "Mixed Sources") by discriminate.
  split; [exact Hr |]. split; [exact Hm |]. split; [reflexivity |].
  apply (proj1 (proj2 (proj2 (electricity_factor_selection 1000
                                "Western Europe" "Grid Electricity"))
                 Hr Hm)).
  reflexivity.
Defined.

(** The regions that the form offers, "Other" apart, each with the factor
    that [emission_factors.py] gives it. *)
Definition region_factors : list (string * Q) :=
  [ ("Northeast US", 0.000254);
    ("Midwest US", 0.000481);
    ("South US", 0.000427);
    ("West US", 0.000221);
    ("Western Europe", 0.000276);
    ("Eastern Europe", 0.000483);
    ("Asia", 0.000562) ]%string.

(** C5: with the source ["Grid Electricity"] the factor that the table
    holds under the key of the region is applied and divided by 1000, for
    every region: each region of the form has a factor of its own, and for
    1000 kWh in ["Northeast US"] the result is 1000 * 0.000254 / 1000 =
    0.000254; a region whose key is not in the table, such as ["Unknown
    Region"], gets the default factor 0.000431.  The two examples give the
    same numbers in binary64. *)
Theorem grid_electricity_examples :
  (forall (kwh : Q) (grid_region : string) (f : Q),
     ef.ELECTRICITY !! ghg.grid_region_key grid_region = Some f ->
     ghg.calculate_electricity_emissions kwh grid_region "Grid Electricity"
     = Ok (kwh * f / 1000))
  /\ (forall (kwh : Q) (grid_region : string),
        ef.ELECTRICITY !! ghg.grid_region_key grid_region = None ->
        ghg.calculate_electricity_emissions kwh grid_region
          "Grid Electricity"
        = Ok (kwh * 0.000431 / 1000))
  /\ Forall
       (fun '(grid_region, f) =>
          forall kwh : Q,
            ghg.calculate_electricity_emissions kwh grid_region
              "Grid Electricity"
            = Ok (kwh * f / 1000))
       region_factors
  /\ (exists v,
        ghg.calculate_electricity_emissions 1000 "Northeast US"
          "Grid Electricity" = Ok v
        /\ v == 1000 * 0.000254 / 1000
        /\ v == 0.000254)
  /\ (forall kwh : Q,
        ghg.calculate_electricity_emissions kwh "Unknown Region"
          "Grid Electricity"
        = Ok (kwh * 0.000431 / 1000))
  /\ ghg64.calculate_electricity_emissions 1000%float "Northeast US"
       "Grid Electricity"
     = Ok 0.000254%float
  /\ ghg64.calculate_electricity_emissions 1000%float "Unknown Region"
       "Grid Electricity"
     = Ok (1000 * 0.000431 / 1000)%float.
Proof.
  split.
  { intros kwh grid_region f Hf.
    rewrite electricity_grid by discriminate.
    now rewrite (get_Some _ _ _ f Hf). }
  split.
  { intros kwh grid_region Hf.
    rewrite electricity_grid by discriminate.
    now rewrite (get_None _ _ _ Hf). }
  split.
  { unfold region_factors.
    repeat (apply List.Forall_cons; [intros kwh; reflexivity |]).
    apply List.Forall_nil. }
  split; [eexists; repeat split; reflexivity |].
  split; [reflexivity |].
  split; vm_compute; reflexivity.
Qed.

Lemma grid_electricity_examples_witness :
  ef.ELECTRICITY !! ghg.grid_region_key "Asia" = Some 0.000562
  /\ ghg.calculate_electricity_emissions 1000 "Asia" "Grid Electricity"
     = Ok (1000 * 0.000562 / 1000)
  /\ ef.ELECTRICITY !! ghg.grid_region_key "Other" = None
  /\ ghg.calculate_electricity_emissions 1000 "Other" "Grid Electricity"
     = Ok (1000 * 0.000431 / 1000).
Proof.
  assert (Hasia : ef.ELECTRICITY !! ghg.grid_region_key "Asia"
                  = Some 0.000562) by reflexivity.
  assert (Hother : ef.ELECTRICITY !! ghg.grid_region_key "Other" = None)
    by reflexivity.
  split; [exact Hasia |].
  split; [exact (proj1 grid_electricity_examples 1000 "Asia" _ Hasia) |].
  split; [exact Hother |].
  exact (proj1 (proj2 grid_electricity_examples) 1000 "Other" Hother).
Defined.

(** ** Employee commuting *)

(** A mode other than ["Mixed"] that the mode mapping knows: its factor is
    applied to the whole mileage, whatever the breakdown argument. *)
Lemma commuting_single_factor (d n days : Q) (commute_mode key : string)
    (f : Q) (mode_breakdown : option (gmap string Q)) :
  commute_mode <> "Mixed" ->
  ghg.mode_mapping !! commute_mode = Some key ->
  ef.COMMUTING !! key = Some f ->
  ghg.calculate_employee_commuting_emissions d n days commute_mode
    mode_breakdown
  = Ok (d * 2 * n * days * f).
Proof.
  intros Hmode Hkey Hf.
  assert (Hc : (String.eqb commute_mode "Mixed"
                && ghg.truthy mode_breakdown)%bool = false).
  { apply String.eqb_neq in Hmode. now rewrite Hmode. }
  destruct (commuting_single d n days commute_mode mode_breakdown Hc)
    as (f' & Hf' & ->).
  rewrite (get_Some _ _ _ key Hkey), Hf in Hf'.
  injection Hf' as <-. reflexivity.
Qed.

(** C6: the annual round-trip mileage is distance * 2 * employees * days, and
    a single mode multiplies it by the factor of that mode; 10 miles, 100
    employees, 230 days by car give 10*2*100*230*0.000348. *)
Theorem commuting_single_mode :
  (forall d n days : Q, ghg.total_annual_miles d n days = d * 2 * n * days)
  /\ (forall (d n days : Q) (commute_mode key : string) (f : Q)
             (mode_breakdown : option (gmap string Q)),
        commute_mode <> "Mixed" ->
        ghg.mode_mapping !! commute_mode = Some key ->
        ef.COMMUTING !! key = Some f ->
        ghg.calculate_employee_commuting_emissions d n days commute_mode
          mode_breakdown
        = Ok (d * 2 * n * days * f))
  /\ Forall
       (fun '(commute_mode, f) =>
          forall (d n days : Q) (mode_breakdown : option (gmap string Q)),
            ghg.calculate_employee_commuting_emissions d n days commute_mode
              mode_breakdown
            = Ok (d * 2 * n * days * f))
       single_mode_factors
  /\ ghg.calculate_employee_commuting_emissions 10 100 230
       "Car (Single Occupancy)" None
     = Ok (10 * 2 * 100 * 230 * 0.000348).
Proof.
  split; [reflexivity |].
  split; [exact commuting_single_factor |].
  split; [| reflexivity].
  unfold single_mode_factors.
  repeat constructor; intros d n days b;
    (eapply commuting_single_factor; [discriminate | reflexivity ..]).
Qed.

Lemma commuting_single_mode_witness :
  "Carpool" <> "Mixed"
  /\ ghg.mode_mapping !! "Carpool" = Some "carpool"
  /\ ef.COMMUTING !! "carpool" = Some 0.000162
  /\ ghg.calculate_employee_commuting_emissions 12 40 200 "Carpool" None
     = Ok (12 * 2 * 40 * 200 * 0.000162).
Proof.
  assert (Hmode : "Carpool" <> "Mixed") by discriminate.
  split; [exact Hmode |]. split; [reflexivity |]. split; [reflexivity |].
  apply (proj1 (proj2 commuting_single_mode) 12 40 200 "Carpool" "carpool"
           0.000162 None Hmode); reflexivity.
Defined.

(** C7: with the mode ["Mixed"] and a breakdown of the five modes that sums
    to 100%, the result is the sum over the modes of mileage share times
    factor.  The shares add up to the whole annual mileage, and the result
    is also the sum of five single-mode calls, each on the share of its mode
    of the commute distance. *)
Theorem mixed_commuting_weighted_sum
    (d n days c cp pt wb wfh : Q) (breakdown : gmap string Q) :
  breakdown !! "car" = Some c ->
  breakdown !! "carpool" = Some cp ->
  breakdown !! "public_transit" = Some pt ->
  breakdown !! "walking_biking" = Some wb ->
  breakdown !! "wfh" = Some wfh ->
  c + cp + pt + wb + wfh == 1 ->
  let miles := d * 2 * n * days in
  exists v,
    ghg.calculate_employee_commuting_emissions d n days "Mixed"
      (Some breakdown) = Ok v
    /\ v == sum_of_mode_shares miles c cp pt wb wfh
    /\ mileage_share miles c + mileage_share miles cp
       + mileage_share miles pt + mileage_share miles wb
       + mileage_share miles wfh == miles
    /\ exists v1 v2 v3 v4 v5,
         ghg.calculate_employee_commuting_emissions (d * c) n days
           "Car (Single Occupancy)" None = Ok v1
         /\ ghg.calculate_employee_commuting_emissions (d * cp) n days
              "Carpool" None = Ok v2
         /\ ghg.calculate_employee_commuting_emissions (d * pt) n days
              "Public Transit" None = Ok v3
         /\ ghg.calculate_employee_commuting_emissions (d * wb) n days
              "Walking/Biking" None = Ok v4
         /\ ghg.calculate_employee_commuting_emissions (d * wfh) n days
              "Work from Home" None = Ok v5
         /\ v == v1 + v2 + v3 + v4 + v5.
Proof.
  intros Hc Hcp Hpt Hwb Hwfh Hsum miles.
  rewrite (commuting_mixed d n days c cp pt wb wfh breakdown) by assumption.
  eexists. split; [reflexivity |].
  unfold sum_of_mode_shares, mileage_share, ghg.total_annual_miles.
  fold miles.
  split; [reflexivity |].
  split.
  - transitivity (miles * (c + cp + pt + wb + wfh)); [ring |].
    rewrite Hsum. ring.
  - do 5 eexists.
    split; [now apply (commuting_single_factor _ _ _ _ "car" 0.000348) |].
    split; [now apply (commuting_single_factor _ _ _ _ "carpool" 0.000162) |].
    split;
      [now apply (commuting_single_factor _ _ _ _ "public_transit" 0.000096) |].
    split; [now apply (commuting_single_factor _ _ _ _ "walking_biking" 0) |].
    split; [now apply (commuting_single_factor _ _ _ _ "wfh" 0.000032) |].
    unfold miles. ring.
Qed.

Lemma mixed_commuting_weighted_sum_witness :
  let breakdown : gmap string Q :=
    list_to_map
      [("car", 0.3); ("carpool", 0.2); ("public_transit", 0.3);
       ("walking_biking", 0.1); ("wfh", 0.1)]%string in
  0.3 + 0.2 + 0.3 + 0.1 + 0.1 == 1
  /\ exists v,
      ghg.calculate_employee_commuting_emissions 10 100 230 "Mixed"
        (Some breakdown) = Ok v
      /\ v == sum_of_mode_shares (10 * 2 * 100 * 230) 0.3 0.2 0.3 0.1 0.1.
Proof.
  intros breakdown.
  assert (Hsum : 0.3 + 0.2 + 0.3 + 0.1 + 0.1 == 1) by reflexivity.
  split; [exact Hsum |].
  destruct (mixed_commuting_weighted_sum 10 100 230 0.3 0.2 0.3 0.1 0.1
              breakdown eq_refl eq_refl eq_refl eq_refl eq_refl Hsum)
    as (v & Hv & Heq & _).
  exists v. split; [exact Hv | exact Heq].
Defined.

(** C10, as the claim states it, fails: with the default distance and
    head count (both 0) the call returns 0. *)
Lemma mixed_without_breakdown_counterexample :
  ghg.calculate_employee_commuting_emissions 0 0 230 "Mixed" None
  = Ok (0 * 2 * 0 * 230 * 0.000348)
  /\ 0 * 2 * 0 * 230 * 0.000348 == 0.
Proof. split; reflexivity. Qed.

(** C10 (amended): with the mode ["Mixed"] and no breakdown ([None] or an
    empty dictionary) the function does not raise: it takes the single-mode
    branch, finds no ["Mixed"] in the mode mapping and applies the car
    factor to the whole annual mileage.  The result is 0 when that mileage
    is 0, and it is positive when the mileage is 1 mile or more. *)
Theorem mixed_without_breakdown
    (d n days : Q) (mode_breakdown : option (gmap string Q)) :
  mode_breakdown = None \/ mode_breakdown = Some ∅ ->
  ghg.mode_mapping !! "Mixed" = None
  /\ ghg.calculate_employee_commuting_emissions d n days "Mixed"
       mode_breakdown
     = Ok (d * 2 * n * days * 0.000348)
  /\ (d * 2 * n * days == 0 -> d * 2 * n * days * 0.000348 == 0)
  /\ (1 <= d * 2 * n * days -> 0 < d * 2 * n * days * 0.000348).
Proof.
  intros Hb. split; [reflexivity |]. split; [| split].
  - destruct Hb as [-> | ->]; reflexivity.
  - intros Hmiles. rewrite Hmiles. reflexivity.
  - intros Hmiles.
    apply (Qlt_le_trans _ (1 * 0.000348)); [reflexivity |].
    apply Qmult_le_compat_r; [exact Hmiles | discriminate].
Qed.

Lemma mixed_without_breakdown_witness :
  (@None (gmap string Q) = None \/ @None (gmap string Q) = Some ∅)
  /\ ghg.calculate_employee_commuting_emissions 10 100 230 "Mixed" None
     = Ok (10 * 2 * 100 * 230 * 0.000348)
  /\ 1 <= 10 * 2 * 100 * 230
  /\ 0 < 10 * 2 * 100 * 230 * 0.000348.
Proof.
  assert (Hb : @None (gmap string Q) = None \/ @None (gmap string Q) = Some ∅)
    by (left; reflexivity).
  assert (Hmiles : 1 <= 10 * 2 * 100 * 230) by discriminate.
  pose proof (mixed_without_breakdown 10 100 230 None Hb)
    as (_ & Hv & _ & Hpos).
  split; [exact Hb |]. split; [exact Hv |].
  split; [exact Hmiles | exact (Hpos Hmiles)].
Defined.

(** ** Selectors that the tables do not know *)






(** ** Combustion *)

(** C9: with all quantities 0, stationary and mobile combustion return 0. *)
Theorem zero_combustion :
  (exists v, ghg.calculate_stationary_combustion 0 0 0 0 = Ok v /\ v == 0)
  /\ (exists v, ghg.calculate_mobile_combustion 0 0 0 = Ok v /\ v == 0).
Proof. split; eexists; split; reflexivity. Qed.

(** * Further properties *)

(** ** The built-ins: [sorted] is a stable descending sort *)

Lemma In_firstn {A : Type} (n : nat) (l : list A) (x : A) :
  In x (List.firstn n l) -> In x l.
Proof.
  intros H. rewrite <- (List.firstn_skipn n l). apply in_or_app. now left.
Qed.

Lemma In_skipn {A : Type} (n : nat) (l : list A) (x : A) :
  In x (List.skipn n l) -> In x l.
Proof.
  intros H. rewrite <- (List.firstn_skipn n l). apply in_or_app. now right.
Qed.

Section OrderingFacts.

Context {A K : Type} (ltb : K -> K -> bool) (key : A -> K).

(** [x] is not less than [y]. *)
Definition not_below (x y : A) : Prop := ltb (key x) (key y) = false.

Hypothesis ltb_asym : forall a b, ltb a b = true -> ltb b a = false.
Hypothesis not_ltb_trans :
  forall a b c, ltb a b = false -> ltb b c = false -> ltb a c = false.

Lemma insert_desc_perm (x : A) (l : list A) :
  Permutation (Py.insert_desc ltb key x l) (x :: l).
Proof.
  induction l as [| y l IH]; simpl; [reflexivity |].
  destruct (ltb (key x) (key y)); [| reflexivity].
  rewrite IH. apply perm_swap.
Qed.

Lemma sorted_desc_perm (l : list A) :
  Permutation (Py.sorted_desc ltb key l) l.
Proof.
  induction l as [| x l IH]; simpl; [reflexivity |].
  rewrite insert_desc_perm. now rewrite IH.
Qed.

Lemma insert_desc_sorted (x : A) (l : list A) :
  StronglySorted not_below l ->
  StronglySorted not_below (Py.insert_desc ltb key x l).
Proof.
  induction 1 as [| y l Hl IH Hy]; simpl.
  - repeat constructor.
  - destruct (ltb (key x) (key y)) eqn:Hxy.
    + constructor; [exact IH |].
      rewrite List.Forall_forall in *. intros z Hz.
      apply (Permutation_in _ (insert_desc_perm x l)) in Hz.
      destruct Hz as [<- | Hz]; [now apply ltb_asym | now apply Hy].
    + constructor; [now constructor |].
      constructor; [exact Hxy |].
      eapply List.Forall_impl; [| exact Hy].
      intros z Hz. now apply (not_ltb_trans _ (key y)).
Qed.

Lemma sorted_desc_sorted (l : list A) :
  StronglySorted not_below (Py.sorted_desc ltb key l).
Proof.
  induction l as [| x l IH]; simpl; [constructor |].
  now apply insert_desc_sorted.
Qed.

(** Stability: the elements that a test on the key selects come out in the
    order they went in. *)
Lemma sorted_desc_stable (p : K -> bool) (l : list A) :
  (forall a b, p a = true -> p b = true -> ltb a b = false) ->
  List.filter (fun x => p (key x)) (Py.sorted_desc ltb key l)
  = List.filter (fun x => p (key x)) l.
Proof.
  intros Hp. induction l as [| x l IH]; simpl; [reflexivity |].
  rewrite <- IH. generalize (Py.sorted_desc ltb key l). clear IH.
  intros s. induction s as [| y s IHs]; simpl; [reflexivity |].
  destruct (ltb (key x) (key y)) eqn:Hxy; simpl; [| reflexivity].
  rewrite IHs.
  destruct (p (key x)) eqn:Hx, (p (key y)) eqn:Hy; try reflexivity.
  now rewrite (Hp _ _ Hx Hy) in Hxy.
Qed.

(** In a sorted list, what lies in a prefix is not below what follows. *)
Lemma sorted_app_inv (l1 l2 : list A) :
  StronglySorted not_below (l1 ++ l2) ->
  forall a b, In a l1 -> In b l2 -> not_below a b.
Proof.
  induction l1 as [| x l1 IH]; simpl; intros Hs a b Ha Hb; [easy |].
  inversion Hs as [| ? ? Hs' Hx]; subst.
  destruct Ha as [<- | Ha].
  - rewrite List.Forall_forall in Hx. apply Hx. apply in_or_app. now right.
  - now apply IH.
Qed.

Lemma filter_sorted (f : A -> bool) (l : list A) :
  StronglySorted not_below l -> StronglySorted not_below (List.filter f l).
Proof.
  induction 1 as [| x l Hl IH Hx]; simpl; [constructor |].
  destruct (f x); [| exact IH].
  constructor; [exact IH |].
  rewrite List.Forall_forall in *. intros y Hy.
  apply filter_In in Hy as [Hy _]. now apply Hx.
Qed.

(** When the test can only fail from some point of the order on, taking the
    first [n] and filtering commute. *)
Lemma firstn_filter_sorted (f : A -> bool) (n : nat) (l : list A) :
  (forall x y, not_below x y -> f y = true -> f x = true) ->
  StronglySorted not_below l ->
  List.firstn n (List.filter f l) = List.filter f (List.firstn n l).
Proof.
  intros Hf Hs. revert n.
  induction Hs as [| x l Hl IH Hx]; intros n; [now destruct n |].
  simpl. destruct (f x) eqn:Hfx.
  - destruct n as [| n]; simpl; [reflexivity |].
    now rewrite Hfx, IH.
  - assert (Hnone : forall l', incl l' l -> List.filter f l' = []).
    { intros l' Hincl. induction l' as [| y l' IHl']; [reflexivity |].
      simpl. destruct (f y) eqn:Hfy.
      - rewrite List.Forall_forall in Hx.
        assert (Hy : In y l) by (apply Hincl; now left).
        specialize (Hf x y (Hx y Hy) Hfy). congruence.
      - apply IHl'. intros z Hz. apply Hincl. now right. }
    rewrite (Hnone l) by apply incl_refl.
    destruct n as [| n]; simpl; [reflexivity |].
    rewrite Hfx. symmetry. apply Hnone.
    intros z Hz. eapply In_firstn; eassumption.
Qed.

End OrderingFacts.

(** The two orders in use: numbers and integers. *)

Lemma Qlt_bool_iff (a b : Q) : Py.Qlt_bool a b = true <-> a < b.
Proof.
  unfold Py.Qlt_bool. rewrite negb_true_iff. split; intros H.
  - apply Qnot_le_lt. intros Hle. apply Qle_bool_iff in Hle. congruence.
  - destruct (Qle_bool b a) eqn:Hle; [| reflexivity].
    apply Qle_bool_iff in Hle. exfalso. now apply (Qlt_not_le a b).
Qed.

Lemma Qlt_bool_false_iff (a b : Q) : Py.Qlt_bool a b = false <-> b <= a.
Proof.
  unfold Py.Qlt_bool. rewrite negb_false_iff. apply Qle_bool_iff.
Qed.

Lemma Qlt_bool_asym (a b : Q) :
  Py.Qlt_bool a b = true -> Py.Qlt_bool b a = false.
Proof.
  rewrite Qlt_bool_iff, Qlt_bool_false_iff. apply Qlt_le_weak.
Qed.

Lemma not_Qlt_bool_trans (a b c : Q) :
  Py.Qlt_bool a b = false -> Py.Qlt_bool b c = false ->
  Py.Qlt_bool a c = false.
Proof.
  rewrite !Qlt_bool_false_iff. intros Hba Hcb. now apply (Qle_trans _ b).
Qed.

Lemma Zltb_asym (a b : Z) : (a <? b)%Z = true -> (b <? a)%Z = false.
Proof. rewrite Z.ltb_lt, Z.ltb_ge. lia. Qed.

Lemma not_Zltb_trans (a b c : Z) :
  (a <? b)%Z = false -> (b <? c)%Z = false -> (a <? c)%Z = false.
Proof. rewrite !Z.ltb_ge. lia. Qed.

(** ** recommendations.py *)

(** The categories that [get_category_recommendations] knows. *)
Definition categories : list string :=
  [ "Stationary Combustion"; "Mobile Combustion"; "Refrigerants";
    "Purchased Electricity"; "Business Travel"; "Employee Commuting";
    "Waste Generation"; "Purchased Goods & Services" ]%string.

(** [emissions > 0] on an item. *)
Definition positive (item : string * Q) : bool := Py.Qlt_bool 0 (snd item).

(** The first line is a priority line. *)
Definition starts_with_priority (recommendations : list string) : bool :=
  String.prefix "PRIORITY: " (List.hd "" recommendations).

Lemma category_cases (P : string -> Prop) :
  Forall P categories ->
  (forall c, Py.mem c categories = false -> P c) ->
  forall c, P c.
Proof.
  intros Hknown Hother c.
  destruct (Py.mem c categories) eqn:Hc; [| now apply Hother].
  unfold Py.mem in Hc. apply List.existsb_exists in Hc as (c' & Hin & Heq).
  apply String.eqb_eq in Heq. subst c'.
  rewrite List.Forall_forall in Hknown. now apply Hknown.
Qed.

Lemma unknown_category_eqb (c : string) :
  Py.mem c categories = false ->
  Forall (fun c' => String.eqb c c' = false) categories.
Proof.
  intros H. rewrite List.Forall_forall. intros c' Hc'.
  destruct (String.eqb c c') eqn:Heq; [| reflexivity].
  unfold Py.mem in H. rewrite <- H. symmetry.
  apply List.existsb_exists. now exists c'.
Qed.

(** An unknown category gets no recommendation, priority or not. *)
Lemma unknown_category_nil (c industry : string) (is_priority : bool) :
  Py.mem c categories = false ->
  rec.get_category_recommendations c industry is_priority = [].
Proof.
  intros H. apply unknown_category_eqb in H.
  unfold categories in H.
  repeat match goal with
         | H : Forall _ (_ :: _) |- _ =>
             apply Forall_cons_1 in H;
             let E := fresh "E" in destruct H as [E H]
         end.
  unfold rec.get_category_recommendations.
  rewrite E, E0, E1, E2, E3, E4, E5, E6. now destruct is_priority.
Qed.

(** A known category gets some, and the first line is a priority line
    exactly when the category is a priority and is not "Refrigerants". *)
Lemma known_category_recommendations (industry : string) (is_priority : bool) :
  Forall
    (fun c =>
       rec.get_category_recommendations c industry is_priority <> []
       /\ starts_with_priority
            (rec.get_category_recommendations c industry is_priority)
          = (is_priority && negb (String.eqb c "Refrigerants"))%bool)
    categories.
Proof.
  unfold categories.
  repeat constructor; destruct is_priority; try discriminate; reflexivity.
Qed.

Lemma get_category_recommendations_nil
    (c industry : string) (is_priority : bool) :
  rec.get_category_recommendations c industry is_priority = []
  <-> Py.mem c categories = false.
Proof.
  revert c. apply category_cases.
  - pose proof (known_category_recommendations industry is_priority) as H.
    unfold categories in *.
    repeat match goal with
           | H : Forall _ (_ :: _) |- _ =>
               apply Forall_cons_1 in H;
               let E := fresh "E" in destruct H as [[E _] H]
           end.
    repeat (apply List.Forall_cons;
            [split; intros; (contradiction || discriminate) |]).
    apply List.Forall_nil.
  - intros c Hc. split; [easy |]. intros _. now apply unknown_category_nil.
Qed.

Lemma dict_set_fresh {V : Type} (d : list (string * V)) (k : string) (v : V) :
  ~ In k (List.map fst d) -> Py.dict_set d k v = (d ++ [(k, v)])%list.
Proof.
  induction d as [| [k' v'] d IH]; simpl; intros Hk; [reflexivity |].
  destruct (String.eqb_spec k' k) as [-> | Hne].
  - exfalso. apply Hk. now left.
  - rewrite IH; [reflexivity |]. intros Hin. apply Hk. now right.
Qed.

(** The items that the loop of [generate_recommendations] keeps. *)
Definition recommended (item : string * Q) : bool :=
  (positive item && Py.mem (fst item) categories)%bool.

(** On a dictionary (distinct keys) the loop amounts to a comprehension. *)
Lemma generate_recommendations_eq
    (emissions_by_category : list (string * Q)) (industry : string) :
  List.NoDup (List.map fst emissions_by_category) ->
  rec.generate_recommendations emissions_by_category industry
  = List.map
      (fun item =>
         (fst item,
          rec.get_category_recommendations (fst item) industry
            (Py.mem (fst item) (rec.top_categories emissions_by_category))))
      (List.filter recommended emissions_by_category).
Proof.
  unfold rec.generate_recommendations.
  generalize (rec.top_categories emissions_by_category) as top.
  intros top Hnd.
  change (List.map _ (List.filter recommended emissions_by_category))
    with ([] ++ List.map
            (fun item =>
               (fst item,
                rec.get_category_recommendations (fst item) industry
                  (Py.mem (fst item) top)))
            (List.filter recommended emissions_by_category))%list.
  assert (Hfresh : forall k, In k (List.map fst emissions_by_category) ->
                             ~ In k (List.map fst (@nil (string * list string))))
    by (intros k _ []).
  revert Hfresh. generalize (@nil (string * list string)) as acc.
  induction emissions_by_category as [| [c e] d IH]; intros acc Hfresh;
    cbn [List.fold_left List.filter List.map fst snd].
  - now rewrite app_nil_r.
  - inversion Hnd as [| ? ? Hc Hnd']; subst.
    assert (Hrest : forall acc' : list (string * list string),
              (forall k, In k (List.map fst acc') ->
                         In k (List.map fst acc) \/ k = c) ->
              forall k, In k (List.map fst d) ->
                        ~ In k (List.map fst acc')).
    { intros acc' Hacc' k Hk Hin.
      destruct (Hacc' k Hin) as [Hold | ->]; [| contradiction].
      apply (Hfresh k); [now right | exact Hold]. }
    unfold recommended at 1, positive at 1. cbn [fst snd].
    destruct (Py.Qlt_bool 0 e); cbn [andb].
    + destruct (rec.get_category_recommendations c industry (Py.mem c top))
        as [| r rs] eqn:Hrecs.
      * apply get_category_recommendations_nil in Hrecs. rewrite Hrecs.
        apply IH; [exact Hnd' | apply Hrest; auto].
      * assert (Hknown : Py.mem c categories = true).
        { destruct (Py.mem c categories) eqn:Hm; [reflexivity |].
          apply (get_category_recommendations_nil c industry (Py.mem c top))
            in Hm. congruence. }
        rewrite Hknown. cbn [List.map fst].
        rewrite dict_set_fresh by (apply Hfresh; now left).
        rewrite IH; [| exact Hnd' |].
        -- rewrite <- app_assoc. cbn [app]. now rewrite Hrecs.
        -- apply Hrest. intros k. rewrite List.map_app, in_app_iff.
           cbn [List.map fst In]. intros [Hin | [<- | []]]; auto.
    + apply IH; [exact Hnd' | apply Hrest; auto].
Qed.

Lemma NoDup_keys_functional {V : Type} (d : list (string * V)) (k : string)
    (v1 v2 : V) :
  List.NoDup (List.map fst d) -> In (k, v1) d -> In (k, v2) d -> v1 = v2.
Proof.
  induction d as [| [k' v'] d IH]; simpl; intros Hnd H1 H2; [easy |].
  inversion Hnd as [| ? ? Hk Hnd']; subst.
  destruct H1 as [H1 | H1], H2 as [H2 | H2].
  - congruence.
  - injection H1 as -> ->. exfalso. apply Hk.
    apply (in_map fst) in H2. exact H2.
  - injection H2 as -> ->. exfalso. apply Hk.
    apply (in_map fst) in H1. exact H1.
  - now apply IH.
Qed.

Lemma positive_iff (item : string * Q) : positive item = true <-> 0 < snd item.
Proof. apply Qlt_bool_iff. Qed.

(** X1 (recommendations.py): on a dictionary of emissions, the categories
    that get recommendations are those with positive emissions among the
    eight that the module knows, in the order of the dictionary; a category
    with zero or negative emissions, or with another name, is left out
    without notice. *)
Theorem recommendations_keys
    (emissions_by_category : list (string * Q)) (industry : string) :
  List.NoDup (List.map fst emissions_by_category) ->
  List.map fst (rec.generate_recommendations emissions_by_category industry)
  = List.map fst (List.filter recommended emissions_by_category)
  /\ (forall c,
        In c (List.map fst
                (rec.generate_recommendations emissions_by_category industry))
        <-> exists e,
              In (c, e) emissions_by_category /\ 0 < e /\ In c categories)
  /\ (forall c recs,
        In (c, recs)
          (rec.generate_recommendations emissions_by_category industry) ->
        recs <> []).
Proof.
  intros Hnd. rewrite (generate_recommendations_eq _ _ Hnd).
  split; [| split].
  - rewrite List.map_map. cbn [fst]. reflexivity.
  - intros c. rewrite List.map_map. cbn [fst]. rewrite in_map_iff. split.
    + intros ([c' e] & <- & Hin). apply filter_In in Hin as [Hin Hrec].
      apply andb_true_iff in Hrec as [Hpos Hknown].
      exists e. split; [exact Hin |].
      split; [exact (proj1 (positive_iff (c', e)) Hpos) |].
      apply List.existsb_exists in Hknown as (c'' & Hc'' & Heq).
      apply String.eqb_eq in Heq. cbn [fst] in Heq. now subst.
    + intros (e & Hin & Hpos & Hknown). exists (c, e). split; [reflexivity |].
      apply filter_In. split; [exact Hin |].
      apply andb_true_iff.
      split; [exact (proj2 (positive_iff (c, e)) Hpos) |].
      apply List.existsb_exists. exists c. split; [exact Hknown |].
      apply String.eqb_refl.
  - intros c recs Hin. apply in_map_iff in Hin as ([c' e] & Heq & Hin).
    cbn [fst] in Heq. injection Heq as -> <-.
    apply filter_In in Hin as [_ Hrec].
    apply andb_true_iff in Hrec as [_ Hknown]. cbn [fst] in Hknown.
    intros Hnil. apply get_category_recommendations_nil in Hnil. congruence.
Qed.

Lemma recommendations_keys_witness :
  List.NoDup
    (List.map fst
       [("Stationary Combustion", 2); ("Mobile Combustion", 0);
        ("Refrigerants", 5); ("Fugitive", 9)])
  /\ List.map fst
       (rec.generate_recommendations
          [("Stationary Combustion", 2); ("Mobile Combustion", 0);
           ("Refrigerants", 5); ("Fugitive", 9)] "Retail")
     = ["Stationary Combustion"; "Refrigerants"].
Proof.
  assert (Hnd : List.NoDup
                  (List.map fst
                     [("Stationary Combustion", 2); ("Mobile Combustion", 0);
                      ("Refrigerants", 5); ("Fugitive", 9)])).
  { cbn [List.map fst]. repeat constructor; cbn [In]; intros H;
      repeat (destruct H as [H | H]; [discriminate H |]); exact H. }
  split; [exact Hnd |].
  rewrite (proj1 (recommendations_keys _ "Retail" Hnd)). reflexivity.
Defined.

(** A small dictionary for the witnesses: one unknown category, one zero,
    two equal values. *)
Definition sample_categories : list (string * Q) :=
  [ ("Stationary Combustion", 2); ("Mobile Combustion", 0);
    ("Refrigerants", 5); ("Purchased Electricity", 2);
    ("Business Travel", 1); ("Fugitive", 9) ].

Lemma sample_categories_NoDup : List.NoDup (List.map fst sample_categories).
Proof.
  cbn [List.map fst sample_categories]. repeat constructor; cbn [In]; intros H;
    repeat (destruct H as [H | H]; [discriminate H |]); exact H.
Defined.

(** X2 (recommendations.py): a list of recommendations starts with a
    "PRIORITY: " line exactly when its category is one of the top categories
    and is not "Refrigerants", which has no priority line. *)
Theorem priority_line
    (emissions_by_category : list (string * Q)) (industry c : string)
    (recs : list string) :
  List.NoDup (List.map fst emissions_by_category) ->
  In (c, recs) (rec.generate_recommendations emissions_by_category industry) ->
  starts_with_priority recs = true
  <-> In c (rec.top_categories emissions_by_category) /\ c <> "Refrigerants".
Proof.
  intros Hnd Hin. rewrite (generate_recommendations_eq _ _ Hnd) in Hin.
  apply in_map_iff in Hin as ([c' e] & Heq & Hin).
  cbn [fst] in Heq. injection Heq as -> <-.
  apply filter_In in Hin as [_ Hrec].
  apply andb_true_iff in Hrec as [_ Hknown]. cbn [fst] in Hknown.
  set (top := rec.top_categories emissions_by_category).
  pose proof (known_category_recommendations industry (Py.mem c top)) as Hall.
  rewrite List.Forall_forall in Hall.
  assert (Hc : In c categories).
  { apply List.existsb_exists in Hknown as (c'' & Hc'' & Heq).
    apply String.eqb_eq in Heq. now subst. }
  destruct (Hall c Hc) as [_ ->].
  rewrite andb_true_iff, negb_true_iff, String.eqb_neq.
  unfold Py.mem. rewrite List.existsb_exists. split.
  - intros [(c'' & Hc'' & Heq) Hne]. apply String.eqb_eq in Heq. now subst.
  - intros [Htop Hne]. split; [| exact Hne].
    exists c. split; [exact Htop | apply String.eqb_refl].
Qed.

Lemma priority_line_witness :
  List.NoDup (List.map fst sample_categories)
  /\ In ("Stationary Combustion",
         rec.get_category_recommendations "Stationary Combustion" "Other" true)
       (rec.generate_recommendations sample_categories "Other")
  /\ starts_with_priority
       (rec.get_category_recommendations "Stationary Combustion" "Other" true)
     = true
  /\ In "Stationary Combustion" (rec.top_categories sample_categories).
Proof.
  assert (Hin : In ("Stationary Combustion",
                    rec.get_category_recommendations "Stationary Combustion"
                      "Other" true)
                  (rec.generate_recommendations sample_categories "Other"))
    by (left; reflexivity).
  split; [exact sample_categories_NoDup |]. split; [exact Hin |].
  split; [reflexivity |].
  apply (proj1 (priority_line sample_categories "Other"
                  "Stationary Combustion" _ sample_categories_NoDup Hin)
           eq_refl).
Defined.

(** ** carbon_offsets.py *)

Lemma lookup_In {V : Type} (d : list (string * V)) (k : string) (v : V) :
  List.NoDup (List.map fst d) -> In (k, v) d -> Py.lookup d k = Some v.
Proof.
  induction d as [| [k' v'] d IH]; simpl; intros Hnd Hin; [easy |].
  inversion Hnd as [| ? ? Hk Hnd']; subst.
  destruct Hin as [Heq | Hin].
  - injection Heq as -> ->. now rewrite String.eqb_refl.
  - destruct (String.eqb_spec k' k) as [-> | _]; [| now apply IH].
    exfalso. apply Hk. apply (in_map fst) in Hin. exact Hin.
Qed.

Lemma lookup_Some_In {V : Type} (d : list (string * V)) (k : string) (v : V) :
  Py.lookup d k = Some v -> In (k, v) d.
Proof.
  induction d as [| [k' v'] d IH]; simpl; [discriminate |].
  destruct (String.eqb_spec k' k) as [-> | _].
  - intros [= ->]. now left.
  - intros H. right. now apply IH.
Qed.

Lemma lookup_None {V : Type} (d : list (string * V)) (k : string) :
  Py.lookup d k = None <-> ~ In k (List.map fst d).
Proof.
  induction d as [| [k' v'] d IH]; simpl; [tauto |].
  destruct (String.eqb_spec k' k) as [-> | Hne].
  - split; [discriminate | intros H; exfalso; apply H; now left].
  - rewrite IH. split; [intros H [Heq | Hin]; [congruence | tauto] | tauto].
Qed.

Lemma CARBON_OFFSET_PROJECTS_NoDup :
  List.NoDup (List.map fst co.CARBON_OFFSET_PROJECTS).
Proof.
  cbn [List.map fst co.CARBON_OFFSET_PROJECTS].
  repeat constructor; cbn [In]; intros H;
    repeat (destruct H as [H | H]; [discriminate H |]); exact H.
Qed.

Lemma project_of_In (project_id : string) (p : co.Project) :
  In (project_id, p) co.CARBON_OFFSET_PROJECTS ->
  co.project_of project_id = Py.Returns p.
Proof.
  intros Hin. unfold co.project_of.
  now rewrite (lookup_In _ _ _ CARBON_OFFSET_PROJECTS_NoDup Hin).
Qed.

Lemma fold_left_Zadd (l : list Z) (a : Z) :
  List.fold_left Z.add l a = (a + List.fold_left Z.add l 0)%Z.
Proof.
  revert a. induction l as [| y l IH]; intros a; cbn [List.fold_left]; [lia |].
  rewrite (IH (a + y)%Z), (IH (0 + y)%Z). lia.
Qed.

Lemma sum_Z_cons (x : Z) (l : list Z) : co.sum_Z (x :: l) = (x + co.sum_Z l)%Z.
Proof.
  unfold co.sum_Z. cbn [List.fold_left]. rewrite fold_left_Zadd. lia.
Qed.

Lemma sum_Z_positive (l : list Z) :
  Forall (fun z => (0 < z)%Z) l -> l <> [] -> (0 < co.sum_Z l)%Z.
Proof.
  induction 1 as [| x l Hx Hl IH]; intros Hne; [contradiction |].
  rewrite sum_Z_cons. destruct l as [| y l].
  - unfold co.sum_Z. cbn [List.fold_left]. lia.
  - specialize (IH ltac:(discriminate)). lia.
Qed.

(** When the body returns on every element, the loop returns the list of
    the results. *)
Lemma for_each_returns {A B : Type} (f : A -> Py.outcome B) (g : A -> B)
    (l : list A) :
  (forall x, In x l -> f x = Py.Returns (g x)) ->
  co.for_each f l = Py.Returns (List.map g l).
Proof.
  induction l as [| x l IH]; intros Hf; cbn [co.for_each List.map];
    [reflexivity |].
  rewrite (Hf x) by now left. cbn [Py.and_then].
  rewrite IH by (intros y Hy; apply Hf; now right). reflexivity.
Qed.

Section Scoring.

Variables (industry largest_scope location : string).
Variable top_3 : list string.
Variable budget_per_tonne : option Q.

Let score_of : co.Project -> Z :=
  co.project_score industry largest_scope location top_3 budget_per_tonne.

Let recommended : list (string * Z) :=
  co.recommended_projects industry largest_scope location top_3
    budget_per_tonne.

Lemma category_bonus_bounds (p : co.Project) (l : list string) (s : Z) :
  (s <= List.fold_left
          (fun score category =>
             if Py.mem category (co.best_for_emissions p) then (score + 3)%Z
             else score) l s
   <= s + 3 * Z.of_nat (length l))%Z.
Proof.
  revert s. induction l as [| c l IH]; intros s; cbn [List.fold_left length].
  - lia.
  - destruct (Py.mem c (co.best_for_emissions p));
      [specialize (IH (s + 3)%Z) | specialize (IH s)]; lia.
Qed.

Lemma project_score_bounds (p : co.Project) :
  (0 <= score_of p <= 11 + 3 * Z.of_nat (length top_3))%Z.
Proof.
  unfold score_of, co.project_score.
  destruct (co.over_budget budget_per_tonne p); [lia |].
  cbv zeta.
  match goal with
  | |- context [List.fold_left ?f top_3 ?s] =>
      pose proof (category_bonus_bounds p top_3 s) as Hb
  end.
  repeat match goal with
         | |- context [if ?b then _ else _] => destruct b
         | H : context [if ?b then _ else _] |- _ => destruct b
         end; lia.
Qed.

Lemma project_score_over_budget (p : co.Project) :
  co.over_budget budget_per_tonne p = true -> score_of p = 0%Z.
Proof.
  intros H. unfold score_of, co.project_score. now rewrite H.
Qed.

(** What [recommended_projects] holds: projects of the table with their
    scores, the positive ones only, by descending score. *)
Lemma recommended_projects_In (project_id : string) (s : Z) :
  In (project_id, s) recommended
  <-> exists p,
        In (project_id, p) co.CARBON_OFFSET_PROJECTS
        /\ s = score_of p /\ (0 < s)%Z.
Proof.
  unfold recommended, co.recommended_projects.
  split.
  - intros Hin.
    apply (Permutation_in _ (sorted_desc_perm Z.ltb snd _)) in Hin.
    apply filter_In in Hin as [Hin Hpos]. cbn [snd] in Hpos.
    apply in_map_iff in Hin as ([pid p] & Heq & Hin).
    cbn [fst snd] in Heq. injection Heq as -> <-.
    exists p. split; [exact Hin |]. split; [reflexivity |].
    now apply Z.ltb_lt.
  - intros (p & Hin & -> & Hpos).
    apply (Permutation_in _ (Permutation_sym (sorted_desc_perm Z.ltb snd _))).
    apply filter_In. split; [| now apply Z.ltb_lt].
    apply in_map_iff. exists (project_id, p). split; [reflexivity | exact Hin].
Qed.

Lemma recommended_projects_sorted :
  StronglySorted (not_below Z.ltb snd) recommended.
Proof.
  apply sorted_desc_sorted; [apply Zltb_asym | apply not_Zltb_trans].
Qed.

End Scoring.

Lemma insert_desc_map {A B K : Type} (ltb : K -> K -> bool) (key : B -> K)
    (h : A -> B) (x : A) (l : list A) :
  Py.insert_desc ltb key (h x) (List.map h l)
  = List.map h (Py.insert_desc ltb (fun a => key (h a)) x l).
Proof.
  induction l as [| y l IH]; cbn [Py.insert_desc List.map]; [reflexivity |].
  destruct (ltb (key (h x)) (key (h y))); cbn [List.map]; [| reflexivity].
  now rewrite IH.
Qed.

(** Sorting sees the elements through their keys only. *)
Lemma sorted_desc_map {A B K : Type} (ltb : K -> K -> bool) (key : B -> K)
    (h : A -> B) (l : list A) :
  Py.sorted_desc ltb key (List.map h l)
  = List.map h (Py.sorted_desc ltb (fun a => key (h a)) l).
Proof.
  induction l as [| x l IH]; cbn [Py.sorted_desc List.fold_right List.map];
    [reflexivity |].
  fold (Py.sorted_desc ltb key (List.map h l)).
  fold (Py.sorted_desc ltb (fun a => key (h a)) l).
  rewrite IH. apply insert_desc_map.
Qed.

Lemma filter_map_comm {A B : Type} (f : B -> bool) (h : A -> B) (l : list A) :
  List.filter f (List.map h l)
  = List.map h (List.filter (fun a => f (h a)) l).
Proof.
  induction l as [| x l IH]; cbn [List.filter List.map]; [reflexivity |].
  destruct (f (h x)); cbn [List.map]; now rewrite IH.
Qed.

Lemma for_each_map_returns {A A' B : Type} (f : A' -> Py.outcome B)
    (h : A -> A') (g : A -> B) (l : list A) :
  (forall x, In x l -> f (h x) = Py.Returns (g x)) ->
  co.for_each f (List.map h l) = Py.Returns (List.map g l).
Proof.
  induction l as [| x l IH]; intros Hf; cbn [co.for_each List.map];
    [reflexivity |].
  rewrite (Hf x) by now left. cbn [Py.and_then].
  rewrite IH by (intros y Hy; apply Hf; now right). reflexivity.
Qed.

(** The recommended projects with their dictionaries: the entries of the
    table that score above 0, by descending score. *)
Definition ranked_projects
    (industry largest_scope location : string) (top_3 : list string)
    (budget_per_tonne : option Q) : list ((string * co.Project) * Z) :=
  Py.sorted_desc Z.ltb snd
    (List.filter (fun x => (0 <? snd x)%Z)
       (List.map
          (fun item =>
             (item,
              co.project_score industry largest_scope location top_3
                budget_per_tonne (snd item)))
          co.CARBON_OFFSET_PROJECTS)).

Lemma recommended_ranked
    (industry largest_scope location : string) (top_3 : list string)
    (budget_per_tonne : option Q) :
  co.recommended_projects industry largest_scope location top_3
    budget_per_tonne
  = List.map (fun x => (fst (fst x), snd x))
      (ranked_projects industry largest_scope location top_3 budget_per_tonne).
Proof.
  unfold co.recommended_projects, ranked_projects.
  set (h := fun x : (string * co.Project) * Z => (fst (fst x), snd x)).
  set (g := fun item : string * co.Project =>
              (item,
               co.project_score industry largest_scope location top_3
                 budget_per_tonne (snd item))).
  change (List.map _ co.CARBON_OFFSET_PROJECTS)
    with (List.map (fun item => h (g item)) co.CARBON_OFFSET_PROJECTS) at 1.
  rewrite <- (List.map_map g h), filter_map_comm, sorted_desc_map.
  reflexivity.
Qed.

Lemma ranked_projects_In
    (industry largest_scope location : string) (top_3 : list string)
    (budget_per_tonne : option Q) (x : (string * co.Project) * Z) :
  In x (ranked_projects industry largest_scope location top_3
          budget_per_tonne)
  <-> In (fst x) co.CARBON_OFFSET_PROJECTS
      /\ snd x
         = co.project_score industry largest_scope location top_3
             budget_per_tonne (snd (fst x))
      /\ (0 < snd x)%Z.
Proof.
  unfold ranked_projects. split.
  - intros Hin.
    apply (Permutation_in _ (sorted_desc_perm Z.ltb snd _)) in Hin.
    apply filter_In in Hin as [Hin Hpos].
    apply in_map_iff in Hin as (item & <- & Hin). cbn [fst snd] in *.
    split; [exact Hin |]. split; [reflexivity | now apply Z.ltb_lt].
  - intros (Hin & Hs & Hpos).
    apply (Permutation_in _ (Permutation_sym (sorted_desc_perm Z.ltb snd _))).
    apply filter_In. split; [| now apply Z.ltb_lt].
    apply in_map_iff. exists (fst x). split; [| exact Hin].
    destruct x as [item s]. cbn [fst snd] in *. now subst.
Qed.

Lemma ranked_projects_sorted
    (industry largest_scope location : string) (top_3 : list string)
    (budget_per_tonne : option Q) :
  StronglySorted (not_below Z.ltb snd)
    (ranked_projects industry largest_scope location top_3 budget_per_tonne).
Proof.
  apply sorted_desc_sorted; [apply Zltb_asym | apply not_Zltb_trans].
Qed.

Lemma inject_Z_nonzero (z : Z) : (0 < z)%Z -> Qeq_bool (inject_Z z) 0 = false.
Proof.
  intros Hz. destruct (Qeq_bool (inject_Z z) 0) eqn:H; [| reflexivity].
  apply Qeq_bool_iff in H. unfold Qeq, inject_Z in H. simpl in H. lia.
Qed.

Section ScoredPath.

Variable round : Q -> Z -> Q.
Variables (emissions_by_scope emissions_by_category : list (string * Q)).
Variables (industry location : string).
Variable budget_per_tonne : option Q.
Variable offset_percentage : Q.

Let total : Q := app.sum (app.values emissions_by_scope).
Let to_offset : Q := total * (offset_percentage / 100).

(** The portfolio that the scored path builds from the ranked projects. *)
Definition scored_portfolio (ranked : list ((string * co.Project) * Z))
    (emissions_to_offset : Q) : list co.PortfolioProject :=
  let total_score := co.sum_Z (List.map snd (List.firstn 4 ranked)) in
  List.map
    (fun x =>
       co.portfolio_project round (fst (fst x)) (snd (fst x))
         (co.ScoreOf (snd x))
         (inject_Z (snd x) / inject_Z total_score * 100)
         emissions_to_offset)
    (List.firstn 4 ranked).

Lemma firstn_ranked_total_positive (ranked : list ((string * co.Project) * Z)) :
  (forall x, In x ranked -> (0 < snd x)%Z) ->
  ranked <> [] ->
  (0 < co.sum_Z (List.map snd (List.firstn 4 ranked)))%Z.
Proof.
  intros Hpos Hne. apply sum_Z_positive.
  - rewrite List.Forall_forall. intros z Hz.
    apply in_map_iff in Hz as (x & <- & Hx). apply Hpos.
    eapply In_firstn; eassumption.
  - destruct ranked as [| x ranked]; [contradiction | discriminate].
Qed.

Lemma get_offset_recommendations_empty :
  co.get_offset_recommendations round [] emissions_by_category industry
    budget_per_tonne location offset_percentage
  = Py.Raises Py.ValueError.
Proof. reflexivity. Qed.

Lemma get_offset_recommendations_eq (largest : string * Q) :
  Py.max_by Py.Qlt_bool snd emissions_by_scope = Py.Returns largest ->
  let ranked :=
    ranked_projects industry (fst largest) location
      (co.top_3_categories emissions_by_category) budget_per_tonne in
  co.get_offset_recommendations round emissions_by_scope emissions_by_category
    industry budget_per_tonne location offset_percentage
  = match ranked with
    | [] => co.get_general_recommendations round to_offset budget_per_tonne
    | _ :: _ =>
        Py.Returns
          {| co.total_emissions := total;
             co.emissions_to_offset := to_offset;
             co.portfolio_approach := scored_portfolio ranked to_offset;
             co.verification_standards_info := co.VERIFICATION_STANDARDS;
             co.note := None |}
    end.
Proof.
  intros Hmax ranked. unfold co.get_offset_recommendations.
  rewrite Hmax. cbn [Py.and_then]. rewrite recommended_ranked. fold ranked.
  fold total. fold to_offset.
  assert (Hin : forall x, In x ranked ->
                          In (fst x) co.CARBON_OFFSET_PROJECTS
                          /\ (0 < snd x)%Z).
  { intros x Hx. apply ranked_projects_In in Hx. tauto. }
  clearbody ranked.
  set (h := fun x : (string * co.Project) * Z => (fst (fst x), snd x)).
  destruct ranked as [| x0 rest]; [reflexivity |].
  set (rk := x0 :: rest) in *.
  assert (HT : (0 < co.sum_Z (List.map snd (List.firstn 4 rk)))%Z).
  { apply firstn_ranked_total_positive; [| discriminate].
    intros x Hx. now apply Hin. }
  change (List.map h rk) with (h x0 :: List.map h rest) at 1.
  cbv iota.
  rewrite (List.firstn_map h 4 rk), List.map_map.
  change (fun x : (string * co.Project) * Z => snd (h x))
    with (@snd (string * co.Project) Z).
  rewrite (for_each_map_returns _ h
             (fun x =>
                co.portfolio_project round (fst (fst x)) (snd (fst x))
                  (co.ScoreOf (snd x))
                  (inject_Z (snd x)
                   / inject_Z (co.sum_Z (List.map snd (List.firstn 4 rk)))
                   * 100)
                  to_offset)).
  - reflexivity.
  - intros [[pid p] s] Hx. unfold h. cbn [fst snd].
    apply In_firstn in Hx. apply Hin in Hx as [Hx _].
    cbn [fst] in Hx. rewrite (project_of_In _ _ Hx). cbn [Py.and_then].
    apply Z.ltb_lt in HT as HT'. rewrite HT'.
    unfold Py.truediv. rewrite (inject_Z_nonzero _ HT). reflexivity.
Qed.

End ScoredPath.

(** The four projects of the general recommendations, with their
    dictionaries. *)
Definition diverse_items : list (string * co.Project) :=
  List.filter
    (fun item =>
       Py.mem (fst item)
         ["wind_energy"; "reforestation"; "landfill_methane"; "cookstoves"])
    co.CARBON_OFFSET_PROJECTS.

(** The lowest price of the project is within the budget. *)
Definition affordable (b : Q) (item : string * co.Project) : bool :=
  Qle_bool (inject_Z (fst (co.price_range (snd item)))) b.

(** The projects that the general recommendations offer. *)
Definition general_choice (budget_per_tonne : option Q)
    : list (string * co.Project) :=
  if co.has_budget budget_per_tonne then
    match budget_per_tonne with
    | Some b =>
        match List.filter (affordable b) diverse_items with
        | [] => List.firstn 1 diverse_items
        | item :: items => item :: items
        end
    | None => diverse_items
    end
  else diverse_items.

(** The portfolio that the general path builds from its choice. *)
Definition general_portfolio (round : Q -> Z -> Q)
    (chosen : list (string * co.Project)) (emissions_to_offset : Q)
    : list co.PortfolioProject :=
  List.map
    (fun item =>
       co.portfolio_project round (fst item) (snd item) co.NA
         (100 / inject_Z (Z.of_nat (length chosen))) emissions_to_offset)
    chosen.

Lemma diverse_items_facts :
  List.map fst diverse_items
  = ["wind_energy"; "reforestation"; "landfill_methane"; "cookstoves"]
  /\ List.map (fun item => fst (co.price_range (snd item))) diverse_items
     = [8; 12; 5; 8]%Z
  /\ incl diverse_items co.CARBON_OFFSET_PROJECTS.
Proof.
  split; [reflexivity |]. split; [reflexivity |].
  intros item Hin. unfold diverse_items in Hin.
  now apply filter_In in Hin.
Qed.

Lemma general_choice_facts (budget_per_tonne : option Q) :
  general_choice budget_per_tonne <> []
  /\ (length (general_choice budget_per_tonne) <= 4)%nat
  /\ incl (general_choice budget_per_tonne) diverse_items.
Proof.
  unfold general_choice.
  destruct (co.has_budget budget_per_tonne), budget_per_tonne as [b |];
    try (split; [discriminate | split; [reflexivity | apply incl_refl]]).
  destruct (List.filter (affordable b) diverse_items) as [| item items] eqn:Hf.
  - split; [discriminate |]. split; [cbn; lia |].
    intros x Hx. eapply In_firstn; eassumption.
  - split; [discriminate |]. rewrite <- Hf. split.
    + transitivity (length diverse_items); [| reflexivity].
      apply List.filter_length_le.
    + intros x Hx. now apply filter_In in Hx.
Qed.

Lemma get_general_recommendations_eq (round : Q -> Z -> Q)
    (emissions_to_offset : Q) (budget_per_tonne : option Q) :
  co.get_general_recommendations round emissions_to_offset budget_per_tonne
  = Py.Returns
      {| co.total_emissions := emissions_to_offset;
         co.emissions_to_offset := emissions_to_offset;
         co.portfolio_approach :=
           general_portfolio round (general_choice budget_per_tonne)
             emissions_to_offset;
         co.verification_standards_info := co.VERIFICATION_STANDARDS;
         co.note :=
           Some
             "These are general recommendations since no specific matching projects were found." |}.
Proof.
  unfold co.get_general_recommendations, general_choice, co.has_budget.
  destruct budget_per_tonne as [b |]; [| reflexivity].
  destruct (Qeq_bool b 0); cbn [negb]; [reflexivity |].
  cbv -[Qle_bool Qmult Qdiv].
  repeat match goal with
         | |- context [Qle_bool ?a b] => destruct (Qle_bool a b)
         end; reflexivity.
Qed.

Lemma max_by_cons {A K : Type} (ltb : K -> K -> bool) (key : A -> K)
    (x : A) (l : list A) :
  exists largest, Py.max_by ltb key (x :: l) = Py.Returns largest.
Proof. eexists; reflexivity. Qed.

(** Scopes and categories for the witnesses. *)
Definition sample_scopes : list (string * Q) :=
  [("Scope 1", 10); ("Scope 2", 30); ("Scope 3", 5)].

(** A rounding function for the witnesses: no rounding at all. *)
Definition no_rounding (x : Q) (ndigits : Z) : Q := x.

(** X4 (carbon_offsets.py): with an empty dictionary of scopes
    [get_offset_recommendations] raises [ValueError] (from [max]); with any
    other it returns: no look-up of a project fails and no division is by
    zero. *)
Theorem offset_recommendations_raises
    (round : Q -> Z -> Q)
    (emissions_by_scope emissions_by_category : list (string * Q))
    (industry : string) (budget_per_tonne : option Q) (location : string)
    (offset_percentage : Q) :
  match emissions_by_scope with
  | [] =>
      co.get_offset_recommendations round emissions_by_scope
        emissions_by_category industry budget_per_tonne location
        offset_percentage
      = Py.Raises Py.ValueError
  | _ :: _ =>
      exists r,
        co.get_offset_recommendations round emissions_by_scope
          emissions_by_category industry budget_per_tonne location
          offset_percentage
        = Py.Returns r
  end.
Proof.
  destruct emissions_by_scope as [| scope scopes]; [reflexivity |].
  destruct (max_by_cons Py.Qlt_bool snd scope scopes) as [largest Hmax].
  rewrite (get_offset_recommendations_eq round _ _ _ _ _ _ largest Hmax).
  cbv zeta.
  destruct (ranked_projects _ _ _ _ _).
  - rewrite get_general_recommendations_eq. eexists; reflexivity.
  - eexists; reflexivity.
Qed.

(** A project with a positive score is not over the budget. *)
Lemma scored_within_budget
    (industry largest_scope location : string) (top_3 : list string)
    (b : Q) (p : co.Project) :
  ~ b == 0 ->
  (0 < co.project_score industry largest_scope location top_3 (Some b) p)%Z ->
  inject_Z (fst (co.price_range p)) <= b.
Proof.
  intros Hb Hpos.
  destruct (co.over_budget (Some b) p) eqn:Hover.
  - rewrite (project_score_over_budget _ _ _ _ _ _ Hover) in Hpos. lia.
  - unfold co.over_budget in Hover.
    apply andb_false_iff in Hover as [Hzero | Hlt].
    + apply negb_false_iff, Qeq_bool_iff in Hzero. contradiction.
    + now apply Qlt_bool_false_iff in Hlt.
Qed.

(** X5 (carbon_offsets.py): with a budget other than 0, every project of a
    portfolio that is not the general one has a lowest price within the
    budget. *)
Theorem budget_respected
    (round : Q -> Z -> Q)
    (emissions_by_scope emissions_by_category : list (string * Q))
    (industry : string) (b : Q) (location : string) (offset_percentage : Q)
    (r : co.Recommendations) :
  ~ b == 0 ->
  co.get_offset_recommendations round emissions_by_scope emissions_by_category
    industry (Some b) location offset_percentage
  = Py.Returns r ->
  co.note r = None ->
  Forall
    (fun pp => inject_Z (fst (co.price_range (co.project pp))) <= b)
    (co.portfolio_approach r).
Proof.
  intros Hb Hr Hnote.
  destruct emissions_by_scope as [| scope scopes]; [discriminate Hr |].
  destruct (max_by_cons Py.Qlt_bool snd scope scopes) as [largest Hmax].
  rewrite (get_offset_recommendations_eq round _ _ _ _ _ _ largest Hmax) in Hr.
  cbv zeta in Hr.
  destruct (ranked_projects _ _ _ _ _) as [| x0 rest] eqn:Hranked.
  - rewrite get_general_recommendations_eq in Hr. injection Hr as <-.
    discriminate Hnote.
  - injection Hr as <-. cbn [co.portfolio_approach].
    unfold scored_portfolio. rewrite List.Forall_forall. intros pp Hpp.
    apply in_map_iff in Hpp as (x & <- & Hx).
    cbn [co.project co.portfolio_project].
    apply In_firstn in Hx. rewrite <- Hranked in Hx.
    apply ranked_projects_In in Hx as (_ & Hs & Hpos). rewrite Hs in Hpos.
    eapply scored_within_budget; eassumption.
Qed.

Lemma budget_respected_witness :
  ~ 9 == 0
  /\ exists r,
      co.get_offset_recommendations no_rounding sample_scopes
        sample_categories "Technology" (Some 9) "Global" 50
      = Py.Returns r
      /\ co.note r = None
      /\ List.map co.id (co.portfolio_approach r) = ["wind_energy"]
      /\ Forall
           (fun pp => inject_Z (fst (co.price_range (co.project pp))) <= 9)
           (co.portfolio_approach r).
Proof.
  assert (Hb : ~ 9 == 0) by discriminate.
  split; [exact Hb |]. eexists.
  split; [vm_compute; reflexivity |].
  split; [reflexivity |]. split; [reflexivity |].
  apply (budget_respected no_rounding sample_scopes sample_categories
           "Technology" 9 "Global" 50 _ Hb); reflexivity.
Defined.

Lemma ranked_projects_nil
    (industry largest_scope location : string) (top_3 : list string)
    (budget_per_tonne : option Q) :
  Forall (fun item => co.over_budget budget_per_tonne (snd item) = true)
    co.CARBON_OFFSET_PROJECTS ->
  ranked_projects industry largest_scope location top_3 budget_per_tonne = [].
Proof.
  intros Hover.
  destruct (ranked_projects _ _ _ _ _) as [| x rest] eqn:Hranked;
    [reflexivity |].
  assert (Hx : In x (ranked_projects industry largest_scope location top_3
                       budget_per_tonne)) by (rewrite Hranked; now left).
  apply ranked_projects_In in Hx as (Hin & Hs & Hpos).
  rewrite List.Forall_forall in Hover.
  rewrite (project_score_over_budget _ _ _ _ _ _ (Hover _ Hin)) in Hs. lia.
Qed.

(** Below 5 USD per tonne every project of the table is over the budget. *)
Lemma all_over_budget (b : Q) :
  ~ b == 0 -> b < 5 ->
  Forall (fun item => co.over_budget (Some b) (snd item) = true)
    co.CARBON_OFFSET_PROJECTS.
Proof.
  intros Hb Hlt.
  assert (Hnz : negb (Qeq_bool b 0) = true).
  { apply negb_true_iff. destruct (Qeq_bool b 0) eqn:H; [| reflexivity].
    apply Qeq_bool_iff in H. contradiction. }
  unfold co.CARBON_OFFSET_PROJECTS.
  repeat (apply List.Forall_cons;
          [ unfold co.over_budget; cbn [snd fst co.price_range];
            rewrite Hnz; cbn [andb]; apply Qlt_bool_iff;
            (apply (Qlt_le_trans _ 5); [exact Hlt | discriminate]) |]).
  apply List.Forall_nil.
Qed.

(** X6 (carbon_offsets.py): with a budget other than 0 and below 5 USD per
    tonne, no project fits; the function still returns a portfolio, the
    general one, which holds wind energy alone, whose lowest price is above
    the budget. *)
Theorem budget_below_cheapest
    (round : Q -> Z -> Q)
    (scope : string * Q) (scopes emissions_by_category : list (string * Q))
    (industry : string) (b : Q) (location : string) (offset_percentage : Q) :
  ~ b == 0 -> b < 5 ->
  exists r,
    co.get_offset_recommendations round (scope :: scopes)
      emissions_by_category industry (Some b) location offset_percentage
    = Py.Returns r
    /\ co.note r <> None
    /\ List.map co.id (co.portfolio_approach r) = ["wind_energy"]
    /\ Forall
         (fun pp => b < inject_Z (fst (co.price_range (co.project pp))))
         (co.portfolio_approach r).
Proof.
  intros Hb Hlt.
  destruct (max_by_cons Py.Qlt_bool snd scope scopes) as [largest Hmax].
  rewrite (get_offset_recommendations_eq round _ _ _ _ _ _ largest Hmax).
  cbv zeta.
  rewrite (ranked_projects_nil _ _ _ _ _ (all_over_budget b Hb Hlt)).
  rewrite get_general_recommendations_eq.
  assert (Hchoice : general_choice (Some b) = List.firstn 1 diverse_items).
  { unfold general_choice, co.has_budget.
    destruct (Qeq_bool b 0) eqn:Hz;
      [apply Qeq_bool_iff in Hz; contradiction |].
    cbn [negb].
    assert (Hnone : List.filter (affordable b) diverse_items = []).
    { assert (Hany : forall z, (5 <= z)%Z ->
                               Qle_bool (inject_Z z) b = false).
      { intros z Hz'. destruct (Qle_bool (inject_Z z) b) eqn:Hle;
          [| reflexivity].
        apply Qle_bool_iff in Hle. exfalso.
        apply (Qlt_not_le _ _ Hlt). apply (Qle_trans _ (inject_Z z));
          [| exact Hle].
        change 5 with (inject_Z 5). now rewrite <- Zle_Qle. }
      unfold diverse_items, affordable.
      cbn [co.CARBON_OFFSET_PROJECTS List.filter Py.mem List.existsb fst snd
           co.price_range String.eqb Ascii.eqb Bool.eqb orb andb].
      now rewrite !Hany by lia. }
    now rewrite Hnone. }
  rewrite Hchoice. eexists. split; [reflexivity |].
  split; [discriminate |]. split; [reflexivity |].
  repeat constructor. cbn.
  apply (Qlt_le_trans _ 5); [exact Hlt | discriminate].
Qed.

Lemma budget_below_cheapest_witness :
  ~ 3 == 0 /\ 3 < 5
  /\ exists r,
      co.get_offset_recommendations no_rounding sample_scopes
        sample_categories "Technology" (Some 3) "Global" 50
      = Py.Returns r
      /\ List.map co.id (co.portfolio_approach r) = ["wind_energy"].
Proof.
  assert (Hb : ~ 3 == 0) by discriminate.
  assert (Hlt : 3 < 5) by reflexivity.
  split; [exact Hb |]. split; [exact Hlt |].
  destruct (budget_below_cheapest no_rounding ("Scope 1", 10)
              [("Scope 2", 30); ("Scope 3", 5)] sample_categories
              "Technology" 3 "Global" 50 Hb Hlt) as (r & Hr & _ & Hids & _).
  exists r. split; [exact Hr | exact Hids].
Defined.

Lemma direct_air_capture_all_scopes :
  exists p,
    In ("direct_air_capture", p) co.CARBON_OFFSET_PROJECTS
    /\ Py.mem "All scopes" (co.best_for_emissions p) = true.
Proof.
  eexists. split; [do 9 right; left; reflexivity | reflexivity].
Qed.

Lemma over_budget_no_budget (budget_per_tonne : option Q) (p : co.Project) :
  co.has_budget budget_per_tonne = false ->
  co.over_budget budget_per_tonne p = false.
Proof.
  unfold co.has_budget, co.over_budget.
  destruct budget_per_tonne as [b |]; [| reflexivity].
  now intros ->.
Qed.

(** X7 (carbon_offsets.py): without a budget ([None] or 0) the general
    recommendations are never used: direct air capture suits all scopes, so
    some project always scores, and the result has a portfolio and no
    note. *)
Theorem no_budget_scored
    (round : Q -> Z -> Q)
    (scope : string * Q) (scopes emissions_by_category : list (string * Q))
    (industry : string) (budget_per_tonne : option Q) (location : string)
    (offset_percentage : Q) :
  co.has_budget budget_per_tonne = false ->
  exists r,
    co.get_offset_recommendations round (scope :: scopes)
      emissions_by_category industry budget_per_tonne location
      offset_percentage
    = Py.Returns r
    /\ co.note r = None
    /\ co.portfolio_approach r <> []
    /\ co.total_emissions r = app.sum (app.values (scope :: scopes)).
Proof.
  intros Hbudget.
  destruct (max_by_cons Py.Qlt_bool snd scope scopes) as [largest Hmax].
  rewrite (get_offset_recommendations_eq round _ _ _ _ _ _ largest Hmax).
  cbv zeta.
  destruct direct_air_capture_all_scopes as (dac & Hdac & Hall).
  set (top := co.top_3_categories emissions_by_category).
  assert (Hscore : (0 < co.project_score industry (fst largest) location top
                         budget_per_tonne dac)%Z).
  { unfold co.project_score.
    rewrite (over_budget_no_budget _ _ Hbudget), Hall, orb_true_r. cbv zeta.
    match goal with
    | |- context [List.fold_left ?f top ?s] =>
        pose proof (category_bonus_bounds dac top s) as Hb
    end.
    repeat match goal with
           | |- context [if ?b then _ else _] => destruct b
           | H : context [if ?b then _ else _] |- _ => destruct b
           end; lia. }
  assert (Hin : In (("direct_air_capture", dac),
                    co.project_score industry (fst largest) location top
                      budget_per_tonne dac)
                  (ranked_projects industry (fst largest) location top
                     budget_per_tonne)).
  { apply ranked_projects_In. cbn [fst snd]. auto. }
  destruct (ranked_projects _ _ _ _ _) as [| x0 rest]; [contradiction |].
  eexists. split; [reflexivity |]. split; [reflexivity |].
  split; [discriminate | reflexivity].
Qed.

Lemma no_budget_scored_witness :
  co.has_budget (Some 0) = false
  /\ exists r,
      co.get_offset_recommendations no_rounding sample_scopes
        sample_categories "Other" (Some 0) "Global" 100
      = Py.Returns r
      /\ co.note r = None.
Proof.
  assert (Hb : co.has_budget (Some 0) = false) by reflexivity.
  split; [exact Hb |].
  destruct (no_budget_scored no_rounding ("Scope 1", 10)
              [("Scope 2", 30); ("Scope 3", 5)] sample_categories "Other"
              (Some 0) "Global" 100 Hb) as (r & Hr & Hnote & _).
  exists r. split; [exact Hr | exact Hnote].
Defined.

Lemma firstn_sorted {A : Type} (R : A -> A -> Prop) (n : nat) (l : list A) :
  StronglySorted R l -> StronglySorted R (List.firstn n l).
Proof.
  intros Hs. revert n.
  induction Hs as [| x l Hl IH Hx]; intros [| n]; cbn [List.firstn];
    try constructor.
  - apply IH.
  - rewrite List.Forall_forall in *. intros y Hy. apply Hx.
    eapply In_firstn; eassumption.
Qed.

Lemma map_sorted {A B : Type} (R : A -> A -> Prop) (R' : B -> B -> Prop)
    (h : A -> B) (l : list A) :
  (forall x y, R x y -> R' (h x) (h y)) ->
  StronglySorted R l -> StronglySorted R' (List.map h l).
Proof.
  intros HR. induction 1 as [| x l Hl IH Hx]; cbn [List.map]; constructor.
  - exact IH.
  - rewrite List.Forall_forall in *. intros y Hy.
    apply in_map_iff in Hy as (z & <- & Hz). apply HR. now apply Hx.
Qed.

(** The number under ["score"]; 0 stands for ["N/A"]. *)
Definition score_value (s : co.Score) : Z :=
  match s with
  | co.ScoreOf z => z
  | co.NA => 0
  end.

Lemma top_3_categories_length (d : list (string * Q)) :
  (length (co.top_3_categories d) <= 3)%nat.
Proof.
  unfold co.top_3_categories. rewrite List.length_map.
  etransitivity; [apply List.filter_length_le |].
  apply List.firstn_le_length.
Qed.

(** X8 (carbon_offsets.py): a portfolio that is not the general one holds
    at most four projects of the table, each with its score, between 1 and
    20, in descending order of score; no project outside the portfolio
    scores more than one inside. *)
Theorem portfolio_ranked
    (round : Q -> Z -> Q)
    (emissions_by_scope emissions_by_category : list (string * Q))
    (industry : string) (budget_per_tonne : option Q) (location : string)
    (offset_percentage : Q) (r : co.Recommendations) :
  co.get_offset_recommendations round emissions_by_scope emissions_by_category
    industry budget_per_tonne location offset_percentage
  = Py.Returns r ->
  co.note r = None ->
  exists largest,
    Py.max_by Py.Qlt_bool snd emissions_by_scope = Py.Returns largest
    /\ let score_of :=
         co.project_score industry (fst largest) location
           (co.top_3_categories emissions_by_category) budget_per_tonne in
       (1 <= length (co.portfolio_approach r) <= 4)%nat
       /\ Forall
            (fun pp =>
               In (co.id pp, co.project pp) co.CARBON_OFFSET_PROJECTS
               /\ co.score pp = co.ScoreOf (score_of (co.project pp))
               /\ (1 <= score_of (co.project pp) <= 20)%Z)
            (co.portfolio_approach r)
       /\ StronglySorted
            (fun a b =>
               (score_value (co.score b) <= score_value (co.score a))%Z)
            (co.portfolio_approach r)
       /\ (forall project_id p pp,
             In (project_id, p) co.CARBON_OFFSET_PROJECTS ->
             ~ In project_id (List.map co.id (co.portfolio_approach r)) ->
             In pp (co.portfolio_approach r) ->
             (score_of p <= score_value (co.score pp))%Z).
Proof.
  intros Hr Hnote.
  destruct emissions_by_scope as [| scope scopes]; [discriminate Hr |].
  destruct (max_by_cons Py.Qlt_bool snd scope scopes) as [largest Hmax].
  exists largest. split; [exact Hmax |]. intros score_of.
  rewrite (get_offset_recommendations_eq round _ _ _ _ _ _ largest Hmax) in Hr.
  cbv zeta in Hr.
  pose proof (ranked_projects_In industry (fst largest) location
                (co.top_3_categories emissions_by_category) budget_per_tonne)
    as HIn.
  pose proof (ranked_projects_sorted industry (fst largest) location
                (co.top_3_categories emissions_by_category) budget_per_tonne)
    as Hsorted.
  fold score_of in HIn.
  destruct (ranked_projects _ _ _ _ _) as [| x0 rest] eqn:Hranked.
  { rewrite get_general_recommendations_eq in Hr. injection Hr as <-.
    discriminate Hnote. }
  injection Hr as <-. cbn [co.portfolio_approach]. unfold scored_portfolio.
  set (ranked := x0 :: rest) in *.
  set (T := co.sum_Z (List.map snd (List.firstn 4 ranked))).
  split; [| split; [| split]].
  - rewrite List.length_map. split; [cbn; lia | apply List.firstn_le_length].
  - rewrite List.Forall_forall. intros pp Hpp.
    apply in_map_iff in Hpp as ([[pid p] s] & <- & Hx).
    cbn [co.id co.project co.score co.portfolio_project fst snd].
    apply In_firstn in Hx. apply HIn in Hx as (Hin & Hs & Hpos).
    cbn [fst snd] in Hin, Hs, Hpos. subst s.
    split; [exact Hin |]. split; [reflexivity |].
    pose proof (project_score_bounds industry (fst largest) location
                  (co.top_3_categories emissions_by_category)
                  budget_per_tonne p) as Hb.
    pose proof (top_3_categories_length emissions_by_category).
    fold score_of in Hb. lia.
  - apply (map_sorted (not_below Z.ltb snd)); [| now apply firstn_sorted].
    intros x y Hxy. cbn [co.score co.portfolio_project score_value].
    now apply Z.ltb_ge.
  - intros pid p pp Hin Hout Hpp.
    apply in_map_iff in Hpp as (x & <- & Hx).
    cbn [co.score co.portfolio_project score_value].
    pose proof (proj1 (HIn x) (In_firstn _ _ _ Hx)) as (_ & _ & Hposx).
    destruct (Z_lt_le_dec 0 (score_of p)) as [Hpos | Hneg]; [| lia].
    assert (Hp : In ((pid, p), score_of p) ranked).
    { apply HIn. cbn [fst snd]. auto. }
    rewrite <- (List.firstn_skipn 4 ranked) in Hp, Hsorted.
    apply in_app_or in Hp as [Hfirst | Hrest].
    + exfalso. apply Hout. rewrite List.map_map.
      apply in_map_iff. exists ((pid, p), score_of p).
      split; [reflexivity | exact Hfirst].
    + pose proof (sorted_app_inv _ _ _ _ Hsorted _ _ Hx Hrest) as Hge.
      unfold not_below in Hge. cbn [snd] in Hge. now apply Z.ltb_ge.
Qed.

Lemma portfolio_ranked_witness :
  exists r,
    co.get_offset_recommendations no_rounding sample_scopes
      [("Purchased Electricity", 30); ("Business Travel", 5)] "Technology"
      None "Global" 50
    = Py.Returns r
    /\ co.note r = None
    /\ List.map co.score (co.portfolio_approach r)
       = [co.ScoreOf 12; co.ScoreOf 12; co.ScoreOf 9; co.ScoreOf 8]
    /\ (1 <= length (co.portfolio_approach r) <= 4)%nat.
Proof.
  eexists. split; [vm_compute; reflexivity |].
  split; [reflexivity |]. split; [reflexivity |].
  match goal with
  | |- (1 <= length (co.portfolio_approach ?r) <= 4)%nat =>
      destruct (portfolio_ranked no_rounding sample_scopes
                  [("Purchased Electricity", 30); ("Business Travel", 5)]
                  "Technology" None "Global" 50 r
                  ltac:(vm_compute; reflexivity) eq_refl)
        as (largest & _ & Hlen & _)
  end.
  exact Hlen.
Defined.

(** X10 (carbon_offsets.py): the emissions to offset are the sum of the
    scopes times the percentage over 100.  Under ["total_emissions"] a
    scored result gives the sum of the scopes, but the general result gives
    the emissions to offset. *)
Theorem reported_totals
    (round : Q -> Z -> Q)
    (emissions_by_scope emissions_by_category : list (string * Q))
    (industry : string) (budget_per_tonne : option Q) (location : string)
    (offset_percentage : Q) (r : co.Recommendations) :
  co.get_offset_recommendations round emissions_by_scope emissions_by_category
    industry budget_per_tonne location offset_percentage
  = Py.Returns r ->
  let total := app.sum (app.values emissions_by_scope) in
  co.emissions_to_offset r = total * (offset_percentage / 100)
  /\ (co.note r = None -> co.total_emissions r = total)
  /\ (co.note r <> None ->
      co.total_emissions r = total * (offset_percentage / 100)).
Proof.
  intros Hr total.
  destruct emissions_by_scope as [| scope scopes]; [discriminate Hr |].
  destruct (max_by_cons Py.Qlt_bool snd scope scopes) as [largest Hmax].
  rewrite (get_offset_recommendations_eq round _ _ _ _ _ _ largest Hmax) in Hr.
  cbv zeta in Hr.
  destruct (ranked_projects _ _ _ _ _) as [| x0 rest].
  - rewrite get_general_recommendations_eq in Hr. injection Hr as <-.
    cbn [co.note co.total_emissions co.emissions_to_offset].
    split; [reflexivity |].
    split; [intros Hnote; discriminate Hnote | reflexivity].
  - injection Hr as <-.
    cbn [co.note co.total_emissions co.emissions_to_offset].
    split; [reflexivity |]. split; [reflexivity |].
    intros Hnote. now contradiction Hnote.
Qed.

Lemma reported_totals_witness :
  exists r,
    co.get_offset_recommendations no_rounding sample_scopes
      sample_categories "Technology" (Some 3) "Global" 50
    = Py.Returns r
    /\ co.note r <> None
    /\ app.sum (app.values sample_scopes) == 45
    /\ co.total_emissions r == 45 / 2.
Proof.
  eexists.
  match goal with
  | |- ?call = Py.Returns ?r /\ _ =>
      assert (Hr : call = Py.Returns r) by (vm_compute; reflexivity)
  end.
  split; [exact Hr |].
  match type of Hr with
  | _ = Py.Returns ?r =>
      assert (Hnote : co.note r <> None) by (intros H; discriminate H)
  end.
  split; [exact Hnote |]. split; [reflexivity |].
  rewrite (proj2 (proj2 (reported_totals no_rounding sample_scopes
                           sample_categories "Technology" (Some 3) "Global"
                           50 _ Hr)) Hnote).
  reflexivity.
Defined.

Lemma no_global_project :
  Forall
    (fun item => Py.mem "Global" (co.project_locations (snd item)) = false)
    co.CARBON_OFFSET_PROJECTS.
Proof.
  unfold co.CARBON_OFFSET_PROJECTS.
  repeat (apply List.Forall_cons; [reflexivity |]). apply List.Forall_nil.
Qed.

Lemma recommended_projects_location
    (industry largest_scope location : string) (top_3 : list string)
    (budget_per_tonne : option Q) :
  Forall
    (fun item => Py.mem location (co.project_locations (snd item)) = false)
    co.CARBON_OFFSET_PROJECTS ->
  co.recommended_projects industry largest_scope location top_3
    budget_per_tonne
  = co.recommended_projects industry largest_scope "Global" top_3
      budget_per_tonne.
Proof.
  intros Hloc. unfold co.recommended_projects. cbv zeta.
  f_equal. f_equal. apply List.map_ext_in. intros item Hin. f_equal.
  pose proof no_global_project as Hglobal.
  rewrite List.Forall_forall in Hloc, Hglobal.
  unfold co.project_score.
  now rewrite (Hloc item Hin), (Hglobal item Hin).
Qed.

(** X11 (carbon_offsets.py): a location that no project of the table lists
    changes nothing: the result is the one for ["Global"], which no project
    lists either.  Of the locations that the form offers this holds for all
    but "Europe". *)
Theorem location_without_effect
    (round : Q -> Z -> Q)
    (emissions_by_scope emissions_by_category : list (string * Q))
    (industry : string) (budget_per_tonne : option Q) (location : string)
    (offset_percentage : Q) :
  In location
    ["Global"; "North America"; "Asia Pacific"; "Africa"; "Latin America"] ->
  co.get_offset_recommendations round emissions_by_scope emissions_by_category
    industry budget_per_tonne location offset_percentage
  = co.get_offset_recommendations round emissions_by_scope
      emissions_by_category industry budget_per_tonne "Global"
      offset_percentage.
Proof.
  intros Hlocation.
  assert (Hloc : Forall
                   (fun item =>
                      Py.mem location (co.project_locations (snd item))
                      = false)
                   co.CARBON_OFFSET_PROJECTS).
  { unfold co.CARBON_OFFSET_PROJECTS. cbn [In] in Hlocation.
    repeat (destruct Hlocation as [<- | Hlocation];
            [repeat (apply List.Forall_cons; [reflexivity |]);
             apply List.Forall_nil |]).
    contradiction. }
  unfold co.get_offset_recommendations. cbv zeta.
  destruct (Py.max_by Py.Qlt_bool snd emissions_by_scope) as [largest | e];
    cbn [Py.and_then]; [| reflexivity].
  now rewrite (recommended_projects_location _ _ location _ _ Hloc).
Qed.

Lemma location_without_effect_witness :
  In "North America"
    ["Global"; "North America"; "Asia Pacific"; "Africa"; "Latin America"]
  /\ co.get_offset_recommendations no_rounding sample_scopes
       sample_categories "Technology" None "North America" 50
     = co.get_offset_recommendations no_rounding sample_scopes
         sample_categories "Technology" None "Global" 50.
Proof.
  assert (Hin : In "North America"
                  ["Global"; "North America"; "Asia Pacific"; "Africa";
                   "Latin America"]) by (right; left; reflexivity).
  split; [exact Hin |].
  exact (location_without_effect no_rounding sample_scopes sample_categories
           "Technology" None "North America" 50 Hin).
Defined.

Lemma landfill_methane_diverse :
  exists item,
    In item diverse_items /\ fst (co.price_range (snd item)) = 5%Z.
Proof.
  eexists. split; [do 2 right; left; reflexivity | reflexivity].
Qed.

(** X13 (carbon_offsets.py): with a budget of 5 USD per tonne or more,
    every project of the returned portfolio, scored or general, has a lowest
    price within the budget. *)
Theorem budget_respected_from_5
    (round : Q -> Z -> Q)
    (emissions_by_scope emissions_by_category : list (string * Q))
    (industry : string) (b : Q) (location : string) (offset_percentage : Q)
    (r : co.Recommendations) :
  5 <= b ->
  co.get_offset_recommendations round emissions_by_scope emissions_by_category
    industry (Some b) location offset_percentage
  = Py.Returns r ->
  Forall
    (fun pp => inject_Z (fst (co.price_range (co.project pp))) <= b)
    (co.portfolio_approach r).
Proof.
  intros Hb5 Hr.
  assert (Hb : ~ b == 0).
  { intros H. rewrite H in Hb5. now apply Hb5. }
  destruct emissions_by_scope as [| scope scopes]; [discriminate Hr |].
  destruct (max_by_cons Py.Qlt_bool snd scope scopes) as [largest Hmax].
  rewrite (get_offset_recommendations_eq round _ _ _ _ _ _ largest Hmax) in Hr.
  cbv zeta in Hr.
  destruct (ranked_projects _ _ _ _ _) as [| x0 rest] eqn:Hranked.
  - rewrite get_general_recommendations_eq in Hr. injection Hr as <-.
    cbn [co.portfolio_approach].
    assert (Hchoice : general_choice (Some b)
                      = List.filter (affordable b) diverse_items).
    { unfold general_choice, co.has_budget.
      destruct (Qeq_bool b 0) eqn:Hz;
        [apply Qeq_bool_iff in Hz; contradiction |].
      cbn [negb].
      destruct landfill_methane_diverse as (item & Hitem & Hprice).
      assert (Hin : In item (List.filter (affordable b) diverse_items)).
      { apply filter_In. split; [exact Hitem |].
        unfold affordable. rewrite Hprice. now apply Qle_bool_iff. }
      destruct (List.filter (affordable b) diverse_items);
        [contradiction | reflexivity]. }
    rewrite Hchoice. unfold general_portfolio.
    rewrite List.Forall_forall. intros pp Hpp.
    apply in_map_iff in Hpp as (item & <- & Hitem).
    cbn [co.project co.portfolio_project].
    apply filter_In in Hitem as [_ Hitem]. now apply Qle_bool_iff.
  - injection Hr as <-. cbn [co.portfolio_approach].
    unfold scored_portfolio. rewrite List.Forall_forall. intros pp Hpp.
    apply in_map_iff in Hpp as (x & <- & Hx).
    cbn [co.project co.portfolio_project].
    apply In_firstn in Hx. rewrite <- Hranked in Hx.
    apply ranked_projects_In in Hx as (_ & Hs & Hpos). rewrite Hs in Hpos.
    eapply scored_within_budget; eassumption.
Qed.

Lemma budget_respected_from_5_witness :
  5 <= 5
  /\ exists r,
      co.get_offset_recommendations no_rounding sample_scopes [] "Other"
        (Some 5) "Global" 100
      = Py.Returns r
      /\ List.map co.id (co.portfolio_approach r) = ["landfill_methane"]
      /\ Forall
           (fun pp => inject_Z (fst (co.price_range (co.project pp))) <= 5)
           (co.portfolio_approach r).
Proof.
  assert (Hb : 5 <= 5) by discriminate.
  split; [exact Hb |]. eexists.
  match goal with
  | |- ?call = Py.Returns ?r /\ _ =>
      assert (Hr : call = Py.Returns r) by (vm_compute; reflexivity)
  end.
  split; [exact Hr |]. split; [reflexivity |].
  exact (budget_respected_from_5 no_rounding sample_scopes [] "Other" 5
           "Global" 100 _ Hb Hr).
Defined.

(** ** report_generator.py *)

Lemma NoDup_keys_filter {V : Type} (f : string * V -> bool)
    (d : list (string * V)) :
  List.NoDup (List.map fst d) -> List.NoDup (List.map fst (List.filter f d)).
Proof.
  induction d as [| x d IH]; cbn [List.filter List.map]; intros Hnd;
    [constructor |].
  inversion Hnd as [| ? ? Hx Hnd']; subst.
  destruct (f x); [| now apply IH].
  cbn [List.map]. constructor; [| now apply IH].
  intros Hin. apply Hx. apply in_map_iff in Hin as (y & Hy & Hin).
  apply filter_In in Hin as [Hin _]. rewrite <- Hy. now apply in_map.
Qed.

Lemma flat_map_filter {A B C : Type} (f : A -> bool) (k : A -> B)
    (h g : B -> list C) (l : list A) :
  (forall x, In x l -> f x = false -> h (k x) = []) ->
  (forall x, In x l -> f x = true -> h (k x) = g (k x)) ->
  List.flat_map h (List.map k l)
  = List.flat_map g (List.map k (List.filter f l)).
Proof.
  induction l as [| x l IH]; intros Hfalse Htrue;
    cbn [List.map List.filter List.flat_map]; [reflexivity |].
  rewrite IH;
    [| intros y Hy; apply Hfalse; now right
     | intros y Hy; apply Htrue; now right].
  destruct (f x) eqn:Hfx; cbn [List.map List.flat_map].
  - now rewrite (Htrue x (or_introl eq_refl) Hfx).
  - now rewrite (Hfalse x (or_introl eq_refl) Hfx).
Qed.

(** The first three lines do not depend on the industry: what an industry
    adds comes after the five lines of the category. *)
Lemma first_three_lines (c industry : string) (is_priority : bool) :
  List.firstn 3 (rec.get_category_recommendations c industry is_priority)
  = List.firstn 3 (rec.get_category_recommendations c "Other" is_priority).
Proof.
  revert c. apply category_cases.
  - unfold categories.
    repeat (apply List.Forall_cons;
            [destruct is_priority; reflexivity |]).
    apply List.Forall_nil.
  - intros c Hc. now rewrite !unknown_category_nil.
Qed.

(** The block of the PDF for one category: the heading, the lines as
    bullets, a spacer. *)
Definition block (category : string) (rec_list : list string)
    : list report.element :=
  (report.Paragraph (category ++ ":") report.table_title_style
   :: List.map (fun rec => report.Paragraph ("• " ++ rec) report.normal_style)
        rec_list
   ++ [report.Spacer 1 0.1])%list.

(** ** app.py: from the form to the session state and to the offsets *)

Lemma form_breakdown_ok (i : app.FormInput) :
  breakdown_ok (fun _ => True) (Some (app.mode_breakdown_of i)).
Proof.
  right.
  destruct (mode_breakdown_of_shares i) as (Hc & Hcp & Hpt & Hwb & Hwfh).
  repeat constructor; eexists; (split; [eassumption | exact I]).
Qed.

(** Both branches of the commuting calculator multiply the annual mileage
    by a number that the distance plays no part in. *)
Lemma commuting_factor (n days : Q) (mode : string)
    (mode_breakdown : option (gmap string Q)) :
  breakdown_ok (fun _ => True) mode_breakdown ->
  exists w,
    forall d,
      exists v,
        ghg.calculate_employee_commuting_emissions d n days mode
          mode_breakdown
        = Ok v
        /\ v == ghg.total_annual_miles d n days * w.
Proof.
  intros Hb.
  destruct (String.eqb mode "Mixed" && ghg.truthy mode_breakdown)%bool eqn:Hc.
  - apply andb_true_iff in Hc as [Hmode Ht].
    apply String.eqb_eq in Hmode. subst mode.
    destruct mode_breakdown as [m |]; [| discriminate Ht].
    destruct Hb as [-> | Hb]; [discriminate Ht |].
    apply has_shares_inv in Hb
      as (c & cp & pt & wb & wfh & [Hc _] & [Hcp _] & [Hpt _] & [Hwb _]
          & [Hwfh _]).
    exists (c * 0.000348 + cp * 0.000162 + pt * 0.000096 + wb * 0
            + wfh * 0.000032).
    intros d.
    rewrite (commuting_mixed d n days c cp pt wb wfh m) by assumption.
    eexists. split; [reflexivity | ring].
  - destruct (mode_key_in_COMMUTING mode) as [f Hf].
    exists f. intros d.
    destruct (commuting_single d n days mode mode_breakdown Hc)
      as (f' & Hf' & ->).
    rewrite Hf in Hf'. injection Hf' as <-.
    eexists. split; reflexivity.
Qed.

Lemma form_categories (i : app.FormInput) :
  exists c1 c2 c3 c4 c5 c6 c7 c8, categories_of i c1 c2 c3 c4 c5 c6 c7 c8.
Proof.
  destruct (refrigerant_formula (app.refrigerant_type i)
              (app.refrigerant_amount i)) as (c3 & H3 & _).
  destruct (electricity_returns (app.electricity i) (app.grid_region i)
              (app.electricity_source i)) as (f4 & H4 & _).
  destruct (commuting_returns (fun _ => True) (app.avg_commute_distance i)
              (inject_Z (app.num_employees i))
              (inject_Z (app.commute_days_per_year i)) (app.commute_mode i)
              (Some (app.mode_breakdown_of i)) (form_breakdown_ok i))
    as (c6 & H6).
  do 8 eexists. unfold categories_of.
  split; [apply stationary_combustion_eq |].
  split; [apply mobile_combustion_eq |].
  split; [exact H3 |]. split; [exact H4 |].
  split; [apply business_travel_eq |].
  split; [exact H6 |].
  split; [apply waste_eq | apply purchased_goods_eq].
Qed.

(** X15 (app.py): whatever the form holds, the button returns: the mode
    breakdown that it builds has the five shares that the mixed branch
    reads, and a selector that a table does not know falls back to a
    default.  No sign of a quantity is needed for that. *)
Theorem calculate_button_never_raises (i : app.FormInput) :
  exists c1 c2 c3 c4 c5 c6 c7 c8,
    categories_of i c1 c2 c3 c4 c5 c6 c7 c8
    /\ app.calculate_button i = Ok (aggregate c1 c2 c3 c4 c5 c6 c7 c8)
    /\ List.map fst (app.emissions_by_category
                       (aggregate c1 c2 c3 c4 c5 c6 c7 c8))
       = categories.
Proof.
  destruct (form_categories i)
    as (c1 & c2 & c3 & c4 & c5 & c6 & c7 & c8 & Hcat).
  exists c1, c2, c3, c4, c5, c6, c7, c8.
  split; [exact Hcat |].
  split; [now apply calculate_button_aggregates | reflexivity].
Qed.

Lemma get_offset_recommendations_returns
    (round : Q -> Z -> Q)
    (scope : string * Q) (scopes emissions_by_category : list (string * Q))
    (industry : string) (budget_per_tonne : option Q) (location : string)
    (offset_percentage : Q) :
  exists r,
    co.get_offset_recommendations round (scope :: scopes)
      emissions_by_category industry budget_per_tonne location
      offset_percentage
    = Py.Returns r.
Proof.
  destruct (max_by_cons Py.Qlt_bool snd scope scopes) as [largest Hmax].
  rewrite (get_offset_recommendations_eq round _ _ _ _ _ _ largest Hmax).
  cbv zeta.
  destruct (ranked_projects _ _ _ _ _).
  - rewrite get_general_recommendations_eq. eexists; reflexivity.
  - eexists; reflexivity.
Qed.

(** X16 (app.py): after a calculation the "Generate Offset Recommendations"
    button returns, whatever the budget, the location and the percentage.
    The recommendations are those for the industry ["Other"], not for the
    industry of the form, and the cost is the emissions to offset at 15 USD
    per tonne, whatever the projects cost. *)
Theorem offset_button_returns
    (round : Q -> Z -> Q) (industry : string) (i : app.FormInput)
    (session : app.EmissionsResult) (offset_percentage : Z)
    (budget_per_tonne : option Q) (location : string) :
  app.calculate_button i = Ok session ->
  exists r,
    tabs.offset_button round industry session offset_percentage
      budget_per_tonne location
    = Py.Returns
        (r,
         round
           (app.total_emissions session * (inject_Z offset_percentage / 100)
            * (100 / 100) * 15)
           2%Z)
    /\ co.get_offset_recommendations round (app.emissions_by_scope session)
         (app.emissions_by_category session) "Other" budget_per_tonne
         location (inject_Z offset_percentage)
       = Py.Returns r.
Proof.
  intros Hsession.
  destruct (form_categories i)
    as (c1 & c2 & c3 & c4 & c5 & c6 & c7 & c8 & Hcat).
  rewrite (calculate_button_aggregates i _ _ _ _ _ _ _ _ Hcat) in Hsession.
  injection Hsession as <-.
  unfold tabs.offset_button. cbv zeta.
  cbn [app.emissions_by_scope aggregate].
  destruct (get_offset_recommendations_returns round
              ("Scope 1", c1 + c2 + c3)
              [("Scope 2", c4); ("Scope 3", c5 + c6 + c7 + c8)]
              (app.emissions_by_category
                 (aggregate c1 c2 c3 c4 c5 c6 c7 c8))
              "Other" budget_per_tonne location (inject_Z offset_percentage))
    as [r Hr].
  exists r. rewrite Hr. cbn [Py.and_then]. split; reflexivity.
Qed.

Lemma offset_button_returns_witness :
  exists session r cost,
    app.calculate_button sample_input = Ok session
    /\ tabs.offset_button no_rounding "Technology" session 50 None "Europe"
       = Py.Returns (r, cost)
    /\ cost
       = app.total_emissions session * (inject_Z 50 / 100) * (100 / 100) * 15.
Proof.
  destruct (form_categories sample_input)
    as (c1 & c2 & c3 & c4 & c5 & c6 & c7 & c8 & Hcat).
  pose proof (calculate_button_aggregates sample_input _ _ _ _ _ _ _ _ Hcat)
    as Hsession.
  destruct (offset_button_returns no_rounding "Technology" sample_input _ 50
              None "Europe" Hsession) as (r & Hr & _).
  do 3 eexists. split; [exact Hsession |]. split; [exact Hr | reflexivity].
Defined.

(** A dictionary without positive emissions gets no recommendation. *)
Lemma no_recommendations (d : list (string * Q)) (industry : string) :
  Forall (fun item => snd item <= 0) d ->
  rec.generate_recommendations d industry = [].
Proof.
  unfold rec.generate_recommendations. cbv zeta.
  generalize (rec.top_categories d) as top.
  generalize (@nil (string * list string)) as acc.
  induction d as [| [c e] d IH]; intros acc top Hall;
    cbn [List.fold_left fst snd]; [reflexivity |].
  apply Forall_cons_1 in Hall as [He Hall]. cbn [snd] in He.
  apply Qlt_bool_false_iff in He. rewrite He. now apply IH.
Qed.

(** The quantities of the form are all zero. *)
Record no_activity (i : app.FormInput) : Prop := {
  na_natural_gas : app.natural_gas i == 0;
  na_diesel : app.diesel i == 0;
  na_propane : app.propane i == 0;
  na_fuel_oil : app.fuel_oil i == 0;
  na_gasoline : app.gasoline i == 0;
  na_diesel_vehicles : app.diesel_vehicles i == 0;
  na_jet_fuel : app.jet_fuel i == 0;
  na_refrigerant_amount : app.refrigerant_amount i == 0;
  na_electricity : app.electricity i == 0;
  na_air_travel_short : app.air_travel_short i == 0;
  na_air_travel_medium : app.air_travel_medium i == 0;
  na_air_travel_long : app.air_travel_long i == 0;
  na_car_rental : app.car_rental i == 0;
  na_hotel_stays : app.hotel_stays i = 0%Z;
  na_avg_commute_distance : app.avg_commute_distance i == 0;
  na_landfill_waste : app.landfill_waste i == 0;
  na_recycled_waste : app.recycled_waste i == 0;
  na_composted_waste : app.composted_waste i == 0;
  na_incinerated_waste : app.incinerated_waste i == 0;
  na_purchased_goods : app.purchased_goods i = 0%Z
}.

(** A form left at its defaults: nothing entered, 50 employees. *)
Definition blank_input : app.FormInput :=
  {| app.industry := "Manufacturing";
     app.num_employees := 50;
     app.natural_gas := 0;
     app.diesel := 0;
     app.propane := 0;
     app.fuel_oil := 0;
     app.gasoline := 0;
     app.diesel_vehicles := 0;
     app.jet_fuel := 0;
     app.refrigerant_type := "R-410A";
     app.refrigerant_amount := 0;
     app.electricity_source := "Grid Electricity";
     app.electricity := 0;
     app.grid_region := "Asia";
     app.air_travel_short := 0;
     app.air_travel_medium := 0;
     app.air_travel_long := 0;
     app.car_rental := 0;
     app.hotel_stays := 0;
     app.avg_commute_distance := 0;
     app.commute_days_per_year := 230;
     app.commute_mode := "Mixed";
     app.car_percent := 30;
     app.carpool_percent := 20;
     app.public_transit_percent := 30;
     app.walking_biking_percent := 10;
     app.wfh_percent := 10;
     app.landfill_waste := 0;
     app.recycled_waste := 0;
     app.composted_waste := 0;
     app.incinerated_waste := 0;
     app.purchased_goods := 0 |}.

(** X17 (app.py, recommendations.py): a form without quantities, whatever
    its selectors, its head count and its commute breakdown, gives a total
    of 0, eight categories at 0, and no recommendation at all. *)
Theorem blank_form (i : app.FormInput) :
  no_activity i ->
  exists r,
    tabs.calculate_and_recommend i = Ok (r, [])
    /\ app.total_emissions r == 0
    /\ Forall (fun v => v == 0) (app.values (app.emissions_by_category r))
    /\ Forall (fun v => v == 0) (app.values (app.emissions_by_scope r)).
Proof.
  intros [].
  destruct (refrigerant_formula (app.refrigerant_type i)
              (app.refrigerant_amount i)) as (c3 & H3 & E3).
  destruct (electricity_returns (app.electricity i) (app.grid_region i)
              (app.electricity_source i)) as (f4 & H4 & _).
  destruct (commuting_factor (inject_Z (app.num_employees i))
              (inject_Z (app.commute_days_per_year i)) (app.commute_mode i)
              (Some (app.mode_breakdown_of i)) (form_breakdown_ok i))
    as (w & Hw).
  destruct (Hw (app.avg_commute_distance i)) as (c6 & H6 & E6).
  eassert (Hcat : categories_of i _ _ c3 _ _ c6 _ _).
  { unfold categories_of.
    split; [apply stationary_combustion_eq |].
    split; [apply mobile_combustion_eq |].
    split; [exact H3 |]. split; [exact H4 |].
    split; [apply business_travel_eq |].
    split; [exact H6 |].
    split; [apply waste_eq | apply purchased_goods_eq]. }
  pose proof (calculate_button_aggregates i _ _ _ _ _ _ _ _ Hcat) as Hbutton.
  match type of Hbutton with
  | _ = Ok (aggregate ?c1 ?c2 _ ?c4 ?c5 _ ?c7 ?c8) =>
      assert (E1 : c1 == 0) by
        (rewrite na_natural_gas0, na_diesel0, na_propane0, na_fuel_oil0;
         reflexivity);
      assert (E2 : c2 == 0) by
        (rewrite na_gasoline0, na_diesel_vehicles0, na_jet_fuel0;
         reflexivity);
      assert (E4 : c4 == 0) by (rewrite na_electricity0; field);
      assert (E5 : c5 == 0) by
        (rewrite na_air_travel_short0, na_air_travel_medium0,
           na_air_travel_long0, na_car_rental0, na_hotel_stays0;
         reflexivity);
      assert (E7 : c7 == 0) by
        (rewrite na_landfill_waste0, na_recycled_waste0,
           na_composted_waste0, na_incinerated_waste0;
         reflexivity);
      assert (E8 : c8 == 0) by
        (rewrite na_purchased_goods0; unfold Qdiv; ring);
      set (v1 := c1) in *; set (v2 := c2) in *; set (v4 := c4) in *;
      set (v5 := c5) in *; set (v7 := c7) in *; set (v8 := c8) in *
  end.
  assert (E3' : c3 == 0) by (rewrite E3, na_refrigerant_amount0; field).
  assert (E6' : c6 == 0).
  { rewrite E6. unfold ghg.total_annual_miles.
    rewrite na_avg_commute_distance0. ring. }
  exists (aggregate v1 v2 c3 v4 v5 c6 v7 v8).
  unfold tabs.calculate_and_recommend. rewrite Hbutton. cbn [bind].
  rewrite no_recommendations.
  - split; [reflexivity |].
    cbn [aggregate app.total_emissions app.emissions_by_category
         app.emissions_by_scope app.values List.map snd].
    split; [rewrite E1, E2, E3', E4, E5, E6', E7, E8; reflexivity |].
    split.
    + repeat (apply List.Forall_cons; [assumption |]). apply List.Forall_nil.
    + repeat (apply List.Forall_cons;
              [rewrite ?E1, ?E2, ?E3', ?E4, ?E5, ?E6', ?E7, ?E8;
               reflexivity |]).
      apply List.Forall_nil.
  - cbn [aggregate app.emissions_by_category].
    repeat (apply List.Forall_cons;
            [cbn [snd];
             rewrite ?E1, ?E2, ?E3', ?E4, ?E5, ?E6', ?E7, ?E8;
             apply Qle_refl |]).
    apply List.Forall_nil.
Qed.

Lemma blank_input_no_activity : no_activity blank_input.
Proof. constructor; reflexivity. Defined.

Lemma blank_form_witness :
  no_activity blank_input
  /\ exists r,
      tabs.calculate_and_recommend blank_input = Ok (r, [])
      /\ app.total_emissions r == 0.
Proof.
  split; [exact blank_input_no_activity |].
  destruct (blank_form blank_input blank_input_no_activity)
    as (r & Hr & Htotal & _).
  exists r. split; [exact Hr | exact Htotal].
Defined.

(** ** ghg_protocol.py: how the calculators respond to their arguments *)

Lemma ELECTRICITY_at_least_renewable (k : string) (v : Q) :
  ef.ELECTRICITY !! k = Some v -> 0.000016 <= v.
Proof. intros H. literal_items H; discriminate. Qed.

(** The factor that the electricity calculator applies, whatever the region
    and the source, is one of the table, and none of the table is below the
    factor of renewable energy. *)
Lemma electricity_factor_at_least_renewable
    (electricity : Q) (grid_region source : string) :
  exists f,
    ghg.calculate_electricity_emissions electricity grid_region source
    = Ok (electricity * f / 1000)
    /\ 0.000016 <= f.
Proof.
  destruct (String.eqb_spec source "Renewable Energy") as [-> | Hr].
  { eexists; split; [apply electricity_renewable | discriminate]. }
  destruct (String.eqb_spec source "Mixed Sources") as [-> | Hm].
  { eexists; split; [apply electricity_mixed | discriminate]. }
  eexists; split; [now apply electricity_grid |].
  apply (get_ind (fun f => 0.000016 <= f));
    [apply ELECTRICITY_at_least_renewable | discriminate].
Qed.

(** X18 (ghg_protocol.py): for a consumption that is not negative, no
    region and no source gives less than the source "Renewable Energy"
    does. *)
Theorem renewable_lowest
    (electricity : Q) (grid_region grid_region' source : string) :
  0 <= electricity ->
  exists v v',
    ghg.calculate_electricity_emissions electricity grid_region
      "Renewable Energy"
    = Ok v
    /\ ghg.calculate_electricity_emissions electricity grid_region' source
       = Ok v'
    /\ v <= v'.
Proof.
  intros He.
  destruct (electricity_factor_at_least_renewable electricity grid_region'
              source) as (f & Hv' & Hf).
  exists (electricity * 0.000016 / 1000), (electricity * f / 1000).
  split; [apply electricity_renewable |]. split; [exact Hv' |].
  unfold Qdiv. apply Qmult_le_compat_r; [| discriminate].
  rewrite (Qmult_comm electricity 0.000016), (Qmult_comm electricity f).
  now apply Qmult_le_compat_r.
Qed.

Lemma renewable_lowest_witness :
  0 <= 50000
  /\ exists v v',
      ghg.calculate_electricity_emissions 50000 "Asia" "Renewable Energy"
      = Ok v
      /\ ghg.calculate_electricity_emissions 50000 "West US"
           "Grid Electricity"
         = Ok v'
      /\ v <= v'.
Proof.
  assert (He : 0 <= 50000) by discriminate.
  split; [exact He |].
  exact (renewable_lowest 50000 "Asia" "West US" "Grid Electricity" He).
Defined.

(** ** report_generator.py: the "Percentage" columns of the Excel report *)

(** X20 (report_generator.py): the data of a sheet is built whatever the
    total, since the division is guarded: no [ZeroDivisionError].  The sheet
    has a row for each item of the dictionary; with a positive total the
    percentage of a row is its value over the total, times 100, and with a
    total that is not positive every percentage is 0. *)
Theorem sheet_percentages (total_emissions : Q) (d : list (string * Q)) :
  exists sheet,
    report.sheet_data total_emissions d = Py.Returns sheet
    /\ report.names sheet = List.map fst d
    /\ report.emissions sheet = List.map snd d
    /\ length (report.percentages sheet) = length d
    /\ (0 < total_emissions ->
        report.percentages sheet
        = List.map (fun item => snd item / total_emissions * 100) d)
    /\ (total_emissions <= 0 ->
        Forall (fun percentage => percentage = 0) (report.percentages sheet)).
Proof.
  unfold report.sheet_data.
  destruct (Py.Qlt_bool 0 total_emissions) eqn:Hpos.
  - apply Qlt_bool_iff in Hpos as Hlt.
    assert (Hnz : ~ total_emissions == 0).
    { intros H. rewrite H in Hlt. now apply (Qlt_irrefl 0). }
    rewrite (for_each_returns _ (fun value => value / total_emissions * 100)).
    + cbn [Py.and_then]. eexists. split; [reflexivity |].
      cbn [report.names report.emissions report.percentages].
      split; [reflexivity |]. split; [reflexivity |].
      split; [unfold app.values; now rewrite !List.length_map |].
      split.
      * intros _. unfold app.values. now rewrite List.map_map.
      * intros Hle. exfalso. now apply (Qlt_not_le _ _ Hlt).
    + intros value _. unfold report.percentage, Py.truediv. rewrite Hpos.
      destruct (Qeq_bool total_emissions 0) eqn:Hz;
        [apply Qeq_bool_iff in Hz; contradiction | reflexivity].
  - rewrite (for_each_returns _ (fun _ => 0)).
    + cbn [Py.and_then]. eexists. split; [reflexivity |].
      cbn [report.names report.emissions report.percentages].
      split; [reflexivity |]. split; [reflexivity |].
      split; [unfold app.values; now rewrite !List.length_map |].
      split.
      * intros Hlt. apply Qlt_bool_iff in Hlt. congruence.
      * intros _. rewrite List.Forall_forall. intros x Hx.
        now apply in_map_iff in Hx as (_ & <- & _).
    + intros value _. unfold report.percentage. now rewrite Hpos.
Qed.

Lemma sheet_percentages_witness :
  0 <= 0
  /\ exists sheet,
      report.sheet_data 0 sample_scopes = Py.Returns sheet
      /\ report.percentages sheet = [0; 0; 0].
Proof.
  assert (Hzero : 0 <= 0) by discriminate.
  split; [exact Hzero |].
  destruct (sheet_percentages 0 sample_scopes)
    as (sheet & Hsheet & _ & _ & Hlen & _ & Hall).
  exists sheet. split; [exact Hsheet |].
  specialize (Hall Hzero).
  destruct (report.percentages sheet) as [| p1 [| p2 [| p3 [| p4 l]]]];
    try discriminate Hlen.
  apply Forall_cons_1 in Hall as [-> Hall].
  apply Forall_cons_1 in Hall as [-> Hall].
  apply Forall_cons_1 in Hall as [-> _].
  reflexivity.
Defined.

(** ** carbon_offsets.py: no project twice *)

Lemma NoDup_map_filter {A B : Type} (k : A -> B) (f : A -> bool)
    (l : list A) :
  List.NoDup (List.map k l) -> List.NoDup (List.map k (List.filter f l)).
Proof.
  induction l as [| x l IH]; cbn [List.filter List.map]; intros Hnd;
    [constructor |].
  inversion Hnd as [| ? ? Hx Hnd']; subst.
  destruct (f x); [| now apply IH].
  cbn [List.map]. constructor; [| now apply IH].
  intros Hin. apply Hx. apply in_map_iff in Hin as (y & Hy & Hin).
  apply filter_In in Hin as [Hin _]. rewrite <- Hy. now apply in_map.
Qed.

Lemma NoDup_firstn {A : Type} (n : nat) (l : list A) :
  List.NoDup l -> List.NoDup (List.firstn n l).
Proof.
  intros Hnd. revert n.
  induction Hnd as [| x l Hx Hnd IH]; intros [| n]; cbn [List.firstn];
    try constructor.
  - intros Hin. apply Hx. eapply In_firstn; exact Hin.
  - apply IH.
Qed.

(** X21 (carbon_offsets.py): no project comes twice in a portfolio, scored
    or general. *)
Theorem portfolio_distinct
    (round : Q -> Z -> Q)
    (emissions_by_scope emissions_by_category : list (string * Q))
    (industry : string) (budget_per_tonne : option Q) (location : string)
    (offset_percentage : Q) (r : co.Recommendations) :
  co.get_offset_recommendations round emissions_by_scope emissions_by_category
    industry budget_per_tonne location offset_percentage
  = Py.Returns r ->
  List.NoDup (List.map co.id (co.portfolio_approach r)).
Proof.
  intros Hr.
  destruct emissions_by_scope as [| scope scopes]; [discriminate Hr |].
  destruct (max_by_cons Py.Qlt_bool snd scope scopes) as [largest Hmax].
  rewrite (get_offset_recommendations_eq round _ _ _ _ _ _ largest Hmax) in Hr.
  cbv zeta in Hr.
  destruct (ranked_projects _ _ _ _ _) as [| x0 rest] eqn:Hranked.
  - rewrite get_general_recommendations_eq in Hr. injection Hr as <-.
    cbn [co.portfolio_approach]. unfold general_portfolio.
    rewrite List.map_map. cbn [co.id co.portfolio_project].
    assert (Hd : List.NoDup (List.map fst diverse_items)).
    { unfold diverse_items. apply NoDup_map_filter.
      apply CARBON_OFFSET_PROJECTS_NoDup. }
    unfold general_choice.
    destruct (co.has_budget budget_per_tonne), budget_per_tonne as [b |];
      try exact Hd.
    destruct (List.filter (affordable b) diverse_items) as [| item items]
      eqn:Hf.
    + rewrite <- List.firstn_map. now apply NoDup_firstn.
    + rewrite <- Hf. now apply NoDup_map_filter.
  - injection Hr as <-. cbn [co.portfolio_approach].
    rewrite <- Hranked. unfold scored_portfolio.
    rewrite List.map_map. cbn [co.id co.portfolio_project].
    rewrite <- (List.firstn_map (fun x : (string * co.Project) * Z =>
                                   fst (fst x))).
    apply NoDup_firstn. unfold ranked_projects.
    eapply Permutation_NoDup.
    + apply Permutation_map. symmetry. apply sorted_desc_perm.
    + apply NoDup_map_filter. rewrite List.map_map. cbn [fst].
      apply CARBON_OFFSET_PROJECTS_NoDup.
Qed.

Lemma portfolio_distinct_witness :
  exists r,
    co.get_offset_recommendations no_rounding sample_scopes
      [("Purchased Electricity", 30); ("Business Travel", 5)] "Technology"
      None "Global" 50
    = Py.Returns r
    /\ List.map co.id (co.portfolio_approach r)
       = ["wind_energy"; "solar_energy"; "direct_air_capture";
          "transportation"]
    /\ List.NoDup (List.map co.id (co.portfolio_approach r)).
Proof.
  eexists.
  match goal with
  | |- ?call = Py.Returns ?r /\ _ =>
      assert (Hr : call = Py.Returns r) by (vm_compute; reflexivity)
  end.
  split; [exact Hr |]. split; [reflexivity |].
  exact (portfolio_distinct no_rounding sample_scopes
           [("Purchased Electricity", 30); ("Business Travel", 5)]
           "Technology" None "Global" 50 _ Hr).
Defined.

(** * The calculator in binary64: sign, NaN and overflow *)

Module SF.

(** Classes of [spec_float]s, the numbers that specify the primitive
    floats. *)

Definition nonneg (x : spec_float) : bool :=
  match x with
  | S754_zero _ => true
  | S754_infinity s => negb s
  | S754_nan => false
  | S754_finite s _ _ => negb s
  end.

Definition finite (x : spec_float) : bool :=
  match x with
  | S754_zero _ | S754_finite _ _ _ => true
  | S754_infinity _ | S754_nan => false
  end.

Definition nonzero (x : spec_float) : bool :=
  match x with
  | S754_finite _ _ _ | S754_infinity _ => true
  | S754_zero _ | S754_nan => false
  end.

Definition is_nan (x : spec_float) : bool :=
  match x with
  | S754_nan => true
  | _ => false
  end.

Lemma shr_1_nonneg (mrs : shr_record) :
  (0 <= shr_m mrs)%Z -> (0 <= shr_m (shr_1 mrs))%Z.
Proof.
  destruct mrs as [m r s]. cbn [shr_m]. intros Hm.
  destruct m as [| [p | p |] | p]; cbn; lia.
Qed.

Lemma iter_pos_invariant {A : Type} (P : A -> Prop) (f : A -> A) :
  (forall x, P x -> P (f x)) ->
  forall (p : BinNums.positive) (x : A), P x -> P (SpecFloat.iter_pos f p x).
Proof.
  intros Hf. induction p as [p IH | p IH |]; intros x Hx; cbn; auto.
Qed.

Lemma shr_nonneg (mrs : shr_record) (e n : Z) :
  (0 <= shr_m mrs)%Z -> (0 <= shr_m (fst (shr mrs e n)))%Z.
Proof.
  intros Hm. destruct n as [| p | p]; cbn [shr fst]; try exact Hm.
  apply (iter_pos_invariant (fun mrs => (0 <= shr_m mrs)%Z)); [| exact Hm].
  exact shr_1_nonneg.
Qed.

Lemma shr_record_of_loc_m (m : Z) (l : location) :
  shr_m (shr_record_of_loc m l) = m.
Proof. destruct l as [| []]; reflexivity. Qed.

Lemma shr_fexp_nonneg (m e : Z) (l : location) :
  (0 <= m)%Z -> (0 <= shr_m (fst (shr_fexp prec emax m e l)))%Z.
Proof.
  intros Hm. unfold shr_fexp. apply shr_nonneg.
  now rewrite shr_record_of_loc_m.
Qed.

Lemma round_nearest_even_nonneg (m : Z) (l : location) :
  (0 <= m)%Z -> (0 <= round_nearest_even m l)%Z.
Proof.
  intros Hm. destruct l as [| []]; cbn; try lia.
  destruct (Z.even m); lia.
Qed.

(** Rounding keeps the sign and gives no NaN. *)
Definition signed (s : bool) (x : spec_float) : Prop :=
  match x with
  | S754_zero s' | S754_infinity s' | S754_finite s' _ _ => s' = s
  | S754_nan => False
  end.

Lemma binary_round_aux_signed (s : bool) (m e : Z) (l : location) :
  (0 <= m)%Z -> signed s (binary_round_aux prec emax s m e l).
Proof.
  intros Hm. unfold binary_round_aux.
  pose proof (shr_fexp_nonneg m e l Hm) as H1.
  destruct (shr_fexp prec emax m e l) as [mrs' e']. cbn [fst] in H1.
  pose proof (shr_fexp_nonneg
                (round_nearest_even (shr_m mrs') (loc_of_shr_record mrs'))
                e' loc_Exact (round_nearest_even_nonneg _ _ H1)) as H2.
  destruct (shr_fexp prec emax _ e' loc_Exact) as [mrs'' e'']. cbn [fst] in H2.
  destruct (shr_m mrs'') as [| p | p]; [reflexivity | | lia].
  destruct (e'' <=? emax - prec)%Z; reflexivity.
Qed.

Lemma binary_round_signed (s : bool) (m : BinNums.positive) (e : Z) :
  signed s (binary_round prec emax s m e).
Proof.
  unfold binary_round. destruct (shl_align m e _) as [mz ez].
  now apply binary_round_aux_signed.
Qed.

Lemma signed_false_nonneg (x : spec_float) : signed false x -> nonneg x = true.
Proof. destruct x; cbn; intros H; subst; easy. Qed.

Lemma SFmul_nonneg (x y : spec_float) :
  nonneg x = true -> nonneg y = true ->
  (finite x && finite y || nonzero x && nonzero y)%bool = true ->
  nonneg (SF64mul x y) = true.
Proof.
  destruct x as [sx | sx | | sx mx ex], y as [sy | sy | | sy my ey];
    cbn; intros Hx Hy H; try discriminate; try reflexivity;
    try (destruct sx, sy; (discriminate || reflexivity)).
  apply negb_true_iff in Hx, Hy. subst.
  apply signed_false_nonneg. now apply binary_round_aux_signed.
Qed.

Lemma SFadd_nonneg (x y : spec_float) :
  nonneg x = true -> nonneg y = true -> nonneg (SF64add x y) = true.
Proof.
  destruct x as [sx | sx | | sx mx ex], y as [sy | sy | | sy my ey];
    cbn; intros Hx Hy; try discriminate; try reflexivity;
    try (destruct sx, sy; (discriminate || reflexivity)); try assumption.
  apply negb_true_iff in Hx, Hy. subst. cbn.
  apply signed_false_nonneg. apply binary_round_signed.
Qed.

Lemma SFdiv_nonneg (x y : spec_float) :
  nonneg x = true -> nonneg y = true -> finite y && nonzero y = true ->
  nonneg (SF64div x y) = true.
Proof.
  destruct x as [sx | sx | | sx mx ex], y as [sy | sy | | sy my ey];
    cbn; intros Hx Hy H; try discriminate; try reflexivity;
    try (destruct sx, sy; (discriminate || reflexivity)).
  apply negb_true_iff in Hx, Hy. subst.
  unfold SFdiv_core_binary.
  set (m' := match _ with Z0 => _ | Zpos _ => _ | Zneg _ => _ end).
  assert (Hm' : (0 <= m')%Z).
  { unfold m'. destruct (_ - _ - _)%Z; try lia. now apply Z.shiftl_nonneg. }
  pose proof (Z.div_pos m' (Zpos my) Hm' eq_refl) as Hq.
  unfold Z.div in Hq.
  destruct (Z.div_eucl m' (Zpos my)) as [q r]. cbn [fst] in Hq.
  apply signed_false_nonneg. now apply binary_round_aux_signed.
Qed.

(** Either sign is lost to NaN, or it is kept. *)
Definition nonneg_or_nan (x : spec_float) : bool := nonneg x || is_nan x.

Lemma SFmul_nonneg_or_nan (x y : spec_float) :
  nonneg_or_nan x = true -> nonneg_or_nan y = true ->
  nonneg_or_nan (SF64mul x y) = true.
Proof.
  unfold nonneg_or_nan.
  destruct x as [sx | sx | | sx mx ex], y as [sy | sy | | sy my ey];
    cbn; rewrite ?orb_false_r; intros Hx Hy;
    try discriminate; try reflexivity;
    try (destruct sx, sy; (discriminate || reflexivity)).
  apply negb_true_iff in Hx, Hy. subst.
  rewrite signed_false_nonneg; [reflexivity |].
  now apply binary_round_aux_signed.
Qed.

Lemma SFadd_nonneg_or_nan (x y : spec_float) :
  nonneg_or_nan x = true -> nonneg_or_nan y = true ->
  nonneg_or_nan (SF64add x y) = true.
Proof.
  unfold nonneg_or_nan.
  destruct x as [sx | sx | | sx mx ex], y as [sy | sy | | sy my ey];
    cbn; rewrite ?orb_false_r; intros Hx Hy;
    try discriminate; try reflexivity;
    try (destruct sx, sy; (discriminate || reflexivity));
    try (rewrite ?orb_false_r; assumption).
  apply negb_true_iff in Hx, Hy. subst. cbn.
  rewrite signed_false_nonneg; [reflexivity |].
  apply binary_round_signed.
Qed.

Lemma SFmul_nan_l (y : spec_float) : SF64mul S754_nan y = S754_nan.
Proof. reflexivity. Qed.

Lemma SFmul_nan_r (x : spec_float) : SF64mul x S754_nan = S754_nan.
Proof. now destruct x. Qed.

Lemma SFadd_nan_l (y : spec_float) : SF64add S754_nan y = S754_nan.
Proof. reflexivity. Qed.

Lemma SFadd_nan_r (x : spec_float) : SF64add x S754_nan = S754_nan.
Proof. now destruct x. Qed.

End SF.

(** ** The tests of the code on floats *)

Module F64.

(** [x >= 0]: false of NaN, true of both zeros and of infinity. *)
Definition nonneg (x : float) : Prop := (0 <=? x)%float = true.

(** [x != x]: the float is NaN. *)
Definition is_nan (x : float) : Prop := PrimFloat.is_nan x = true.

(** Non-negative, unless NaN. *)
Definition not_negative (x : float) : Prop := nonneg x \/ is_nan x.

(** [abs(x) < inf]: neither an infinity nor NaN. *)
Definition finite (x : float) : Prop :=
  (PrimFloat.abs x <? PrimFloat.infinity)%float = true.

(** A positive finite number, as all factors but one are. *)
Definition positive_finite (x : float) : Prop :=
  (0 <? x)%float = true /\ finite x.

Lemma nonneg_spec (x : float) : nonneg x <-> SF.nonneg (Prim2SF x) = true.
Proof.
  unfold nonneg. rewrite FloatAxioms.leb_spec.
  change (Prim2SF 0%float) with (S754_zero false).
  destruct (Prim2SF x) as [s | [|] | | [|] m e]; cbn; easy.
Qed.

Lemma SFcompare_refl (x : spec_float) :
  SF.is_nan x = false -> SFcompare x x = Some Eq.
Proof.
  destruct x as [s | [|] | | [|] m e]; cbn; try easy; intros _;
    rewrite Z.compare_refl, Pos.compare_cont_refl; reflexivity.
Qed.

Lemma is_nan_spec (x : float) : is_nan x <-> Prim2SF x = S754_nan.
Proof.
  unfold is_nan, PrimFloat.is_nan. rewrite FloatAxioms.eqb_spec, negb_true_iff.
  unfold SFeqb. split.
  - destruct (Prim2SF x) eqn:E; try reflexivity;
      rewrite SFcompare_refl by reflexivity; discriminate.
  - now intros ->.
Qed.

Lemma finite_spec (x : float) : finite x <-> SF.finite (Prim2SF x) = true.
Proof.
  unfold finite. rewrite FloatAxioms.ltb_spec, FloatAxioms.abs_spec.
  change (Prim2SF infinity) with (S754_infinity false).
  destruct (Prim2SF x) as [s | [|] | | [|] m e]; cbn; easy.
Qed.

Lemma positive_finite_spec (x : float) :
  positive_finite x ->
  SF.nonneg (Prim2SF x) = true
  /\ (SF.finite (Prim2SF x) && SF.nonzero (Prim2SF x))%bool = true.
Proof.
  intros [Hpos Hfin]. apply finite_spec in Hfin.
  rewrite FloatAxioms.ltb_spec in Hpos.
  change (Prim2SF 0%float) with (S754_zero false) in Hpos.
  destruct (Prim2SF x) as [s | [|] | | [|] m e]; cbn in *; easy.
Qed.

Lemma not_negative_spec (x : float) :
  not_negative x <-> SF.nonneg_or_nan (Prim2SF x) = true.
Proof.
  unfold not_negative, SF.nonneg_or_nan.
  rewrite nonneg_spec, is_nan_spec, orb_true_iff.
  split; (intros [H | H]; [now left | right]).
  - now rewrite H.
  - now destruct (Prim2SF x).
Qed.

Lemma nonneg_not_negative (x : float) : nonneg x -> not_negative x.
Proof. now left. Qed.

Lemma nonneg_not_nan (x : float) : nonneg x -> ~ is_nan x.
Proof.
  rewrite nonneg_spec, is_nan_spec. intros H E. now rewrite E in H.
Qed.

Lemma add_nonneg (x y : float) : nonneg x -> nonneg y -> nonneg (x + y).
Proof. rewrite !nonneg_spec, FloatAxioms.add_spec. apply SF.SFadd_nonneg. Qed.

Lemma add_not_negative (x y : float) :
  not_negative x -> not_negative y -> not_negative (x + y).
Proof. rewrite !not_negative_spec, FloatAxioms.add_spec. apply SF.SFadd_nonneg_or_nan. Qed.

Lemma add_nan_l (x y : float) : is_nan x -> is_nan (x + y).
Proof. rewrite !is_nan_spec, FloatAxioms.add_spec. now intros ->. Qed.

Lemma add_nan_r (x y : float) : is_nan y -> is_nan (x + y).
Proof. rewrite !is_nan_spec, FloatAxioms.add_spec. intros ->. apply SF.SFadd_nan_r. Qed.

Lemma mul_nonneg_finite (x y : float) :
  nonneg x -> nonneg y -> finite x -> finite y -> nonneg (x * y).
Proof.
  rewrite !nonneg_spec, !finite_spec, FloatAxioms.mul_spec. intros Hx Hy Fx Fy.
  apply SF.SFmul_nonneg; [exact Hx | exact Hy |]. now rewrite Fx, Fy.
Qed.

(** A positive finite factor keeps what is non-negative so, infinity
    too. *)
Lemma mul_nonneg_factor (x c : float) :
  nonneg x -> positive_finite c -> nonneg (x * c).
Proof.
  rewrite !nonneg_spec, FloatAxioms.mul_spec. intros Hx Hc.
  apply positive_finite_spec in Hc as [Hc Hc'].
  apply andb_true_iff in Hc' as [Fc Nc].
  apply SF.SFmul_nonneg; [exact Hx | exact Hc |].
  rewrite Fc, Nc, andb_true_r. now destruct (Prim2SF x).
Qed.

Lemma mul_not_negative (x y : float) :
  not_negative x -> not_negative y -> not_negative (x * y).
Proof. rewrite !not_negative_spec, FloatAxioms.mul_spec. apply SF.SFmul_nonneg_or_nan. Qed.

Lemma div_nonneg_factor (x c : float) :
  nonneg x -> positive_finite c -> nonneg (x / c).
Proof.
  rewrite !nonneg_spec, FloatAxioms.div_spec. intros Hx Hc.
  apply positive_finite_spec in Hc as [Hc Hc'].
  now apply SF.SFdiv_nonneg.
Qed.

Lemma div_not_negative_factor (x c : float) :
  not_negative x -> positive_finite c -> not_negative (x / c).
Proof.
  intros [Hx | Hx] Hc.
  - left. now apply div_nonneg_factor.
  - right. apply is_nan_spec in Hx. apply is_nan_spec.
    now rewrite FloatAxioms.div_spec, Hx.
Qed.

Lemma float_of_int_nonneg (n : Z) : (0 <= n)%Z -> nonneg (float_of_int n).
Proof.
  intros Hn. unfold float_of_int.
  destruct (Z.ltb_spec n 0) as [Hneg | _]; [lia |].
  apply nonneg_spec. rewrite FloatAxioms.of_uint63_spec.
  pose proof (Uint63.to_Z_bounded (Uint63.of_Z n)) as [Hz _].
  destruct (Uint63.to_Z (Uint63.of_Z n)) as [| p | p]; cbn; [reflexivity | | lia].
  apply SF.signed_false_nonneg, SF.binary_round_signed.
Qed.

End F64.

(** ** What each calculator computes *)

Section Binary64.

Local Open Scope float_scope.

Import F64.

(** A literal factor is positive and finite. *)
Ltac factor := split; reflexivity.

Lemma REFRIGERANTS64_finite (k : string) (v : float) :
  ef64.REFRIGERANTS !! k = Some v -> nonneg v /\ finite v.
Proof. intros H. literal_items H; split; reflexivity. Qed.

Lemma ELECTRICITY64_positive (k : string) (v : float) :
  ef64.ELECTRICITY !! k = Some v -> positive_finite v.
Proof. intros H. literal_items H; factor. Qed.

Lemma PURCHASED_GOODS64_positive (k : string) (v : float) :
  ef64.PURCHASED_GOODS !! k = Some v -> positive_finite v.
Proof. intros H. literal_items H; factor. Qed.

Lemma COMMUTING64_finite (k : string) (v : float) :
  ef64.COMMUTING !! k = Some v -> nonneg v /\ finite v.
Proof. intros H. literal_items H; split; reflexivity. Qed.

Lemma mode_key_in_COMMUTING64 (commute_mode : string) :
  exists f,
    ef64.COMMUTING !! get ghg.mode_mapping commute_mode "car" = Some f.
Proof.
  apply (get_ind (fun key => exists f, ef64.COMMUTING !! key = Some f)).
  - intros key H. literal_items H; eexists; reflexivity.
  - eexists; reflexivity.
Qed.

Lemma stationary_combustion_eq64 (natural_gas diesel propane fuel_oil : float) :
  ghg64.calculate_stationary_combustion natural_gas diesel propane fuel_oil
  = Ok (natural_gas * 0.00195 + diesel * 0.00273 + propane * 0.00153
        + fuel_oil * 0.00281).
Proof.
  unfold ghg64.calculate_stationary_combustion. read_tables. reflexivity.
Qed.

Lemma mobile_combustion_eq64 (gasoline diesel jet_fuel : float) :
  ghg64.calculate_mobile_combustion gasoline diesel jet_fuel
  = Ok (gasoline * 0.00234 + diesel * 0.00267 + jet_fuel * 0.00259).
Proof.
  unfold ghg64.calculate_mobile_combustion. read_tables. reflexivity.
Qed.

Lemma business_travel_eq64 (short medium long car_rental hotel_stays : float) :
  ghg64.calculate_business_travel_emissions short medium long car_rental
    hotel_stays
  = Ok (short * 0.000258 + medium * 0.000168 + long * 0.000153
        + car_rental * 0.000348 + hotel_stays * 0.021).
Proof.
  unfold ghg64.calculate_business_travel_emissions. read_tables. reflexivity.
Qed.

Lemma waste_eq64 (landfill recycled composted incinerated : float) :
  ghg64.calculate_waste_emissions landfill recycled composted incinerated
  = Ok (landfill * 0.458 + recycled * 0.021 + composted * 0.023
        + incinerated * 0.0136).
Proof. unfold ghg64.calculate_waste_emissions. read_tables. reflexivity. Qed.

Lemma purchased_goods_eq64 (purchased_goods : float) (industry : string) :
  ghg64.calculate_purchased_goods_emissions purchased_goods industry
  = Ok (purchased_goods / 1000000
        * get ef64.PURCHASED_GOODS (ghg.industry_key industry) 412).
Proof.
  unfold ghg64.calculate_purchased_goods_emissions. read_tables. reflexivity.
Qed.

Lemma electricity_eq64 (electricity : float) (grid_region source : string) :
  exists f,
    ghg64.calculate_electricity_emissions electricity grid_region source
    = Ok (electricity * f / 1000)
    /\ positive_finite f.
Proof.
  unfold ghg64.calculate_electricity_emissions.
  destruct (String.eqb source "Renewable Energy").
  { read_tables. eexists. split; [reflexivity | factor]. }
  destruct (String.eqb source "Mixed Sources").
  { read_tables. eexists. split; [reflexivity | factor]. }
  read_tables. eexists. split; [reflexivity |].
  apply (get_ind positive_finite); [apply ELECTRICITY64_positive | factor].
Qed.

Lemma commuting_single64 (d n days : float) (mode : string)
    (breakdown : option (gmap string float)) :
  (String.eqb mode "Mixed" && ghg.truthy breakdown)%bool = false ->
  exists f,
    ef64.COMMUTING !! get ghg.mode_mapping mode "car" = Some f
    /\ ghg64.calculate_employee_commuting_emissions d n days mode breakdown
       = Ok (ghg64.total_annual_miles d n days * f).
Proof.
  intros Hc. destruct (mode_key_in_COMMUTING64 mode) as [f Hf].
  exists f. split; [exact Hf |].
  unfold ghg64.calculate_employee_commuting_emissions. rewrite Hc.
  now rewrite (subscript_Some _ _ _ Hf).
Qed.

Lemma commuting_mixed64 (d n days c cp pt wb wfh : float)
    (breakdown : gmap string float) :
  ghg.truthy (Some breakdown) = true ->
  breakdown !! "car" = Some c ->
  breakdown !! "carpool" = Some cp ->
  breakdown !! "public_transit" = Some pt ->
  breakdown !! "walking_biking" = Some wb ->
  breakdown !! "wfh" = Some wfh ->
  ghg64.calculate_employee_commuting_emissions d n days "Mixed"
    (Some breakdown)
  = Ok (ghg64.total_annual_miles d n days * c * 0.000348
        + ghg64.total_annual_miles d n days * cp * 0.000162
        + ghg64.total_annual_miles d n days * pt * 0.000096
        + ghg64.total_annual_miles d n days * wb * 0
        + ghg64.total_annual_miles d n days * wfh * 0.000032).
Proof.
  intros Ht Hc Hcp Hpt Hwb Hwfh.
  unfold ghg64.calculate_employee_commuting_emissions.
  rewrite Ht. simpl andb. cbv iota. unfold subscript_opt.
  rewrite (subscript_Some _ _ _ Hc), (subscript_Some _ _ _ Hcp),
    (subscript_Some _ _ _ Hpt), (subscript_Some _ _ _ Hwb),
    (subscript_Some _ _ _ Hwfh).
  read_tables. reflexivity.
Qed.


(** ** Sign of the results *)

(** A breakdown as the mixed branch needs it: a share with [P] for each
    of the five modes.  The other branch does not look at the breakdown. *)
Definition has_shares64 (P : float -> Prop) (breakdown : gmap string float)
    : Prop :=
  Forall (fun key => exists v, breakdown !! key = Some v /\ P v) modes.

Definition shares_ok (P : float -> Prop) (commute_mode : string)
    (mode_breakdown : option (gmap string float)) : Prop :=
  if (String.eqb commute_mode "Mixed" && ghg.truthy mode_breakdown)%bool then
    match mode_breakdown with
    | Some breakdown => has_shares64 P breakdown
    | None => True
    end
  else True.

(** No product of the commuting calculator has overflowed: the annual
    mileage is finite and so is, in the mixed branch, the share of each
    mode. *)
Definition finite_products (d n days : float) (commute_mode : string)
    (mode_breakdown : option (gmap string float)) : Prop :=
  let miles := ghg64.total_annual_miles d n days in
  finite miles
  /\ shares_ok (fun share => finite (miles * share)) commute_mode
       mode_breakdown.

Lemma has_shares64_inv (P : float -> Prop) (breakdown : gmap string float) :
  has_shares64 P breakdown ->
  exists c cp pt wb wfh,
    (breakdown !! "car" = Some c /\ P c)
    /\ (breakdown !! "carpool" = Some cp /\ P cp)
    /\ (breakdown !! "public_transit" = Some pt /\ P pt)
    /\ (breakdown !! "walking_biking" = Some wb /\ P wb)
    /\ (breakdown !! "wfh" = Some wfh /\ P wfh).
Proof.
  unfold has_shares64, modes. intros H.
  apply Forall_cons_1 in H as [(c & Hc & Hc0) T1].
  apply Forall_cons_1 in T1 as [(cp & Hcp & Hcp0) T2].
  apply Forall_cons_1 in T2 as [(pt & Hpt & Hpt0) T3].
  apply Forall_cons_1 in T3 as [(wb & Hwb & Hwb0) T4].
  apply Forall_cons_1 in T4 as [(wfh & Hwfh & Hwfh0) _].
  exists c, cp, pt, wb, wfh. auto 10.
Qed.

Lemma not_negative_finite (x : float) : not_negative x -> finite x -> nonneg x.
Proof.
  intros [H | H] Hfin; [exact H |].
  apply is_nan_spec in H. apply finite_spec in Hfin.
  now rewrite H in Hfin.
Qed.

Lemma total_annual_miles_not_negative (d n days : float) :
  nonneg d -> nonneg n -> nonneg days ->
  not_negative (ghg64.total_annual_miles d n days).
Proof.
  intros Hd Hn Hdays. unfold ghg64.total_annual_miles.
  repeat apply mul_not_negative; left; (assumption || reflexivity).
Qed.

Lemma stationary_nonneg64 (natural_gas diesel propane fuel_oil : float) :
  nonneg natural_gas -> nonneg diesel -> nonneg propane -> nonneg fuel_oil ->
  exists v,
    ghg64.calculate_stationary_combustion natural_gas diesel propane fuel_oil
    = Ok v
    /\ nonneg v.
Proof.
  intros. rewrite stationary_combustion_eq64. eexists. split; [reflexivity |].
  repeat apply add_nonneg; (apply mul_nonneg_factor; [assumption | factor]).
Qed.

Lemma mobile_nonneg64 (gasoline diesel jet_fuel : float) :
  nonneg gasoline -> nonneg diesel -> nonneg jet_fuel ->
  exists v,
    ghg64.calculate_mobile_combustion gasoline diesel jet_fuel = Ok v
    /\ nonneg v.
Proof.
  intros. rewrite mobile_combustion_eq64. eexists. split; [reflexivity |].
  repeat apply add_nonneg; (apply mul_nonneg_factor; [assumption | factor]).
Qed.

Lemma refrigerant_nonneg64 (refrigerant_type : string) (amount : float) :
  nonneg amount ->
  exists v,
    ghg64.calculate_refrigerant_emissions refrigerant_type amount = Ok v
    /\ not_negative v
    /\ (finite amount -> nonneg v).
Proof.
  intros Ha. unfold ghg64.calculate_refrigerant_emissions.
  destruct (String.eqb refrigerant_type "None" || (amount =? 0))%bool.
  { eexists. split; [reflexivity |]. split; [left |]; reflexivity. }
  eexists. split; [reflexivity |].
  assert (Hg : nonneg (get ef64.REFRIGERANTS refrigerant_type 0)
               /\ finite (get ef64.REFRIGERANTS refrigerant_type 0)).
  { apply (get_ind (fun g => nonneg g /\ finite g));
      [apply REFRIGERANTS64_finite | split; reflexivity]. }
  destruct Hg as [Hg Fg]. split.
  - apply div_not_negative_factor; [| factor].
    apply mul_not_negative; now left.
  - intros Fa. apply div_nonneg_factor; [| factor].
    now apply mul_nonneg_finite.
Qed.

Lemma electricity_nonneg64 (electricity : float)
    (grid_region source : string) :
  nonneg electricity ->
  exists v,
    ghg64.calculate_electricity_emissions electricity grid_region source
    = Ok v
    /\ nonneg v.
Proof.
  intros He.
  destruct (electricity_eq64 electricity grid_region source) as (f & Hv & Hf).
  eexists. split; [exact Hv |].
  apply div_nonneg_factor; [| factor]. now apply mul_nonneg_factor.
Qed.

Lemma business_travel_nonneg64
    (short medium long car_rental hotel_stays : float) :
  nonneg short -> nonneg medium -> nonneg long -> nonneg car_rental ->
  nonneg hotel_stays ->
  exists v,
    ghg64.calculate_business_travel_emissions short medium long car_rental
      hotel_stays
    = Ok v
    /\ nonneg v.
Proof.
  intros. rewrite business_travel_eq64. eexists. split; [reflexivity |].
  repeat apply add_nonneg; (apply mul_nonneg_factor; [assumption | factor]).
Qed.

Lemma waste_nonneg64 (landfill recycled composted incinerated : float) :
  nonneg landfill -> nonneg recycled -> nonneg composted ->
  nonneg incinerated ->
  exists v,
    ghg64.calculate_waste_emissions landfill recycled composted incinerated
    = Ok v
    /\ nonneg v.
Proof.
  intros. rewrite waste_eq64. eexists. split; [reflexivity |].
  repeat apply add_nonneg; (apply mul_nonneg_factor; [assumption | factor]).
Qed.

Lemma purchased_goods_nonneg64 (purchased_goods : float) (industry : string) :
  nonneg purchased_goods ->
  exists v,
    ghg64.calculate_purchased_goods_emissions purchased_goods industry = Ok v
    /\ nonneg v.
Proof.
  intros Hp. rewrite purchased_goods_eq64. eexists. split; [reflexivity |].
  apply mul_nonneg_factor.
  - apply div_nonneg_factor; [exact Hp | factor].
  - apply (get_ind positive_finite);
      [apply PURCHASED_GOODS64_positive | factor].
Qed.

Lemma commuting_nonneg64 (d n days : float) (mode : string)
    (mode_breakdown : option (gmap string float)) :
  nonneg d -> nonneg n -> nonneg days ->
  shares_ok nonneg mode mode_breakdown ->
  exists v,
    ghg64.calculate_employee_commuting_emissions d n days mode mode_breakdown
    = Ok v
    /\ not_negative v
    /\ (finite_products d n days mode mode_breakdown -> nonneg v).
Proof.
  intros Hd Hn Hdays Hb.
  pose proof (total_annual_miles_not_negative d n days Hd Hn Hdays) as Hmiles.
  unfold finite_products, shares_ok in *. cbv zeta.
  destruct (String.eqb mode "Mixed" && ghg.truthy mode_breakdown)%bool eqn:Hc.
  - apply andb_true_iff in Hc as [Hmode Ht].
    apply String.eqb_eq in Hmode. subst mode.
    destruct mode_breakdown as [m |]; [| discriminate Ht].
    apply has_shares64_inv in Hb
      as (c & cp & pt & wb & wfh & [Hc Nc] & [Hcp Ncp] & [Hpt Npt]
          & [Hwb Nwb] & [Hwfh Nwfh]).
    rewrite (commuting_mixed64 d n days c cp pt wb wfh m) by assumption.
    eexists. split; [reflexivity |]. split.
    + repeat apply add_not_negative;
        repeat apply mul_not_negative; solve [assumption | now left].
    + intros [Fmiles Fshares].
      apply has_shares64_inv in Fshares
        as (c' & cp' & pt' & wb' & wfh' & [Hc' Fc] & [Hcp' Fcp] & [Hpt' Fpt]
            & [Hwb' Fwb] & [Hwfh' Fwfh]).
      rewrite Hc in Hc'. rewrite Hcp in Hcp'. rewrite Hpt in Hpt'.
      rewrite Hwb in Hwb'. rewrite Hwfh in Hwfh'.
      injection Hc' as <-. injection Hcp' as <-. injection Hpt' as <-.
      injection Hwb' as <-. injection Hwfh' as <-.
      repeat apply add_nonneg;
        (apply mul_nonneg_finite;
         [ apply not_negative_finite;
           [apply mul_not_negative; [assumption | now left] | assumption]
         | reflexivity | assumption | reflexivity ]).
  - destruct (commuting_single64 d n days mode mode_breakdown Hc)
      as (f & Hf & ->).
    apply COMMUTING64_finite in Hf as [Nf Ff].
    eexists. split; [reflexivity |]. split.
    + apply mul_not_negative; [exact Hmiles | now left].
    + intros [Fmiles _].
      apply mul_nonneg_finite; try assumption.
      now apply not_negative_finite.
Qed.

(** C2: for non-negative arguments each of the eight calculators returns.
    The result is non-negative for six of them.  For refrigerants and for
    commuting it is non-negative or NaN: non-negative when the amount of
    refrigerant is finite, and when the annual mileage and the mileage
    shares of the commuting calculator are finite.  The mixed branch, the
    only one that reads the breakdown, needs a non-negative share for each
    of the five modes. *)
Theorem calculators_nonneg :
  (forall natural_gas diesel propane fuel_oil : float,
     nonneg natural_gas -> nonneg diesel -> nonneg propane ->
     nonneg fuel_oil ->
     exists v,
       ghg64.calculate_stationary_combustion natural_gas diesel propane
         fuel_oil
       = Ok v
       /\ nonneg v)
  /\ (forall gasoline diesel jet_fuel : float,
        nonneg gasoline -> nonneg diesel -> nonneg jet_fuel ->
        exists v,
          ghg64.calculate_mobile_combustion gasoline diesel jet_fuel = Ok v
          /\ nonneg v)
  /\ (forall (refrigerant_type : string) (amount : float),
        nonneg amount ->
        exists v,
          ghg64.calculate_refrigerant_emissions refrigerant_type amount
          = Ok v
          /\ not_negative v
          /\ (finite amount -> nonneg v))
  /\ (forall (electricity : float) (grid_region electricity_source : string),
        nonneg electricity ->
        exists v,
          ghg64.calculate_electricity_emissions electricity grid_region
            electricity_source
          = Ok v
          /\ nonneg v)
  /\ (forall air_travel_short air_travel_medium air_travel_long car_rental
             hotel_stays : float,
        nonneg air_travel_short -> nonneg air_travel_medium ->
        nonneg air_travel_long -> nonneg car_rental -> nonneg hotel_stays ->
        exists v,
          ghg64.calculate_business_travel_emissions air_travel_short
            air_travel_medium air_travel_long car_rental hotel_stays
          = Ok v
          /\ nonneg v)
  /\ (forall (avg_commute_distance num_employees commute_days_per_year
              : float)
             (commute_mode : string)
             (mode_breakdown : option (gmap string float)),
        nonneg avg_commute_distance -> nonneg num_employees ->
        nonneg commute_days_per_year ->
        shares_ok nonneg commute_mode mode_breakdown ->
        exists v,
          ghg64.calculate_employee_commuting_emissions avg_commute_distance
            num_employees commute_days_per_year commute_mode mode_breakdown
          = Ok v
          /\ not_negative v
          /\ (finite_products avg_commute_distance num_employees
                commute_days_per_year commute_mode mode_breakdown ->
              nonneg v))
  /\ (forall landfill_waste recycled_waste composted_waste incinerated_waste
             : float,
        nonneg landfill_waste -> nonneg recycled_waste ->
        nonneg composted_waste -> nonneg incinerated_waste ->
        exists v,
          ghg64.calculate_waste_emissions landfill_waste recycled_waste
            composted_waste incinerated_waste
          = Ok v
          /\ nonneg v)
  /\ (forall (purchased_goods : float) (industry : string),
        nonneg purchased_goods ->
        exists v,
          ghg64.calculate_purchased_goods_emissions purchased_goods industry
          = Ok v
          /\ nonneg v).
Proof.
  split; [exact stationary_nonneg64 |].
  split; [exact mobile_nonneg64 |].
  split; [exact refrigerant_nonneg64 |].
  split; [exact electricity_nonneg64 |].
  split; [exact business_travel_nonneg64 |].
  split; [exact commuting_nonneg64 |].
  split; [exact waste_nonneg64 | exact purchased_goods_nonneg64].
Qed.

(** The claim as it stands fails twice: a distance of 1e308 miles, which
    is a float and is not negative, makes the mileage overflow, and
    infinity times the factor 0 of walking is NaN; and a breakdown without
    "carpool" makes the mixed branch raise. *)
Lemma calculators_nonneg_counterexample :
  (nonneg 1e308 /\ nonneg 100 /\ nonneg 230
   /\ exists v,
        ghg64.calculate_employee_commuting_emissions 1e308 100 230
          "Walking/Biking" None
        = Ok v
        /\ PrimFloat.is_nan v = true
        /\ (0 <=? v) = false)
  /\ (nonneg 10 /\ nonneg 100 /\ nonneg 230 /\ nonneg 1
      /\ ghg64.calculate_employee_commuting_emissions 10 100 230 "Mixed"
           (Some {[ "car" := 1 ]})
         = Raise (KeyError "carpool")).
Proof.
  split.
  - split; [reflexivity |]. split; [reflexivity |]. split; [reflexivity |].
    eexists. split; [vm_compute; reflexivity |]. split; reflexivity.
  - repeat (split; [reflexivity |]). vm_compute. reflexivity.
Qed.

Lemma calculators_nonneg_witness :
  nonneg 10 /\ nonneg 100 /\ nonneg 230
  /\ shares_ok nonneg "Carpool" (Some {[ "car" := 1 ]})
  /\ finite_products 10 100 230 "Carpool" (Some {[ "car" := 1 ]})
  /\ exists v,
      ghg64.calculate_employee_commuting_emissions 10 100 230 "Carpool"
        (Some {[ "car" := 1 ]})
      = Ok v
      /\ nonneg v.
Proof.
  assert (Hd : nonneg 10) by reflexivity.
  assert (Hn : nonneg 100) by reflexivity.
  assert (Hdays : nonneg 230) by reflexivity.
  assert (Hb : shares_ok nonneg "Carpool" (Some {[ "car" := 1 ]}))
    by exact I.
  assert (Hf : finite_products 10 100 230 "Carpool" (Some {[ "car" := 1 ]}))
    by (split; [reflexivity | exact I]).
  repeat (split; [assumption |]).
  destruct (proj1 (proj2 (proj2 (proj2 (proj2 (proj2 calculators_nonneg)))))
              10 100 230 "Carpool" (Some {[ "car" := 1 ]}) Hd Hn Hdays Hb)
    as (v & Hv & _ & Hnn).
  exists v. split; [exact Hv | exact (Hnn Hf)].
Defined.

(** ** Underflow *)

(** With the mode ["Mixed"] and no breakdown the car factor is applied to
    the whole mileage, in binary64 as in exact arithmetic; but here a
    mileage that is not 0 can give 0: the smallest positive float, doubled,
    times 0.000348 is below every positive float. *)
Lemma mixed_without_breakdown_underflow :
  (forall d n days : float,
     ghg64.calculate_employee_commuting_emissions d n days "Mixed" None
     = Ok (ghg64.total_annual_miles d n days * 0.000348))
  /\ (0 <? ghg64.total_annual_miles 5e-324 1 1) = true
  /\ ghg64.calculate_employee_commuting_emissions 5e-324 1 1 "Mixed" None
     = Ok 0.
Proof.
  split; [intros d n days; reflexivity |].
  split; [reflexivity | vm_compute; reflexivity].
Qed.

(** ** The aggregation step *)

(** What the widgets give: a float that is not negative and is finite, an
    int from 0 to 2^53 - 1, a percentage from 0 to 100. *)
Definition widget_float (x : float) : Prop := nonneg x /\ finite x.

Definition widget_int (n : Z) : Prop := (0 <= n <= 9007199254740991)%Z.

Definition slider (n : Z) : Prop := (0 <= n <= 100)%Z.

Record nonneg_inputs64 (i : app64.FormInput) : Prop := {
  w_num_employees : widget_int (app64.num_employees i);
  w_natural_gas : widget_float (app64.natural_gas i);
  w_diesel : widget_float (app64.diesel i);
  w_propane : widget_float (app64.propane i);
  w_fuel_oil : widget_float (app64.fuel_oil i);
  w_gasoline : widget_float (app64.gasoline i);
  w_diesel_vehicles : widget_float (app64.diesel_vehicles i);
  w_jet_fuel : widget_float (app64.jet_fuel i);
  w_refrigerant_amount : widget_float (app64.refrigerant_amount i);
  w_electricity : widget_float (app64.electricity i);
  w_air_travel_short : widget_float (app64.air_travel_short i);
  w_air_travel_medium : widget_float (app64.air_travel_medium i);
  w_air_travel_long : widget_float (app64.air_travel_long i);
  w_car_rental : widget_float (app64.car_rental i);
  w_hotel_stays : widget_int (app64.hotel_stays i);
  w_avg_commute_distance : widget_float (app64.avg_commute_distance i);
  w_commute_days_per_year : widget_int (app64.commute_days_per_year i);
  w_car_percent : slider (app64.car_percent i);
  w_carpool_percent : slider (app64.carpool_percent i);
  w_public_transit_percent : slider (app64.public_transit_percent i);
  w_walking_biking_percent : slider (app64.walking_biking_percent i);
  w_wfh_percent : slider (app64.wfh_percent i);
  w_landfill_waste : widget_float (app64.landfill_waste i);
  w_recycled_waste : widget_float (app64.recycled_waste i);
  w_composted_waste : widget_float (app64.composted_waste i);
  w_incinerated_waste : widget_float (app64.incinerated_waste i);
  w_purchased_goods : widget_int (app64.purchased_goods i)
}.

(** The mileage of the form and the shares of it. *)
Definition form_products (i : app64.FormInput) : Prop :=
  finite_products (app64.avg_commute_distance i)
    (float_of_int (app64.num_employees i))
    (float_of_int (app64.commute_days_per_year i)) (app64.commute_mode i)
    (Some (app64.mode_breakdown_of i)).

(** A form with a commute of 1e308 miles, on foot. *)
Definition overflow_input : app64.FormInput :=
  {| app64.industry := "Technology";
     app64.num_employees := 100;
     app64.natural_gas := 1000;
     app64.diesel := 0;
     app64.propane := 0;
     app64.fuel_oil := 0;
     app64.gasoline := 0;
     app64.diesel_vehicles := 0;
     app64.jet_fuel := 0;
     app64.refrigerant_type := "None";
     app64.refrigerant_amount := 0;
     app64.electricity_source := "Grid Electricity";
     app64.electricity := 50000;
     app64.grid_region := "Northeast US";
     app64.air_travel_short := 0;
     app64.air_travel_medium := 0;
     app64.air_travel_long := 0;
     app64.car_rental := 0;
     app64.hotel_stays := 0;
     app64.avg_commute_distance := 1e308;
     app64.commute_days_per_year := 230;
     app64.commute_mode := "Walking/Biking";
     app64.car_percent := 0;
     app64.carpool_percent := 0;
     app64.public_transit_percent := 0;
     app64.walking_biking_percent := 0;
     app64.wfh_percent := 0;
     app64.landfill_waste := 0;
     app64.recycled_waste := 0;
     app64.composted_waste := 0;
     app64.incinerated_waste := 0;
     app64.purchased_goods := 0 |}.

(** The form of [sample_input], in floats. *)
Definition sample_input64 : app64.FormInput :=
  {| app64.industry := "Technology";
     app64.num_employees := 100;
     app64.natural_gas := 1000;
     app64.diesel := 200;
     app64.propane := 0;
     app64.fuel_oil := 0;
     app64.gasoline := 500;
     app64.diesel_vehicles := 0;
     app64.jet_fuel := 0;
     app64.refrigerant_type := "R-134a";
     app64.refrigerant_amount := 2.5;
     app64.electricity_source := "Grid Electricity";
     app64.electricity := 50000;
     app64.grid_region := "Northeast US";
     app64.air_travel_short := 10000;
     app64.air_travel_medium := 0;
     app64.air_travel_long := 20000;
     app64.car_rental := 300;
     app64.hotel_stays := 40;
     app64.avg_commute_distance := 10;
     app64.commute_days_per_year := 230;
     app64.commute_mode := "Mixed";
     app64.car_percent := 30;
     app64.carpool_percent := 20;
     app64.public_transit_percent := 30;
     app64.walking_biking_percent := 10;
     app64.wfh_percent := 10;
     app64.landfill_waste := 12;
     app64.recycled_waste := 5;
     app64.composted_waste := 1;
     app64.incinerated_waste := 0;
     app64.purchased_goods := 2000000 |}.

Lemma share_nonneg64 (mode : string) (percent : Z) (m : string) :
  slider percent -> nonneg (app64.share mode percent m).
Proof.
  intros [Hp _]. unfold app64.share.
  destruct (String.eqb mode "Mixed").
  - apply div_nonneg_factor; [now apply float_of_int_nonneg | factor].
  - destruct (String.eqb mode m); reflexivity.
Qed.

Lemma form_shares_ok (i : app64.FormInput) :
  nonneg_inputs64 i ->
  shares_ok nonneg (app64.commute_mode i) (Some (app64.mode_breakdown_of i)).
Proof.
  intros H. unfold shares_ok.
  destruct (String.eqb (app64.commute_mode i) "Mixed"
            && ghg.truthy (Some (app64.mode_breakdown_of i)))%bool;
    [| exact I].
  unfold has_shares64, modes.
  repeat (apply List.Forall_cons;
          [eexists; split; [reflexivity | apply share_nonneg64; apply H] |]).
  apply List.Forall_nil.
Qed.

(** NaN in a sum of four spreads to the sum. *)
Lemma add_nan_second (a b c d : float) : is_nan b -> is_nan (a + b + c + d).
Proof. intros H. now apply add_nan_l, add_nan_l, add_nan_r. Qed.

(** C1: for the values that the widgets give, the button returns a result
    with Scope 1 = stationary + mobile + refrigerants, Scope 2 =
    electricity, Scope 3 = business travel + commuting + waste + purchased
    goods and total = Scope 1 + Scope 2 + Scope 3, added in this order.
    Seven categories, Scope 1 and Scope 2 are non-negative.  Employee
    commuting is non-negative or NaN, and non-negative when the mileage
    and the shares of it are finite; Scope 3 and the total are non-negative
    when it is, and NaN when it is.  In exact arithmetic the total is the
    sum of the three scopes and the sum of the eight categories. *)
Theorem aggregation_invariant (i : app64.FormInput) :
  nonneg_inputs64 i ->
  exists c1 c2 c3 c4 c5 c6 c7 c8 : float,
    let scope1 := c1 + c2 + c3 in
    let scope2 := c4 in
    let scope3 := c5 + c6 + c7 + c8 in
    let total := scope1 + scope2 + scope3 in
    app64.calculate_button i
    = Ok {| app64.total_emissions := total;
            app64.emissions_by_scope :=
              [ ("Scope 1", scope1); ("Scope 2", scope2);
                ("Scope 3", scope3) ];
            app64.emissions_by_category :=
              [ ("Stationary Combustion", c1);
                ("Mobile Combustion", c2);
                ("Refrigerants", c3);
                ("Purchased Electricity", c4);
                ("Business Travel", c5);
                ("Employee Commuting", c6);
                ("Waste Generation", c7);
                ("Purchased Goods & Services", c8) ] |}
    /\ Forall nonneg [c1; c2; c3; c4; c5; c7; c8]
    /\ nonneg scope1
    /\ nonneg scope2
    /\ not_negative c6
    /\ (form_products i -> nonneg c6)
    /\ (nonneg c6 -> nonneg scope3 /\ nonneg total)
    /\ (is_nan c6 -> is_nan scope3 /\ is_nan total)
    /\ (forall (exact : app.FormInput) (r : app.EmissionsResult),
          app.calculate_button exact = Ok r ->
          (app.total_emissions r
           == app.sum (app.values (app.emissions_by_scope r)))%Q
          /\ (app.total_emissions r
              == app.sum (app.values (app.emissions_by_category r)))%Q).
Proof.
  intros H.
  destruct (stationary_nonneg64 (app64.natural_gas i) (app64.diesel i)
              (app64.propane i) (app64.fuel_oil i)) as (c1 & H1 & N1);
    try apply H.
  destruct (mobile_nonneg64 (app64.gasoline i) (app64.diesel_vehicles i)
              (app64.jet_fuel i)) as (c2 & H2 & N2);
    try apply H.
  destruct (refrigerant_nonneg64 (app64.refrigerant_type i)
              (app64.refrigerant_amount i)) as (c3 & H3 & _ & N3);
    [apply H |].
  specialize (N3 (proj2 (w_refrigerant_amount i H))).
  destruct (electricity_nonneg64 (app64.electricity i) (app64.grid_region i)
              (app64.electricity_source i)) as (c4 & H4 & N4);
    [apply H |].
  destruct (business_travel_nonneg64 (app64.air_travel_short i)
              (app64.air_travel_medium i) (app64.air_travel_long i)
              (app64.car_rental i) (float_of_int (app64.hotel_stays i)))
    as (c5 & H5 & N5);
    try apply H; [apply float_of_int_nonneg, H |].
  destruct (commuting_nonneg64 (app64.avg_commute_distance i)
              (float_of_int (app64.num_employees i))
              (float_of_int (app64.commute_days_per_year i))
              (app64.commute_mode i) (Some (app64.mode_breakdown_of i)))
    as (c6 & H6 & N6 & F6);
    [ apply H | apply float_of_int_nonneg, H | apply float_of_int_nonneg, H
    | now apply form_shares_ok | ].
  destruct (waste_nonneg64 (app64.landfill_waste i) (app64.recycled_waste i)
              (app64.composted_waste i) (app64.incinerated_waste i))
    as (c7 & H7 & N7);
    try apply H.
  destruct (purchased_goods_nonneg64
              (float_of_int (app64.purchased_goods i)) (app64.industry i))
    as (c8 & H8 & N8);
    [apply float_of_int_nonneg, H |].
  exists c1, c2, c3, c4, c5, c6, c7, c8. cbv zeta.
  split.
  { unfold app64.calculate_button.
    rewrite H1, H2, H3, H4, H5, H6, H7, H8. reflexivity. }
  split; [repeat (apply List.Forall_cons; [assumption |]);
          apply List.Forall_nil |].
  split; [repeat apply add_nonneg; assumption |].
  split; [exact N4 |]. split; [exact N6 |]. split; [exact F6 |].
  split; [| split].
  - intros N6'. split; repeat apply add_nonneg; assumption.
  - intros E6. pose proof (add_nan_second c5 c6 c7 c8 E6) as E.
    split; [exact E | now apply add_nan_r].
  - intros exact r Hr.
    destruct (form_categories exact)
      as (q1 & q2 & q3 & q4 & q5 & q6 & q7 & q8 & Hcat).
    rewrite (calculate_button_aggregates exact _ _ _ _ _ _ _ _ Hcat) in Hr.
    injection Hr as <-. apply aggregate_sums.
Qed.

Lemma overflow_input_widgets : nonneg_inputs64 overflow_input.
Proof.
  constructor; cbn; solve [split; reflexivity | unfold widget_int, slider; lia].
Qed.

(** The claim as it stands fails on a form that the widgets allow: with a
    commute of 1e308 miles on foot the mileage is infinite, commuting,
    Scope 3 and the total are NaN, not non-negative, and the total is not
    equal to the sum of the scopes, since NaN is equal to nothing. *)
Lemma aggregation_invariant_counterexample :
  nonneg_inputs64 overflow_input
  /\ exists (r : app64.EmissionsResult) (scope1 scope2 scope3 : float),
      app64.calculate_button overflow_input = Ok r
      /\ app64.emissions_by_scope r
         = [("Scope 1", scope1); ("Scope 2", scope2); ("Scope 3", scope3)]
      /\ PrimFloat.is_nan (app64.total_emissions r) = true
      /\ (0 <=? app64.total_emissions r) = false
      /\ (0 <=? scope3) = false
      /\ (app64.total_emissions r =? scope1 + scope2 + scope3) = false.
Proof.
  split; [exact overflow_input_widgets |].
  do 4 eexists. split; [vm_compute; reflexivity |].
  split; [reflexivity |]. repeat split; reflexivity.
Qed.

Lemma sample_input64_widgets : nonneg_inputs64 sample_input64.
Proof.
  constructor; cbn; solve [split; reflexivity | unfold widget_int, slider; lia].
Defined.

Lemma aggregation_invariant_witness :
  nonneg_inputs64 sample_input64
  /\ exists r : app64.EmissionsResult,
      app64.calculate_button sample_input64 = Ok r
      /\ Forall (fun item => nonneg (snd item)) (app64.emissions_by_scope r).
Proof.
  split; [exact sample_input64_widgets |].
  destruct (aggregation_invariant sample_input64 sample_input64_widgets)
    as (c1 & c2 & c3 & c4 & c5 & c6 & c7 & c8 & Hr & _ & N1 & N2 & _ & F6
        & N3 & _).
  eexists. split; [exact Hr |].
  assert (Hp : form_products sample_input64).
  { split; [reflexivity |]. unfold shares_ok, has_shares64, modes.
    cbn [app64.commute_mode sample_input64 String.eqb Ascii.eqb Bool.eqb
         andb].
    repeat (apply List.Forall_cons;
            [eexists; split; [reflexivity | reflexivity] |]).
    apply List.Forall_nil. }
  cbn [app64.emissions_by_scope].
  repeat (apply List.Forall_cons; [cbn [snd] |]); try apply List.Forall_nil.
  - exact N1.
  - exact N2.
  - exact (proj1 (N3 (F6 Hp))).
Defined.

End Binary64.

(** * The top categories of a dictionary of floats *)

(** ** The order of the floats *)

Module SFOrder.

Ltac compare_cases :=
  repeat match goal with
         | H : context [Pos.compare_cont Eq ?a ?b] |- _ =>
             change (Pos.compare_cont Eq a b) with (Pos.compare a b) in H
         | |- context [Pos.compare_cont Eq ?a ?b] =>
             change (Pos.compare_cont Eq a b) with (Pos.compare a b)
         end;
  repeat match goal with
         | H : context [Z.compare ?a ?b] |- _ =>
             destruct (Z.compare_spec a b); cbn in H
         | |- context [Z.compare ?a ?b] =>
             destruct (Z.compare_spec a b); cbn
         | H : context [Pos.compare ?a ?b] |- _ =>
             destruct (Pos.compare_spec a b); cbn in H
         | |- context [Pos.compare ?a ?b] =>
             destruct (Pos.compare_spec a b); cbn
         end;
  try discriminate; try reflexivity; try lia.

Lemma SFltb_asym (x y : spec_float) : SFltb x y = true -> SFltb y x = false.
Proof.
  unfold SFltb.
  destruct x as [sx | sx | | sx mx ex], y as [sy | sy | | sy my ey];
    try destruct sx; try destruct sy; cbn; try easy; intros H; compare_cases.
Qed.

(** Where the middle one is a number, "not less" is transitive. *)
Lemma SFltb_negtrans (x y z : spec_float) :
  SF.is_nan y = false ->
  SFltb x y = false -> SFltb y z = false -> SFltb x z = false.
Proof.
  unfold SFltb.
  destruct x as [sx | sx | | sx mx ex], y as [sy | sy | | sy my ey],
    z as [sz | sz | | sz mz ez];
    try destruct sx; try destruct sy; try destruct sz; cbn; try easy;
    intros _ H1 H2; compare_cases.
Qed.

End SFOrder.

Section TopCategories64.

Local Open Scope float_scope.

Lemma is_nan_false (x : float) :
  PrimFloat.is_nan x = false -> SF.is_nan (Prim2SF x) = false.
Proof.
  intros H. destruct (Prim2SF x) eqn:E; try reflexivity.
  apply F64.is_nan_spec in E. unfold F64.is_nan in E. congruence.
Qed.

Lemma ltb_asym64 (x y : float) : (x <? y) = true -> (y <? x) = false.
Proof. rewrite !FloatAxioms.ltb_spec. apply SFOrder.SFltb_asym. Qed.

Lemma ltb_negtrans64 (x y z : float) :
  PrimFloat.is_nan y = false ->
  (x <? y) = false -> (y <? z) = false -> (x <? z) = false.
Proof.
  rewrite !FloatAxioms.ltb_spec. intros Hy.
  apply SFOrder.SFltb_negtrans. now apply is_nan_false.
Qed.

Lemma ltb_nan_l (x y : float) : PrimFloat.is_nan x = true -> (x <? y) = false.
Proof.
  intros H. apply F64.is_nan_spec in H.
  rewrite FloatAxioms.ltb_spec, H. reflexivity.
Qed.

Lemma ltb_nan_r (x y : float) : PrimFloat.is_nan y = true -> (x <? y) = false.
Proof.
  intros H. apply F64.is_nan_spec in H.
  rewrite FloatAxioms.ltb_spec, H. unfold SFltb. now destruct (Prim2SF x).
Qed.

(** [<] made total: a NaN below every number.  On numbers it is [<]. *)
Definition ltb_total (x y : float) : bool :=
  if PrimFloat.is_nan x then negb (PrimFloat.is_nan y)
  else if PrimFloat.is_nan y then false
  else x <? y.

Lemma ltb_total_numbers (x y : float) :
  PrimFloat.is_nan x = false -> PrimFloat.is_nan y = false ->
  ltb_total x y = (x <? y).
Proof. unfold ltb_total. now intros -> ->. Qed.

Lemma ltb_total_asym (x y : float) :
  ltb_total x y = true -> ltb_total y x = false.
Proof.
  unfold ltb_total.
  destruct (PrimFloat.is_nan x), (PrimFloat.is_nan y); cbn; try easy.
  apply ltb_asym64.
Qed.

Lemma ltb_total_negtrans (x y z : float) :
  ltb_total x y = false -> ltb_total y z = false -> ltb_total x z = false.
Proof.
  unfold ltb_total.
  destruct (PrimFloat.is_nan x), (PrimFloat.is_nan y) eqn:Hy,
    (PrimFloat.is_nan z); cbn; try easy.
  now apply ltb_negtrans64.
Qed.

(** ** Sorting a dictionary without NaN *)

Lemma insert_desc_ext {A K : Type} (ltb ltb' : K -> K -> bool) (key : A -> K)
    (x : A) (l : list A) :
  (forall y, In y l -> ltb (key x) (key y) = ltb' (key x) (key y)) ->
  Py.insert_desc ltb key x l = Py.insert_desc ltb' key x l.
Proof.
  induction l as [| y l IH]; intros H; cbn [Py.insert_desc]; [reflexivity |].
  rewrite <- (H y) by now left.
  destruct (ltb (key x) (key y)); [| reflexivity].
  rewrite IH; [reflexivity |]. intros z Hz. apply H. now right.
Qed.

Lemma sorted_desc_ext {A K : Type} (ltb ltb' : K -> K -> bool) (key : A -> K)
    (l : list A) :
  (forall x y, In x l -> In y l -> ltb (key x) (key y) = ltb' (key x) (key y)) ->
  Py.sorted_desc ltb key l = Py.sorted_desc ltb' key l.
Proof.
  induction l as [| x l IH]; intros H; [reflexivity |].
  change (Py.insert_desc ltb key x (Py.sorted_desc ltb key l)
          = Py.insert_desc ltb' key x (Py.sorted_desc ltb' key l)).
  rewrite IH by (intros y z Hy Hz; apply H; now right).
  apply insert_desc_ext. intros y Hy. apply H; [now left | right].
  exact (Permutation_in _ (sorted_desc_perm ltb' key l) Hy).
Qed.

(** No value of the dictionary is NaN. *)
Definition no_nan (d : list (string * float)) : Prop :=
  Forall (fun item => PrimFloat.is_nan (snd item) = false) d.

(** [emissions > 0] on an item. *)
Definition positive64 (item : string * float) : bool := 0 <? snd item.

Lemma sorted_desc64 (d : list (string * float)) :
  no_nan d ->
  Py64.sorted_desc snd d = Some (Py.sorted_desc ltb_total snd d).
Proof.
  intros Hd. unfold Py64.sorted_desc.
  assert (Hnone : Py64.has_nan snd d = false).
  { unfold Py64.has_nan. destruct (List.existsb _ d) eqn:E; [| reflexivity].
    apply List.existsb_exists in E as (x & Hx & Hnan).
    unfold no_nan in Hd. rewrite List.Forall_forall in Hd.
    rewrite (Hd x Hx) in Hnan. discriminate Hnan. }
  rewrite Hnone. f_equal. apply sorted_desc_ext. intros x y Hx Hy.
  unfold no_nan in Hd. rewrite List.Forall_forall in Hd.
  symmetry. apply ltb_total_numbers; now apply Hd.
Qed.

Lemma positive64_sorted (x y : string * float) :
  not_below ltb_total snd x y -> positive64 y = true -> positive64 x = true.
Proof.
  unfold not_below, positive64, ltb_total. intros Hxy Hy.
  destruct (PrimFloat.is_nan (snd y)) eqn:Ny;
    [now rewrite (ltb_nan_r 0 (snd y) Ny) in Hy |].
  destruct (PrimFloat.is_nan (snd x)) eqn:Nx; [discriminate Hxy |].
  destruct (0 <? snd x) eqn:Hx; [reflexivity |].
  rewrite (ltb_negtrans64 0 (snd x) (snd y) Nx Hx Hxy) in Hy.
  discriminate Hy.
Qed.

(** The sorted items of a dictionary, and the positive ones among them. *)
Lemma sorted_facts64 (d : list (string * float)) :
  let S := Py.sorted_desc ltb_total snd d in
  let P := List.filter positive64 S in
  (forall item, In item S <-> In item d)
  /\ (forall item, In item P <-> In item d /\ positive64 item = true)
  /\ StronglySorted (not_below ltb_total snd) P
  /\ List.firstn 3 P = List.filter positive64 (List.firstn 3 S).
Proof.
  intros S P.
  assert (HS : forall item, In item S <-> In item d).
  { intros item. split; apply Permutation_in;
      [| symmetry]; apply sorted_desc_perm. }
  assert (Hsorted : StronglySorted (not_below ltb_total snd) S).
  { apply sorted_desc_sorted;
      [apply ltb_total_asym | apply ltb_total_negtrans]. }
  split; [exact HS |]. split; [| split].
  - intros item. unfold P. rewrite filter_In, HS. reflexivity.
  - now apply filter_sorted.
  - apply (firstn_filter_sorted ltb_total snd); [| exact Hsorted].
    exact positive64_sorted.
Qed.

(** X12 (carbon_offsets.py, recommendations.py): on a dictionary without
    NaN the two modules pick the same top categories, although one takes
    the first three of the sorted items and then drops those that are not
    positive, and the other drops first and then takes three. *)
Theorem top_categories_agree (emissions_by_category : list (string * float)) :
  no_nan emissions_by_category ->
  exists top,
    co64.top_3_categories emissions_by_category = Some top
    /\ rec64.top_categories emissions_by_category = Some top.
Proof.
  intros Hd. unfold co64.top_3_categories, rec64.top_categories.
  rewrite (sorted_desc64 _ Hd).
  destruct (sorted_facts64 emissions_by_category) as (_ & _ & _ & Hfirst).
  cbv zeta in Hfirst. eexists. split; [reflexivity |].
  rewrite List.firstn_map. fold positive64.
  change (fun item : string * float => 0 <? snd item) with positive64.
  now rewrite Hfirst.
Qed.

Lemma top_categories_agree_witness :
  no_nan [("Waste Generation", 0.3); ("Business Travel", 0);
          ("Refrigerants", infinity); ("Mobile Combustion", 2)]
  /\ co64.top_3_categories
       [("Waste Generation", 0.3); ("Business Travel", 0);
        ("Refrigerants", infinity); ("Mobile Combustion", 2)]
     = Some ["Refrigerants"; "Mobile Combustion"; "Waste Generation"]
  /\ rec64.top_categories
       [("Waste Generation", 0.3); ("Business Travel", 0);
        ("Refrigerants", infinity); ("Mobile Combustion", 2)]
     = Some ["Refrigerants"; "Mobile Combustion"; "Waste Generation"].
Proof.
  assert (Hd : no_nan [("Waste Generation", 0.3); ("Business Travel", 0);
                       ("Refrigerants", infinity); ("Mobile Combustion", 2)])
    by (repeat constructor).
  split; [exact Hd |].
  destruct (top_categories_agree _ Hd) as (top & Hco & Hrec).
  assert (Htop : Some top
                 = Some ["Refrigerants"; "Mobile Combustion";
                         "Waste Generation"])
    by (rewrite <- Hrec; vm_compute; reflexivity).
  rewrite Hco, Hrec. split; exact Htop.
Defined.

(** X3 (recommendations.py): on a dictionary without NaN the top categories
    are at most three, all with positive emissions, and none of them has
    smaller emissions than a category of the dictionary that is left out. *)
Theorem top_categories_largest (emissions_by_category : list (string * float)) :
  List.NoDup (List.map fst emissions_by_category) ->
  no_nan emissions_by_category ->
  exists top,
    rec64.top_categories emissions_by_category = Some top
    /\ (length top <= 3)%nat
    /\ (forall c,
          In c top ->
          exists e, In (c, e) emissions_by_category /\ (0 <? e) = true)
    /\ (forall c e c' e',
          In (c, e) emissions_by_category ->
          In (c', e') emissions_by_category ->
          In c top -> ~ In c' top ->
          (e <? e') = false).
Proof.
  intros Hnd Hd. unfold rec64.top_categories.
  rewrite (sorted_desc64 _ Hd).
  destruct (sorted_facts64 emissions_by_category)
    as (HS & HP & Hsorted & _).
  cbv zeta in HP, Hsorted.
  change (fun item : string * float => 0 <? snd item) with positive64.
  set (P := List.filter positive64
              (Py.sorted_desc ltb_total snd emissions_by_category)) in *.
  rewrite List.firstn_map.
  eexists. split; [reflexivity |].
  assert (Hnan : forall c e, In (c, e) emissions_by_category ->
                             PrimFloat.is_nan e = false).
  { intros c e Hin. unfold no_nan in Hd. rewrite List.Forall_forall in Hd.
    exact (Hd (c, e) Hin). }
  assert (Hmember : forall c,
             In c (List.map fst (List.firstn 3 P)) ->
             exists e, In (c, e) (List.firstn 3 P)
                       /\ In (c, e) emissions_by_category
                       /\ (0 <? e) = true).
  { intros c Hc.
    apply in_map_iff in Hc as ([c0 e0] & Heq & Hin). cbn [fst] in Heq. subst c0.
    exists e0. split; [exact Hin |].
    apply In_firstn in Hin. apply HP in Hin. exact Hin. }
  split; [| split].
  - rewrite List.length_map. apply List.firstn_le_length.
  - intros c Hc. destruct (Hmember c Hc) as (e & _ & Hin & Hpos). eauto.
  - intros c e c' e' Hin Hin' Hc Hc'.
    destruct (Hmember c Hc) as (e0 & Hfirst & Hin0 & Hpos).
    assert (e0 = e) by (eapply NoDup_keys_functional; eassumption). subst e0.
    destruct (0 <? e') eqn:Hpos'.
    + assert (HinP : In (c', e') P) by (apply HP; split; assumption).
      rewrite <- (List.firstn_skipn 3 P) in HinP, Hsorted.
      apply in_app_or in HinP as [Hfirst' | Hrest].
      * exfalso. apply Hc'.
        apply (in_map fst) in Hfirst'. exact Hfirst'.
      * pose proof (sorted_app_inv _ _ _ _ Hsorted _ _ Hfirst Hrest) as Hge.
        unfold not_below in Hge. cbn [snd] in Hge.
        rewrite ltb_total_numbers in Hge by eauto. exact Hge.
    + destruct (e <? e') eqn:Hlt; [| reflexivity].
      apply ltb_asym64 in Hlt.
      rewrite (ltb_negtrans64 0 e' e (Hnan _ _ Hin') Hpos' Hlt) in Hpos.
      discriminate Hpos.
Qed.

Lemma top_categories_largest_witness :
  List.NoDup
    (List.map fst
       [("Waste Generation", 0.3); ("Business Travel", 0);
        ("Refrigerants", infinity); ("Mobile Combustion", 2);
        ("Electricity", 0.1)])
  /\ no_nan
       [("Waste Generation", 0.3); ("Business Travel", 0);
        ("Refrigerants", infinity); ("Mobile Combustion", 2);
        ("Electricity", 0.1)]
  /\ exists top,
       rec64.top_categories
         [("Waste Generation", 0.3); ("Business Travel", 0);
          ("Refrigerants", infinity); ("Mobile Combustion", 2);
          ("Electricity", 0.1)]
       = Some top
       /\ top = ["Refrigerants"; "Mobile Combustion"; "Waste Generation"]
       /\ (length top <= 3)%nat.
Proof.
  assert (Hnd : List.NoDup
                  (List.map fst
                     [("Waste Generation", 0.3); ("Business Travel", 0);
                      ("Refrigerants", infinity); ("Mobile Combustion", 2);
                      ("Electricity", 0.1)]))
    by (cbn [List.map fst]; repeat constructor; cbn [In];
        intros H; repeat destruct H as [H | H]; discriminate H || exact H).
  assert (Hd : no_nan
                 [("Waste Generation", 0.3); ("Business Travel", 0);
                  ("Refrigerants", infinity); ("Mobile Combustion", 2);
                  ("Electricity", 0.1)])
    by (repeat constructor).
  split; [exact Hnd |]. split; [exact Hd |].
  destruct (top_categories_largest _ Hnd Hd) as (top & Htop & Hlen & _).
  exists top. split; [exact Htop |]. split; [| exact Hlen].
  assert (H : Some top
              = Some ["Refrigerants"; "Mobile Combustion";
                      "Waste Generation"])
    by (rewrite <- Htop; vm_compute; reflexivity).
  now injection H.
Defined.

(** ** The recommendations of the PDF report *)

(** The items that the loop of [generate_recommendations] keeps. *)
Definition recommended64 (item : string * float) : bool :=
  (positive64 item && Py.mem (fst item) categories)%bool.

(** On a dictionary (distinct keys) the loop amounts to a comprehension. *)
Lemma fold_recommendations64
    (top : list string) (emissions_by_category : list (string * float))
    (industry : string) :
  List.NoDup (List.map fst emissions_by_category) ->
  List.fold_left
    (fun (recommendations : list (string * list string))
         (item : string * float) =>
       let category := fst item in
       if 0 <? snd item then
         let category_recommendations :=
           rec.get_category_recommendations category industry
             (Py.mem category top) in
         match category_recommendations with
         | [] => recommendations
         | _ :: _ =>
             Py.dict_set recommendations category category_recommendations
         end
       else recommendations)
    emissions_by_category []
  = List.map
      (fun item =>
         (fst item,
          rec.get_category_recommendations (fst item) industry
            (Py.mem (fst item) top)))
      (List.filter recommended64 emissions_by_category).
Proof.
  intros Hnd.
  change (List.map _ (List.filter recommended64 emissions_by_category))
    with ([] ++ List.map
            (fun item : string * float =>
               (fst item,
                rec.get_category_recommendations (fst item) industry
                  (Py.mem (fst item) top)))
            (List.filter recommended64 emissions_by_category))%list.
  assert (Hfresh : forall k, In k (List.map fst emissions_by_category) ->
                             ~ In k (List.map fst (@nil (string * list string))))
    by (intros k _ []).
  revert Hfresh. generalize (@nil (string * list string)) as acc.
  induction emissions_by_category as [| [c e] d IH]; intros acc Hfresh;
    cbn [List.fold_left List.filter List.map fst snd].
  - now rewrite app_nil_r.
  - inversion Hnd as [| ? ? Hc Hnd']; subst.
    assert (Hrest : forall acc' : list (string * list string),
              (forall k, In k (List.map fst acc') ->
                         In k (List.map fst acc) \/ k = c) ->
              forall k, In k (List.map fst d) ->
                        ~ In k (List.map fst acc')).
    { intros acc' Hacc' k Hk Hin.
      destruct (Hacc' k Hin) as [Hold | ->]; [| contradiction].
      apply (Hfresh k); [now right | exact Hold]. }
    unfold recommended64 at 1, positive64 at 1. cbn [fst snd].
    destruct (0 <? e); cbn [andb].
    + destruct (rec.get_category_recommendations c industry (Py.mem c top))
        as [| r rs] eqn:Hrecs.
      * apply get_category_recommendations_nil in Hrecs. rewrite Hrecs.
        apply IH; [exact Hnd' | apply Hrest; auto].
      * assert (Hknown : Py.mem c categories = true).
        { destruct (Py.mem c categories) eqn:Hm; [reflexivity |].
          apply (get_category_recommendations_nil c industry (Py.mem c top))
            in Hm. congruence. }
        rewrite Hknown. cbn [List.map fst].
        rewrite dict_set_fresh by (apply Hfresh; now left).
        rewrite IH; [| exact Hnd' |].
        -- rewrite <- app_assoc. cbn [app]. now rewrite Hrecs.
        -- apply Hrest. intros k. rewrite List.map_app, in_app_iff.
           cbn [List.map fst In]. intros [Hin | [<- | []]]; auto.
    + apply IH; [exact Hnd' | apply Hrest; auto].
Qed.

(** What [recommendations[category]] holds for a category of the
    dictionary of emissions. *)
Lemma lookup_recommendations64
    (top : list string) (emissions_by_category : list (string * float))
    (industry c : string) (e : float) :
  List.NoDup (List.map fst emissions_by_category) ->
  In (c, e) emissions_by_category ->
  Py.lookup
    (List.map
       (fun item : string * float =>
          (fst item,
           rec.get_category_recommendations (fst item) industry
             (Py.mem (fst item) top)))
       (List.filter recommended64 emissions_by_category)) c
  = if recommended64 (c, e)
    then Some (rec.get_category_recommendations c industry (Py.mem c top))
    else None.
Proof.
  intros Hnd Hin.
  destruct (recommended64 (c, e)) eqn:Hrec.
  - apply lookup_In.
    + rewrite List.map_map. cbn [fst]. now apply NoDup_keys_filter.
    + apply in_map_iff. exists (c, e). split; [reflexivity |].
      apply filter_In. now split.
  - apply lookup_None. rewrite List.map_map. cbn [fst]. intros Hc.
    apply in_map_iff in Hc as ([c' e'] & Heq & Hin').
    cbn [fst] in Heq. subst c'.
    apply filter_In in Hin' as [Hin' Hrec'].
    assert (e' = e) by (eapply NoDup_keys_functional; eassumption).
    subst e'. congruence.
Qed.

(** The section of the report for the recommendations computed for any
    industry: a block for each known top category, with the first three
    lines that the category has for a priority. *)
Lemma key_recommendations_eq64
    (emissions_by_category : list (string * float)) (industry : string) :
  List.NoDup (List.map fst emissions_by_category) ->
  no_nan emissions_by_category ->
  exists top recommendations,
    rec64.top_categories emissions_by_category = Some top
    /\ rec64.generate_recommendations emissions_by_category industry
       = Some recommendations
    /\ report64.key_recommendations emissions_by_category recommendations
       = Some
           (List.flat_map
              (fun c =>
                 block c
                   (List.firstn 3
                      (rec.get_category_recommendations c "Other" true)))
              (List.filter (fun c => Py.mem c categories) top)).
Proof.
  intros Hnd Hd.
  unfold rec64.generate_recommendations, report64.key_recommendations,
    rec64.top_categories.
  rewrite (sorted_desc64 _ Hd).
  destruct (sorted_facts64 emissions_by_category) as (HS & _ & _ & Hfirst).
  cbv zeta in Hfirst.
  change (fun item : string * float => 0 <? snd item) with positive64.
  rewrite List.firstn_map, Hfirst.
  set (L := List.firstn 3
              (Py.sorted_desc ltb_total snd emissions_by_category)) in *.
  set (top := List.map fst (List.filter positive64 L)).
  exists top.
  exists (List.map
            (fun item : string * float =>
               (fst item,
                rec.get_category_recommendations (fst item) industry
                  (Py.mem (fst item) top)))
            (List.filter recommended64 emissions_by_category)).
  split; [reflexivity |].
  split; [now rewrite <- (fold_recommendations64 top _ industry Hnd) |].
  cbv zeta. f_equal.
  assert (HL : forall x, In x L -> In x emissions_by_category).
  { intros x Hx. apply HS. eapply In_firstn; exact Hx. }
  set (g := fun c =>
              if Py.mem c categories
              then block c
                     (List.firstn 3
                        (rec.get_category_recommendations c "Other" true))
              else []).
  transitivity (List.flat_map g top).
  - apply (flat_map_filter positive64 fst _ g L).
    + intros [c e] Hx Hpos. cbn [fst].
      rewrite (lookup_recommendations64 top _ industry c e Hnd (HL _ Hx)).
      unfold recommended64. now rewrite Hpos.
    + intros [c e] Hx Hpos. cbn [fst].
      rewrite (lookup_recommendations64 top _ industry c e Hnd (HL _ Hx)).
      unfold recommended64, g. rewrite Hpos. cbn [andb fst].
      destruct (Py.mem c categories); [| reflexivity].
      assert (Hmem : Py.mem c top = true).
      { apply List.existsb_exists. exists c.
        split; [| apply String.eqb_refl].
        apply in_map_iff. exists (c, e). split; [reflexivity |].
        apply filter_In. now split. }
      rewrite Hmem. unfold block. now rewrite first_three_lines.
  - generalize top. intros l.
    induction l as [| c l IH]; cbn [List.flat_map List.filter];
      [reflexivity |].
    rewrite IH. unfold g at 1.
    destruct (Py.mem c categories); reflexivity.
Qed.

(** X14 (report_generator.py, recommendations.py): on a dictionary without
    NaN the "Key Recommendations" of the PDF are, for each top category
    that the recommendations know, in order: the heading, the first three
    lines of the category as bullets, a spacer.  They do not depend on the
    industry. *)
Theorem key_recommendations_blocks
    (emissions_by_category : list (string * float)) (industry : string) :
  List.NoDup (List.map fst emissions_by_category) ->
  no_nan emissions_by_category ->
  exists top recommendations recommendations_other,
    rec64.top_categories emissions_by_category = Some top
    /\ rec64.generate_recommendations emissions_by_category industry
       = Some recommendations
    /\ rec64.generate_recommendations emissions_by_category "Other"
       = Some recommendations_other
    /\ report64.key_recommendations emissions_by_category recommendations
       = Some
           (List.flat_map
              (fun c =>
                 block c
                   (List.firstn 3
                      (rec.get_category_recommendations c industry true)))
              (List.filter (fun c => Py.mem c categories) top))
    /\ report64.key_recommendations emissions_by_category recommendations
       = report64.key_recommendations emissions_by_category
           recommendations_other.
Proof.
  intros Hnd Hd.
  destruct (key_recommendations_eq64 _ industry Hnd Hd)
    as (top & recs & Htop & Hrecs & Hkey).
  destruct (key_recommendations_eq64 _ "Other" Hnd Hd)
    as (top' & recs' & Htop' & Hrecs' & Hkey').
  assert (top' = top) by congruence. subst top'.
  exists top, recs, recs'.
  split; [exact Htop |]. split; [exact Hrecs |]. split; [exact Hrecs' |].
  split; [| now rewrite Hkey, Hkey'].
  rewrite Hkey. f_equal. apply List.flat_map_ext. intros c.
  now rewrite (first_three_lines c industry).
Qed.

Lemma key_recommendations_blocks_witness :
  exists recommendations,
    rec64.generate_recommendations
      [("Waste Generation", 0.3); ("Business Travel", 0);
       ("Refrigerants", infinity); ("Fugitive", 2)]
      "Manufacturing"
    = Some recommendations
    /\ report64.key_recommendations
         [("Waste Generation", 0.3); ("Business Travel", 0);
          ("Refrigerants", infinity); ("Fugitive", 2)]
         recommendations
       = Some
           (block "Refrigerants"
              (List.firstn 3
                 (rec.get_category_recommendations "Refrigerants"
                    "Manufacturing" true))
            ++ block "Waste Generation"
                 (List.firstn 3
                    (rec.get_category_recommendations "Waste Generation"
                       "Manufacturing" true)))%list.
Proof.
  assert (Hnd : List.NoDup
                  (List.map fst
                     [("Waste Generation", 0.3); ("Business Travel", 0);
                      ("Refrigerants", infinity); ("Fugitive", 2)]))
    by (cbn [List.map fst]; repeat constructor; cbn [In];
        intros H; repeat destruct H as [H | H]; discriminate H || exact H).
  assert (Hd : no_nan
                 [("Waste Generation", 0.3); ("Business Travel", 0);
                  ("Refrigerants", infinity); ("Fugitive", 2)])
    by (repeat constructor).
  destruct (key_recommendations_blocks _ "Manufacturing" Hnd Hd)
    as (top & recs & _ & Htop & Hrecs & _ & Hkey & _).
  exists recs. split; [exact Hrecs |].
  rewrite Hkey.
  assert (H : Some top = Some ["Refrigerants"; "Fugitive"; "Waste Generation"])
    by (rewrite <- Htop; vm_compute; reflexivity).
  injection H as ->. vm_compute. reflexivity.
Defined.

End TopCategories64.
